(** * briefme: the provider layer and the briefing orchestrator

    A shallow embedding of [lib/ai_providers.ts] (the class-based module and
    the older function-based module of the same name), [lib/search.ts],
    [lib/markdown.ts], [lib/types.ts] and [app/actions.ts], followed by the
    properties the design document states about them.

    Conventions.
    - A JavaScript string is the list of its UTF-16 code units ([JsString]).
    - An [async] function is a computation in the monad [M]: it reads the
      environment (credentials, the answers of the external services, the
      runtime's library functions), threads the module-level mutable state
      and the log of network calls, and ends in a value or a thrown value.
    - The answers of the external services are functions of the request and
      of the asynchronous task that issues it. *)

From Stdlib Require Import List ZArith NArith Lia Bool Sorted Permutation.
From Stdlib Require String Ascii DecimalString.
Import ListNotations.
Import String.StringSyntax.
Delimit Scope string_scope with string.

Set Implicit Arguments.
Set Warnings "-register-all".

(* ===================================================================== *)
(** ** JavaScript strings *)
(* ===================================================================== *)

Definition CodeUnit := N.
Definition JsString := list CodeUnit.

(** Decoding of the UTF-8 bytes of a source literal into code units. *)
Fixpoint utf16_of_utf8 (bs : list N) : JsString :=
  match bs with
  | [] => []
  | b0 :: r0 =>
    if (b0 <? 0x80)%N then b0 :: utf16_of_utf8 r0
    else match r0 with
    | [] => [b0]
    | b1 :: r1 =>
      if (b0 <? 0xE0)%N
      then ((b0 - 0xC0) * 64 + (b1 - 0x80))%N :: utf16_of_utf8 r1
      else match r1 with
      | [] => [b0; b1]
      | b2 :: r2 =>
        if (b0 <? 0xF0)%N
        then ((b0 - 0xE0) * 4096 + (b1 - 0x80) * 64 + (b2 - 0x80))%N
               :: utf16_of_utf8 r2
        else match r2 with
        | [] => [b0; b1; b2]
        | b3 :: r3 =>
          let cp := ((b0 - 0xF0) * 262144 + (b1 - 0x80) * 4096
                     + (b2 - 0x80) * 64 + (b3 - 0x80))%N in
          let v := (cp - 0x10000)%N in
          (0xD800 + v / 1024)%N :: (0xDC00 + v mod 1024)%N :: utf16_of_utf8 r3
        end
      end
    end
  end.

Definition js (s : String.string) : JsString :=
  utf16_of_utf8 (map Ascii.N_of_ascii (String.list_ascii_of_string s)).

Arguments js s%_string : simpl never.

Definition cu_eqb (a b : CodeUnit) : bool := N.eqb a b.

Fixpoint js_eqb (a b : JsString) : bool :=
  match a, b with
  | [], [] => true
  | x :: a', y :: b' => cu_eqb x y && js_eqb a' b'
  | _, _ => false
  end.

(** [!s] for a string: only the empty string is falsy. *)
Definition str_truthy (s : JsString) : bool :=
  match s with [] => false | _ => true end.

(** WhiteSpace and LineTerminator code points, as [String.prototype.trim]
    and the regular-expression class [\s] use them. *)
Definition isWhiteSpace (c : CodeUnit) : bool :=
  (N.eqb c 0x09 || N.eqb c 0x0A || N.eqb c 0x0B || N.eqb c 0x0C
   || N.eqb c 0x0D || N.eqb c 0x20 || N.eqb c 0xA0 || N.eqb c 0x1680
   || (N.leb 0x2000 c && N.leb c 0x200A)
   || N.eqb c 0x2028 || N.eqb c 0x2029 || N.eqb c 0x202F
   || N.eqb c 0x205F || N.eqb c 0x3000 || N.eqb c 0xFEFF)%bool.

Fixpoint trimStart (s : JsString) : JsString :=
  match s with
  | c :: s' => if isWhiteSpace c then trimStart s' else s
  | [] => []
  end.

Definition trimEnd (s : JsString) : JsString := rev (trimStart (rev s)).

Definition trim (s : JsString) : JsString := trimEnd (trimStart s).

Definition LF : CodeUnit := 0x0A%N.

(** [s.split(sep)] for a separator of one code unit. *)
Fixpoint split (sep : CodeUnit) (s : JsString) : list JsString :=
  match s with
  | [] => [[]]
  | c :: s' =>
    if cu_eqb c sep then [] :: split sep s'
    else match split sep s' with
         | cur :: rest => (c :: cur) :: rest
         | [] => [[c]]
         end
  end.

Fixpoint startsWith (s p : JsString) : bool :=
  match p, s with
  | [], _ => true
  | x :: p', y :: s' => cu_eqb x y && startsWith s' p'
  | _ :: _, [] => false
  end.

Fixpoint includes (s p : JsString) : bool :=
  startsWith s p || match s with [] => false | _ :: s' => includes s' p end.

(** [s.indexOf(p)]: the first position at which [p] occurs, or [-1]. *)
Fixpoint indexOf_from (i : Z) (s p : JsString) : Z :=
  if startsWith s p then i
  else match s with
       | [] => (-1)%Z
       | _ :: s' => indexOf_from (i + 1)%Z s' p
       end.

Definition indexOf (s p : JsString) : Z := indexOf_from 0%Z s p.

(** [s.substring(a, b)] and [s.substring(a)] for [0 <= a <= b]. *)
Definition substring (s : JsString) (a b : nat) : JsString :=
  firstn (b - a) (skipn a s).

Definition substring_from (s : JsString) (a : nat) : JsString := skipn a s.

(** [xs.slice(0, n)] for [0 <= n]. *)
Definition slice0 {A} (n : nat) (xs : list A) : list A := firstn n xs.

(** [s.replace(pattern, replacement)] with a string pattern: the first
    occurrence is replaced, and [$$], [$&], [$`] and [$'] in the replacement
    are expanded (a string pattern has no capture group, so [$1] and the
    like stay as they are). *)
Fixpoint getSubstitution (matched before after repl : JsString) : JsString :=
  match repl with
  | [] => []
  | c :: r =>
    if N.eqb c 0x24 then
      match r with
      | d :: r' =>
        if N.eqb d 0x24 then 0x24%N :: getSubstitution matched before after r'
        else if N.eqb d 0x26 then matched ++ getSubstitution matched before after r'
        else if N.eqb d 0x60 then before ++ getSubstitution matched before after r'
        else if N.eqb d 0x27 then after ++ getSubstitution matched before after r'
        else c :: getSubstitution matched before after r
      | [] => [c]
      end
    else c :: getSubstitution matched before after r
  end.

Definition replace_first (s pattern repl : JsString) : JsString :=
  let i := indexOf s pattern in
  if (i <? 0)%Z then s
  else
    let before := firstn (Z.to_nat i) s in
    let after := skipn (Z.to_nat i + length pattern) s in
    before ++ getSubstitution pattern before after repl ++ after.

(** [/^\d+\.\s*/]: a run of digits, a dot and the white space after it, at
    the start of the string. *)
Definition isDigit (c : CodeUnit) : bool := (N.leb 0x30 c && N.leb c 0x39)%bool.

Fixpoint dropDigits (s : JsString) : JsString :=
  match s with
  | c :: s' => if isDigit c then dropDigits s' else s
  | [] => []
  end.

Definition stripNumbering (s : JsString) : JsString :=
  match s with
  | c :: _ =>
    if isDigit c then
      match dropDigits s with
      | d :: r => if N.eqb d 0x2E then trimStart r else s
      | [] => s
      end
    else s
  | [] => s
  end.

(** [/\*\*(.*?)\*\*/g] replaced by ['$1']: every pair of [**] markers on
    one line is removed, leftmost and shortest first.  The dot does not
    match a line terminator. *)
Definition isLineTerminator (c : CodeUnit) : bool :=
  (N.eqb c 0x0A || N.eqb c 0x0D || N.eqb c 0x2028 || N.eqb c 0x2029)%bool.

(** The text up to the next [**], and what follows that marker. *)
Fixpoint findClosingStars (s : JsString) : option (JsString * JsString) :=
  if startsWith s (js "**") then Some ([], skipn 2 s)
  else match s with
       | [] => None
       | c :: s' =>
         if isLineTerminator c then None
         else match findClosingStars s' with
              | Some (inner, rest) => Some (c :: inner, rest)
              | None => None
              end
       end.

Fixpoint removeBold_fuel (fuel : nat) (s : JsString) : JsString :=
  match fuel with
  | O => s
  | S fuel' =>
    match s with
    | [] => []
    | c :: s' =>
      if startsWith s (js "**") then
        match findClosingStars (skipn 2 s) with
        | Some (inner, rest) => inner ++ removeBold_fuel fuel' rest
        | None => c :: removeBold_fuel fuel' s'
        end
      else c :: removeBold_fuel fuel' s'
    end
  end.

Definition removeBold (s : JsString) : JsString :=
  removeBold_fuel (S (List.length s)) s.

(** Decimal rendering of an integer, as a template literal prints it. *)
Definition Z_toString (z : Z) : JsString :=
  js (DecimalString.NilZero.string_of_int (Z.to_int z)).

(* ===================================================================== *)
(** ** Values of unknown shape, thrown values, results *)
(* ===================================================================== *)

(** What [JSON.parse] and [response.json()] produce, with [undefined] for
    what a missing element or property reads as.  A number is kept as the
    decimal it was written as ([mantissa * 10 ^ exponent10]). *)
Record JsNumber := { mantissa : Z; exponent10 : Z }.

Inductive JsValue :=
| JUndefined
| JNull
| JBool (b : bool)
| JNum (n : JsNumber)
| JStr (s : JsString)
| JArr (items : list JsValue)
| JObj (props : list (JsString * JsValue)).

Definition truthy (v : JsValue) : bool :=
  match v with
  | JUndefined | JNull => false
  | JBool b => b
  | JNum n => negb (Z.eqb (mantissa n) 0)
  | JStr s => str_truthy s
  | JArr _ | JObj _ => true
  end.

Fixpoint lookup_prop (k : JsString) (props : list (JsString * JsValue)) : JsValue :=
  match props with
  | [] => JUndefined
  | (k', v) :: rest => if js_eqb k k' then v else lookup_prop k rest
  end.

(** A thrown value: an [Error] (of any class) with its message, or anything
    else, kept as what [String(v)] gives. *)
Inductive Thrown :=
| JsError (message : JsString)
| JsOther (asString : JsString).

Inductive Result (A : Type) :=
| Ok (value : A)
| Throw (e : Thrown).
Arguments Ok {A} value.
Arguments Throw {A} e.

(** [v.name] for a name that no built-in prototype defines: a property of
    an object, [undefined] on other values, a [TypeError] on [null] and
    [undefined]. *)
Definition get_prop (v : JsValue) (k : JsString) : Result JsValue :=
  match v with
  | JUndefined | JNull =>
    Throw (JsError (js "Cannot read properties of " ++
                    (match v with JNull => js "null" | _ => js "undefined" end)))
  | JObj props => Ok (lookup_prop k props)
  | _ => Ok JUndefined
  end.

(** [v[i]] for an index [i]. *)
Definition get_index (v : JsValue) (i : nat) : Result JsValue :=
  match v with
  | JUndefined | JNull =>
    Throw (JsError (js "Cannot read properties of " ++
                    (match v with JNull => js "null" | _ => js "undefined" end)))
  | JArr items => Ok (nth i items JUndefined)
  | JStr s => Ok (match nth_error s i with Some c => JStr [c] | None => JUndefined end)
  | JObj props => Ok (lookup_prop (Z_toString (Z.of_nat i)) props)
  | _ => Ok JUndefined
  end.

(** [error instanceof Error ? error.message : String(error)]. *)
Definition message_or_string (e : Thrown) : JsString :=
  match e with
  | JsError m => m
  | JsOther s => s
  end.

(* ===================================================================== *)
(** ** lib/types.ts *)
(* ===================================================================== *)

Inductive SummaryLength := short | medium | detailed.

Inductive AIProvider := gemini | groq | ollama.

Definition AIProvider_eqb (a b : AIProvider) : bool :=
  match a, b with
  | gemini, gemini | groq, groq | ollama, ollama => true
  | _, _ => false
  end.

(** The fields of a source come out of the search service's JSON answer
    unchecked, so they are values of unknown shape. *)
Record BriefingSource := {
  title : JsValue;
  url : JsValue;
  snippet : JsValue
}.

(** [tweets] is declared [string[]]; the function-based module hands over
    what it read from the model's JSON unchecked, so the field holds a value
    of unknown shape.  [error] is optional. *)
Record BriefingItem := {
  interest : JsString;
  summary : JsString;
  sources : list BriefingSource;
  tweets : JsValue;
  error : option JsString
}.

Record GenerateBriefingResponse := {
  briefings : list BriefingItem;
  errors : list JsString
}.

Definition js_strings (l : list JsString) : JsValue := JArr (map JStr l).

(** A [TrendingTopic] object literal [{ title, description }]. *)
Definition TrendingTopic (t d : JsString) : JsValue :=
  JObj [(js "title", JStr t); (js "description", JStr d)].

(* ===================================================================== *)
(** ** The environment, the mutable state and the monad of async code *)
(* ===================================================================== *)

(** The asynchronous task a request is issued from: the caller's own, or the
    pipeline started for the topic at a given index. *)
Inductive Task := MainTask | PipelineTask (index : nat).

Inductive FetchOutcome :=
| FetchRejects (e : Thrown)
| FetchResponse (ok : bool) (json : Result JsValue).

(** Everything the code reads but does not own: the process environment,
    the three model services, the search service and the library functions
    of the runtime whose definition is outside the repository. *)
Record Env := {
  GEMINI_API_KEY : option JsString;
  GROQ_API_KEY : option JsString;
  (** [model.generateContent(prompt)] followed by [response.text()] *)
  gemini_generateContent : Task -> JsString -> JsString -> Result JsString;
  (** [chat.completions.create], keyed by model, prompt and [max_tokens];
      the answer is [choices[0]?.message?.content] *)
  groq_chat_create : Task -> JsString -> JsString -> Z -> Result (option JsString);
  (** [models.list()]: the [id]s of [models.data], if there is a [data] *)
  groq_models_list : Task -> Result (option (list JsString));
  (** [generate({model, prompt, stream: false})]: its [response] field *)
  ollama_generate : Task -> JsString -> JsString -> Result JsString;
  (** [list()]: the [name]s of [result.models], if there is a [models] *)
  ollama_list : Task -> Result (option (list JsString));
  fetch : Task -> JsString -> FetchOutcome;
  (** the [marked] package *)
  marked : JsString -> Result JsString;
  (** removal of [<script>] elements by the regular expression of
      [renderMarkdown] *)
  strip_script_tags : JsString -> JsString;
  toLowerCase : JsString -> JsString;
  JSON_parse : JsString -> Result JsValue
}.

Inductive NetCall :=
| GeminiGenerateContent (model prompt : JsString)
| GroqChatCreate (model prompt : JsString) (max_tokens : Z)
| GroqModelsList
| OllamaGenerate (model prompt : JsString)
| OllamaList
| Fetch (url : JsString).

Definition isGenerationCall (c : NetCall) : bool :=
  match c with
  | GeminiGenerateContent _ _ | GroqChatCreate _ _ _ | OllamaGenerate _ _ => true
  | GroqModelsList | OllamaList | Fetch _ => false
  end.

(** One entry of [providerState]. *)
Record ModelState := {
  models : list JsString;
  selectedModel : option JsString
}.

(** The mutable state of the module: [providerState], the [selectedModel]
    fields of the Groq and Ollama provider objects, and the network calls
    issued so far, oldest first. *)
Record World := {
  ps_ollama : ModelState;
  ps_groq : ModelState;
  groq_selectedModel : option JsString;
  ollama_selectedModel : option JsString;
  network : list NetCall
}.

Record Ctx := { env : Env; task : Task }.

Definition M (A : Type) : Type := Ctx -> World -> Result A * World.

Definition ret {A} (a : A) : M A := fun _ w => (Ok a, w).

Definition bind {A B} (m : M A) (k : A -> M B) : M B :=
  fun c w =>
    match m c w with
    | (Ok a, w') => k a c w'
    | (Throw e, w') => (Throw e, w')
    end.

Definition throw {A} (e : Thrown) : M A := fun _ w => (Throw e, w).

Definition try_catch {A} (m : M A) (handler : Thrown -> M A) : M A :=
  fun c w =>
    match m c w with
    | (Ok a, w') => (Ok a, w')
    | (Throw e, w') => handler e c w'
    end.

Definition ask : M Env := fun c w => (Ok (env c), w).
Definition current_task : M Task := fun c w => (Ok (task c), w).
(** Reading a part of the state. *)
Definition gets {A} (f : World -> A) : M A := fun _ w => (Ok (f w), w).

(** Completion of a synchronous or awaited call that may throw. *)
Definition lift {A} (r : Result A) : M A := fun _ w => (r, w).

Definition in_task {A} (t : Task) (m : M A) : M A :=
  fun c w => m {| env := env c; task := t |} w.

Declare Scope js_scope.
Delimit Scope js_scope with js.
Notation "x <- m ;; k" := (bind m (fun x => k))
  (at level 100, m at next level, right associativity) : js_scope.
Notation "m ;; k" := (bind m (fun _ => k))
  (at level 100, right associativity) : js_scope.
Notation "' pat <- m ;; k" := (bind m (fun x => match x with pat => k end))
  (at level 100, pat pattern, m at next level, right associativity) : js_scope.
Open Scope js_scope.

Definition new_Error {A} (message : String.string) : M A := throw (JsError (js message)).
Arguments new_Error {A} message%_string.

(** Record a request in the log and deliver the service's answer. *)
Definition request {A} (call : NetCall) (answer : Result A) : M A :=
  fun _ w =>
    (answer,
     {| ps_ollama := ps_ollama w; ps_groq := ps_groq w;
        groq_selectedModel := groq_selectedModel w;
        ollama_selectedModel := ollama_selectedModel w;
        network := network w ++ [call] |}).

Definition opt_truthy (o : option JsString) : bool :=
  match o with Some s => str_truthy s | None => false end.

(** [o || d] for an optional string. *)
Definition or_default (o : option JsString) (d : JsString) : JsString :=
  match o with
  | Some s => if str_truthy s then s else d
  | None => d
  end.

(** A literal of the source in which a backquote stands for the double
    quote character. *)
Definition jsq (s : String.string) : JsString :=
  map (fun c => if N.eqb c 0x60 then 0x22%N else c) (js s).
Arguments jsq s%_string : simpl never.

(* ===================================================================== *)
(** ** [encodeURIComponent] *)
(* ===================================================================== *)

Definition isUriUnescaped (c : CodeUnit) : bool :=
  ((N.leb 0x41 c && N.leb c 0x5A) || (N.leb 0x61 c && N.leb c 0x7A)
   || (N.leb 0x30 c && N.leb c 0x39)
   || N.eqb c 0x2D || N.eqb c 0x5F || N.eqb c 0x2E || N.eqb c 0x21
   || N.eqb c 0x7E || N.eqb c 0x2A || N.eqb c 0x27 || N.eqb c 0x28
   || N.eqb c 0x29)%bool.

Definition isHighSurrogate (c : CodeUnit) : bool := (N.leb 0xD800 c && N.leb c 0xDBFF)%bool.
Definition isLowSurrogate (c : CodeUnit) : bool := (N.leb 0xDC00 c && N.leb c 0xDFFF)%bool.

Definition hexDigit (n : N) : CodeUnit :=
  if (n <? 10)%N then (0x30 + n)%N else (0x41 + (n - 10))%N.

Definition percentEncode (octet : N) : JsString :=
  [0x25%N; hexDigit (octet / 16)%N; hexDigit (octet mod 16)%N].

Definition utf8_octets (cp : N) : list N :=
  if (cp <? 0x80)%N then [cp]
  else if (cp <? 0x800)%N then [0xC0 + cp / 64; 0x80 + cp mod 64]%N
  else if (cp <? 0x10000)%N then
    [0xE0 + cp / 4096; 0x80 + (cp / 64) mod 64; 0x80 + cp mod 64]%N
  else
    [0xF0 + cp / 262144; 0x80 + (cp / 4096) mod 64;
     0x80 + (cp / 64) mod 64; 0x80 + cp mod 64]%N.

Definition URIError : Thrown := JsError (js "URI malformed").

Definition prepend (p : JsString) (r : Result JsString) : Result JsString :=
  match r with
  | Ok s => Ok (p ++ s)
  | Throw e => Throw e
  end.

Fixpoint encodeURIComponent (s : JsString) : Result JsString :=
  match s with
  | [] => Ok []
  | c :: r =>
    if isUriUnescaped c then prepend [c] (encodeURIComponent r)
    else if isLowSurrogate c then Throw URIError
    else if isHighSurrogate c then
      match r with
      | d :: r' =>
        if isLowSurrogate d then
          let cp := ((c - 0xD800) * 0x400 + (d - 0xDC00) + 0x10000)%N in
          prepend (concat (map percentEncode (utf8_octets cp)))
                  (encodeURIComponent r')
        else Throw URIError
      | [] => Throw URIError
      end
    else prepend (concat (map percentEncode (utf8_octets c)))
                 (encodeURIComponent r)
  end.

(** A string without unpaired surrogates. *)
Fixpoint isWellFormed (s : JsString) : bool :=
  match s with
  | [] => true
  | c :: r =>
    if isLowSurrogate c then false
    else if isHighSurrogate c then
      match r with
      | d :: r' => isLowSurrogate d && isWellFormed r'
      | [] => false
      end
    else isWellFormed r
  end.

(* ===================================================================== *)
(** ** lib/markdown.ts *)
(* ===================================================================== *)

Definition renderMarkdown (e : Env) (markdown : JsString) : JsString :=
  match marked e (strip_script_tags e markdown) with
  | Ok html => html
  | Throw _ => markdown
  end.

(* ===================================================================== *)
(** ** lib/search.ts *)
(* ===================================================================== *)

Definition WIKIPEDIA_API : JsString := js "https://en.wikipedia.org/w/api.php".

(** [await fetch(url)] *)
Definition do_fetch (url : JsString) : M (bool * Result JsValue) :=
  e <- ask ;;
  t <- current_task ;;
  match fetch e t url with
  | FetchRejects err => request (Fetch url) (Throw err)
  | FetchResponse ok json => request (Fetch url) (Ok (ok, json))
  end.

Definition TypeError (message : String.string) : Thrown := JsError (js message).
Arguments TypeError message%_string.

(** [xs.slice(0, n)] for any integer [n]: a negative [n] counts from the
    end. *)
Definition slice0Z {A} (n : Z) (xs : list A) : list A :=
  if (n <? 0)%Z then firstn (Z.to_nat (Z.of_nat (List.length xs) + n)) xs
  else firstn (Z.to_nat n) xs.

(** The callback of [titles.map] at one index. *)
Definition source_at (descriptions urls : JsValue) (title : JsValue) (index : nat)
  : Result BriefingSource :=
  match get_index urls index with
  | Throw e => Throw e
  | Ok u =>
    match get_index descriptions index with
    | Throw e => Throw e
    | Ok d =>
      Ok {| title := title;
            url := u;
            snippet := if truthy d then d
                       else JStr (js "No description available") |}
    end
  end.

Fixpoint map_sources (descriptions urls : JsValue) (index : nat)
    (titles : list JsValue) : Result (list BriefingSource) :=
  match titles with
  | [] => Ok []
  | t :: rest =>
    match source_at descriptions urls t index with
    | Throw e => Throw e
    | Ok s =>
      match map_sources descriptions urls (S index) rest with
      | Throw e => Throw e
      | Ok ss => Ok (s :: ss)
      end
    end
  end.

(** [const [term, titles, descriptions, urls] = v; return titles.map(...)] *)
Definition sources_of_answer (v : JsValue) : Result (list BriefingSource) :=
  match v with
  | JArr items =>
    match nth 1 items JUndefined with
    | JArr titles =>
      map_sources (nth 2 items JUndefined) (nth 3 items JUndefined) 0 titles
    | _ => Throw (TypeError "titles.map is not a function")
    end
  | JStr _ => Throw (TypeError "titles.map is not a function")
  | _ => Throw (TypeError "object is not iterable")
  end.

Definition fallbackSource (encodedQuery : JsString) : BriefingSource :=
  {| title := JStr (js "Search Results Unavailable");
     url := JStr (js "https://www.google.com/search?q=" ++ encodedQuery);
     snippet := JStr (js "Could not fetch real-time sources. Click to search Google.") |}.

(** The template literal of the request address. *)
Definition searchUrl (searchQuery : JsString) (maxResults : Z) : JsString :=
  WIKIPEDIA_API ++ js "?action=opensearch&format=json&search="
  ++ searchQuery ++ js "&limit=" ++ Z_toString maxResults
  ++ js "&namespace=0&origin=*".
Arguments searchUrl : simpl never.

Definition searchWeb (query : JsString) (maxResults : Z) : M (list BriefingSource) :=
  try_catch
    (searchQuery <- lift (encodeURIComponent query) ;;
     let url := searchUrl searchQuery maxResults in
     '(ok, json) <- do_fetch url ;;
     if negb ok then new_Error "Wikipedia search failed"
     else
       v <- lift json ;;
       mapped <- lift (sources_of_answer v) ;;
       ret (slice0Z maxResults mapped))
    (fun error =>
       encoded <- lift (encodeURIComponent query) ;;
       ret [fallbackSource encoded]).

(** The default of the second parameter. *)
Definition searchWeb_default (query : JsString) : M (list BriefingSource) :=
  searchWeb query 5.

(* ===================================================================== *)
(** ** lib/ai_providers.ts, the class-based module *)
(* ===================================================================== *)

Definition set_ps_ollama (m : ModelState) (w : World) : World :=
  {| ps_ollama := m; ps_groq := ps_groq w;
     groq_selectedModel := groq_selectedModel w;
     ollama_selectedModel := ollama_selectedModel w;
     network := network w |}.

Definition set_ps_groq (m : ModelState) (w : World) : World :=
  {| ps_ollama := ps_ollama w; ps_groq := m;
     groq_selectedModel := groq_selectedModel w;
     ollama_selectedModel := ollama_selectedModel w;
     network := network w |}.

Definition set_groq_selectedModel (o : option JsString) (w : World) : World :=
  {| ps_ollama := ps_ollama w; ps_groq := ps_groq w;
     groq_selectedModel := o;
     ollama_selectedModel := ollama_selectedModel w;
     network := network w |}.

Definition set_ollama_selectedModel (o : option JsString) (w : World) : World :=
  {| ps_ollama := ps_ollama w; ps_groq := ps_groq w;
     groq_selectedModel := groq_selectedModel w;
     ollama_selectedModel := o;
     network := network w |}.

Definition modify (f : World -> World) : M unit := fun _ w => (Ok tt, f w).

(** The interface the three provider classes implement.  The topics come
    out of the model's JSON unchecked, hence as a value of unknown shape. *)
Module AIProviderInterface.
Record t := {
  generateSummary : JsString -> SummaryLength -> M (JsString * list BriefingSource);
  generateTweets : JsString -> M (list JsString);
  getTrendingTopics : M JsValue;
  isAvailable : Env -> bool;
  getName : JsString
}.
End AIProviderInterface.

Module Providers.

Definition CONFIG_GEMINI_MODEL : JsString := js "gemini-2.5-flash".
Definition MAX_TOKENS_SUMMARY : Z := 1000.
Definition MAX_TOKENS_TWEETS : Z := 500.
Definition MAX_TOKENS_TRENDING : Z := 800.

Definition PROMPTS_TWEET : JsString :=
  jsq "Convert this news summary into sharply satirical, comedy-writer-worthy tweets that masterfully blend sharp-edged, razor-sharp, clever wordplay, and unexpected perspectives to highlight the absurdity within serious topics. Each tweet should ooze a comedic edge that resonates with users who crave intellectual humor. Use wit, irony, and clever observations to craft tweets for a professional comedy writer covering current events. Write full, substantial tweets between 180-270 characters each - avoid short, punchy one-liners. Develop the satirical premise with clever observations and unexpected twists. NO hashtags allowed under any circumstances.

Summary: {summary}

Return only the 3 tweets, one per line, without any JSON formatting or additional text. Make them satirical masterpieces with real bite and substance!".

Definition lengthInstructions (summaryLength : SummaryLength) : JsString :=
  match summaryLength with
  | short => js "Write a concise 2-3 sentence summary"
  | medium => js "Write a comprehensive 1-2 paragraph summary"
  | detailed => js "Write a detailed analysis with 3-4 paragraphs including context and implications"
  end.

(** [getSummaryPrompt] of [GeminiProvider] and of [GroqProvider]. *)
Definition getSummaryPrompt (interest : JsString) (summaryLength : SummaryLength) : JsString :=
  lengthInstructions summaryLength
  ++ jsq " about recent developments in `"
  ++ interest
  ++ jsq "`. Focus on the most important and recent news from the last 48 hours. Include specific facts, numbers, and key developments. Make it informative and engaging.

Format your response using proper markdown:
- Use **bold** for key terms and important facts
- Use bullet points (-) for lists of developments
- Use numbered lists (1., 2., etc.) for sequential information
- Use ### headings for main sections if needed
- Include relevant statistics or metrics where available

Please search for current information about this topic and provide a well-sourced summary.".

Definition getTweetPrompt (summary : JsString) : JsString :=
  replace_first PROMPTS_TWEET (js "{summary}") summary.

(** The parsing of the model's answer into tweets; the three classes
    contain this expression word for word. *)
Definition keepTweetLine (line : JsString) : bool :=
  (10 <? List.length line) && negb (startsWith line (js "```"))
  && negb (includes line (js "tweet")).

Definition fitTweet (tweet : JsString) : JsString :=
  if 270 <? List.length tweet then substring tweet 0 267 ++ js "..." else tweet.

Definition placeholderTweets : list JsString :=
  [ js "ðŸš€ Just witnessed another groundbreaking development in tech! The innovation cycle keeps accelerating with new breakthroughs emerging daily. What's next on the horizon? The pace of technological advancement shows no signs of slowing down.";
    js "ðŸ“ˆ Markets are showing strong reactions to the latest industry developments. Companies are pivoting faster than ever to maintain their competitive edge in this dynamic environment. Strategic adaptation is becoming the key to survival.";
    js "ðŸŒŸ The technological landscape continues to evolve at breakneck speed. From cutting-edge AI to revolutionary discoveries, we're experiencing unprecedented innovation. The future of technology is unfolding before our eyes." ].

Definition tweetsOfContent (content : JsString) : list JsString :=
  let tweets :=
    slice0 3 (map fitTweet (filter keepTweetLine (map trim (split LF content)))) in
  if 0 <? List.length tweets then tweets else placeholderTweets.

Definition trendingPrompt_json : JsString :=
  jsq "Identify the top 3 most significant global news topics from the last 24 hours. Focus on major developments in technology, politics, economics, science, or significant global events. Avoid celebrity gossip, sports scores, or ephemeral social media trends.

Return the response as a JSON object with this exact structure:
{
  `topics`: [
    {`title`: `Topic Title`, `description`: `Brief description`},
    {`title`: `Topic Title`, `description`: `Brief description`},
    {`title`: `Topic Title`, `description`: `Brief description`}
  ]
}".

Definition trendingPrompt_text : JsString :=
  jsq "Identify the top 3 most significant global news topics from the last 24 hours. Focus on major developments in technology, politics, economics, science, or significant global events. Avoid celebrity gossip, sports scores, or ephemeral social media trends.

Please format your response as exactly 3 topics, each with a title and brief description. Be direct and informative.".

(** [parsed.topics || []] inside [try], with the fixed list of the [catch]
    clause. *)
Definition topicsOfJson (e : Env) (content : JsString) (fallback : JsValue) : JsValue :=
  match JSON_parse e content with
  | Throw _ => fallback
  | Ok parsed =>
    match get_prop parsed (js "topics") with
    | Throw _ => fallback
    | Ok t => if truthy t then t else JArr []
    end
  end.

(* ------------------------------ Gemini ------------------------------ *)

Module GeminiProvider.

Definition isAvailable (e : Env) : bool := opt_truthy (GEMINI_API_KEY e).

Definition getName : JsString := js "Google Gemini".

(** [getGenerativeModel({model}).generateContent(prompt)], then its text. *)
Definition generateContent (prompt : JsString) : M JsString :=
  e <- ask ;;
  t <- current_task ;;
  request (GeminiGenerateContent CONFIG_GEMINI_MODEL prompt)
          (gemini_generateContent e t CONFIG_GEMINI_MODEL prompt).

Definition generateSummary (interest : JsString) (summaryLength : SummaryLength)
  : M (JsString * list BriefingSource) :=
  e <- ask ;;
  if negb (isAvailable e) then new_Error "Gemini API key not configured"
  else
    let prompt := getSummaryPrompt interest summaryLength in
    text <- generateContent prompt ;;
    ret (renderMarkdown e text, []).

Definition generateTweets (summary : JsString) : M (list JsString) :=
  e <- ask ;;
  if negb (isAvailable e) then new_Error "Gemini API key not configured"
  else
    let prompt := getTweetPrompt summary in
    content <- generateContent prompt ;;
    ret (tweetsOfContent content).

Definition fallbackTopics : JsValue :=
  JArr [ TrendingTopic (js "Technology Updates") (js "Latest tech developments");
         TrendingTopic (js "Global Politics") (js "Recent political developments");
         TrendingTopic (js "Economic News") (js "Financial market updates") ].

Definition getTrendingTopics : M JsValue :=
  e <- ask ;;
  if negb (isAvailable e) then new_Error "Gemini API key not configured"
  else
    content <- generateContent trendingPrompt_json ;;
    ret (topicsOfJson e content fallbackTopics).

Definition instance : AIProviderInterface.t :=
  {| AIProviderInterface.generateSummary := generateSummary;
     AIProviderInterface.generateTweets := generateTweets;
     AIProviderInterface.getTrendingTopics := getTrendingTopics;
     AIProviderInterface.isAvailable := isAvailable;
     AIProviderInterface.getName := getName |}.

End GeminiProvider.

(* ------------------------------- Groq ------------------------------- *)

Module GroqProvider.

Definition isAvailable (e : Env) : bool := opt_truthy (GROQ_API_KEY e).

Definition getName : JsString := js "Groq".

Definition setSelectedModel (model : JsString) : M unit :=
  modify (set_groq_selectedModel (Some model)).

(** [chat.completions.create], then [choices[0]?.message?.content || '']. *)
Definition complete (model prompt : JsString) (max_tokens : Z) : M JsString :=
  e <- ask ;;
  t <- current_task ;;
  content <- request (GroqChatCreate model prompt max_tokens)
                     (groq_chat_create e t model prompt max_tokens) ;;
  ret (or_default content []).

(** The two guards every method starts with; the selected model if both
    pass. *)
Definition requireModel : M JsString :=
  e <- ask ;;
  if negb (isAvailable e) then new_Error "Groq API key not configured"
  else
    selected <- gets groq_selectedModel ;;
    match selected with
    | Some m =>
      if str_truthy m then ret m
      else new_Error "No Groq model selected. Please select a model first."
    | None => new_Error "No Groq model selected. Please select a model first."
    end.

Definition generateSummary (interest : JsString) (summaryLength : SummaryLength)
  : M (JsString * list BriefingSource) :=
  model <- requireModel ;;
  let prompt := getSummaryPrompt interest summaryLength in
  content <- complete model prompt MAX_TOKENS_SUMMARY ;;
  sources <- searchWeb_default interest ;;
  e <- ask ;;
  ret (renderMarkdown e content, sources).

Definition generateTweets (summary : JsString) : M (list JsString) :=
  model <- requireModel ;;
  let prompt := getTweetPrompt summary in
  content <- complete model prompt MAX_TOKENS_TWEETS ;;
  ret (tweetsOfContent content).

(** The first branch of [getTrendingTopics]: the topics of a JSON answer,
    if it has a non-empty array of them. *)
Definition topicsOfJsonArray (e : Env) (content : JsString) : option JsValue :=
  match JSON_parse e content with
  | Throw _ => None
  | Ok parsed =>
    match get_prop parsed (js "topics") with
    | Throw _ => None
    | Ok (JArr items) =>
      if 0 <? List.length items then Some (JArr (slice0 3 items)) else None
    | Ok _ => None
    end
  end.

(** The body of the [for] loop, for one line. *)
Definition topicOfLine (e : Env) (rawLine : JsString) : JsValue :=
  let line := trim rawLine in
  let cleanLine := trim (removeBold (stripNumbering line)) in
  let colonIndex := indexOf cleanLine (js ":") in
  if (0 <? colonIndex)%Z then
    let title := trim (substring cleanLine 0 (Z.to_nat colonIndex)) in
    let description := trim (substring_from cleanLine (Z.to_nat colonIndex + 1)) in
    TrendingTopic title description
  else
    TrendingTopic cleanLine (js "Recent developments in " ++ toLowerCase e cleanLine).

Definition fallbackTopics : JsValue :=
  JArr [ TrendingTopic (js "Technology Updates") (js "Latest tech developments and innovations");
         TrendingTopic (js "Global Politics") (js "Recent political developments worldwide");
         TrendingTopic (js "Economic News") (js "Financial market updates and economic trends") ].

Definition topicsOfText (e : Env) (content : JsString) : JsValue :=
  let lines := filter (fun line => 10 <? List.length (trim line)) (split LF content) in
  let topics := map (topicOfLine e) (firstn (Nat.min (List.length lines) 3) lines) in
  if List.length topics =? 0 then fallbackTopics
  else JArr (slice0 3 topics).

Definition topicsOfContent (e : Env) (content : JsString) : JsValue :=
  match topicsOfJsonArray e content with
  | Some topics => topics
  | None => topicsOfText e content
  end.

Definition getTrendingTopics : M JsValue :=
  model <- requireModel ;;
  content <- complete model trendingPrompt_text MAX_TOKENS_TRENDING ;;
  e <- ask ;;
  ret (topicsOfContent e content).

Definition instance : AIProviderInterface.t :=
  {| AIProviderInterface.generateSummary := generateSummary;
     AIProviderInterface.generateTweets := generateTweets;
     AIProviderInterface.getTrendingTopics := getTrendingTopics;
     AIProviderInterface.isAvailable := isAvailable;
     AIProviderInterface.getName := getName |}.

End GroqProvider.

(* ------------------------------ Ollama ------------------------------ *)

Module OllamaProvider.

(** Availability is found out by listing the models; the cheap check
    always passes. *)
Definition isAvailable (e : Env) : bool := true.

Definition getName : JsString := js "Ollama (Local)".

Definition setSelectedModel (model : JsString) : M unit :=
  modify (set_ollama_selectedModel (Some model)).

Definition lengthInstructions (summaryLength : SummaryLength) : JsString :=
  match summaryLength with
  | short => js "Write a concise 2-3 sentence summary in plain English"
  | medium => js "Write a comprehensive 1-2 paragraph summary in plain English"
  | detailed => js "Write a detailed analysis with 3-4 paragraphs in plain English including context and implications"
  end.

Definition getSummaryPrompt (interest : JsString) (summaryLength : SummaryLength) : JsString :=
  lengthInstructions summaryLength
  ++ jsq " about recent developments in `"
  ++ interest
  ++ jsq "`. Focus on the most important and recent news from the last 48 hours. Include specific facts, numbers, and key developments. Make it informative and engaging.

Format your response using simple markdown:
- Use **bold** for key terms
- Use bullet points for lists
- Keep the language clear and professional

Provide factual information about this topic.".

(** [generate({model, prompt, stream: false})], then [response.response || '']. *)
Definition generate (model prompt : JsString) : M JsString :=
  e <- ask ;;
  t <- current_task ;;
  content <- request (OllamaGenerate model prompt) (ollama_generate e t model prompt) ;;
  ret content.

Definition requireModel : M JsString :=
  selected <- gets ollama_selectedModel ;;
  match selected with
  | Some m => if str_truthy m then ret m else new_Error "No Ollama model selected"
  | None => new_Error "No Ollama model selected"
  end.

Definition generateSummary (interest : JsString) (summaryLength : SummaryLength)
  : M (JsString * list BriefingSource) :=
  model <- requireModel ;;
  let prompt := getSummaryPrompt interest summaryLength in
  content <- generate model prompt ;;
  sources <- searchWeb_default interest ;;
  e <- ask ;;
  ret (renderMarkdown e content, sources).

Definition generateTweets (summary : JsString) : M (list JsString) :=
  model <- requireModel ;;
  let prompt := getTweetPrompt summary in
  content <- generate model prompt ;;
  ret (tweetsOfContent content).

Definition fallbackTopics : JsValue :=
  JArr [ TrendingTopic (js "AI Development") (js "Latest AI advancements");
         TrendingTopic (js "Tech Innovation") (js "New technology releases");
         TrendingTopic (js "Market Updates") (js "Financial developments") ].

Definition getTrendingTopics : M JsValue :=
  model <- requireModel ;;
  content <- generate model trendingPrompt_json ;;
  e <- ask ;;
  ret (topicsOfJson e content fallbackTopics).

Definition instance : AIProviderInterface.t :=
  {| AIProviderInterface.generateSummary := generateSummary;
     AIProviderInterface.generateTweets := generateTweets;
     AIProviderInterface.getTrendingTopics := getTrendingTopics;
     AIProviderInterface.isAvailable := isAvailable;
     AIProviderInterface.getName := getName |}.

End OllamaProvider.

(* ------------------------- module-level code ------------------------ *)

Definition providers (p : AIProvider) : AIProviderInterface.t :=
  match p with
  | gemini => GeminiProvider.instance
  | groq => GroqProvider.instance
  | ollama => OllamaProvider.instance
  end.

(** The state right after the module has been loaded. *)
Definition initialWorld : World :=
  {| ps_ollama := {| models := []; selectedModel := None |};
     ps_groq := {| models := []; selectedModel := None |};
     groq_selectedModel := None;
     ollama_selectedModel := None;
     network := [] |}.

(** [models[0] || null] *)
Definition first_or_null (ms : list JsString) : option JsString :=
  match ms with
  | m :: _ => if str_truthy m then Some m else None
  | [] => None
  end.

(** [models.includes(model)] *)
Definition includes_model (ms : list JsString) (model : JsString) : bool :=
  existsb (js_eqb model) ms.

Definition listOllamaModels : M (list JsString) :=
  try_catch
    (let ms := [js "llama2"; js "llama2:13b"; js "codellama"] in
     modify (fun w => set_ps_ollama
                        {| models := ms; selectedModel := selectedModel (ps_ollama w) |} w) ;;
     modify (fun w => set_ps_ollama
                        {| models := models (ps_ollama w);
                           selectedModel := first_or_null (models (ps_ollama w)) |} w) ;;
     gets (fun w => models (ps_ollama w)))
    (fun error =>
       modify (set_ps_ollama {| models := []; selectedModel := None |}) ;;
       ret []).

Definition setSelectedOllamaModel (model : JsString) : M unit :=
  listed <- gets (fun w => models (ps_ollama w)) ;;
  if includes_model listed model then
    modify (fun w => set_ps_ollama
                       {| models := models (ps_ollama w); selectedModel := Some model |} w) ;;
    OllamaProvider.setSelectedModel model
  else ret tt.

Definition getSelectedOllamaModel : M (option JsString) :=
  gets (fun w => selectedModel (ps_ollama w)).

(** The order of [Array.prototype.sort] without a comparator: by code
    units, a proper prefix first. *)
Fixpoint js_leb (a b : JsString) : bool :=
  match a, b with
  | [], _ => true
  | _ :: _, [] => false
  | x :: a', y :: b' =>
    if N.ltb x y then true
    else if N.ltb y x then false
    else js_leb a' b'
  end.

Fixpoint insert_sorted (x : JsString) (l : list JsString) : list JsString :=
  match l with
  | [] => [x]
  | y :: l' => if js_leb x y then x :: l else y :: insert_sorted x l'
  end.

Definition sort (l : list JsString) : list JsString :=
  fold_right insert_sorted [] l.

Definition set_groq_models (ms : list JsString) : M unit :=
  modify (fun w => set_ps_groq
                     {| models := ms; selectedModel := selectedModel (ps_groq w) |} w).

Definition listGroqModels : M (list JsString) :=
  try_catch
    (e <- ask ;;
     if negb (AIProviderInterface.isAvailable (providers groq) e)
     then new_Error "Groq API key not configured"
     else
       try_catch
         (t <- current_task ;;
          data <- request GroqModelsList (groq_models_list e t) ;;
          let allModels :=
            sort (filter str_truthy (match data with Some ids => ids | None => [] end)) in
          set_groq_models allModels ;;
          gets (fun w => models (ps_groq w)))
         (fun sdkError =>
            let fallbackModels :=
              [js "llama3-8b-8192"; js "llama3-70b-8192"; js "mixtral-8x7b-32768"] in
            set_groq_models fallbackModels ;;
            ret fallbackModels))
    (fun error =>
       set_groq_models [] ;;
       ret []).

Definition setSelectedGroqModel (model : JsString) : M unit :=
  listed <- gets (fun w => models (ps_groq w)) ;;
  if includes_model listed model then
    modify (fun w => set_ps_groq
                       {| models := models (ps_groq w); selectedModel := Some model |} w) ;;
    GroqProvider.setSelectedModel model
  else ret tt.

Definition getSelectedGroqModel : M (option JsString) :=
  gets (fun w => selectedModel (ps_groq w)).

Definition getAvailableModels (provider : AIProvider) : M (list JsString) :=
  match provider with
  | ollama => listOllamaModels
  | groq => listGroqModels
  | gemini => ret [CONFIG_GEMINI_MODEL]
  end.

Definition getAvailableProviders : M (list AIProvider) :=
  e <- ask ;;
  let available := [] in
  let available :=
    if AIProviderInterface.isAvailable (providers gemini) e
    then available ++ [gemini] else available in
  let available :=
    if AIProviderInterface.isAvailable (providers groq) e
    then available ++ [groq] else available in
  try_catch
    (ms <- listOllamaModels ;;
     if 0 <? List.length ms then ret (available ++ [ollama]) else ret available)
    (fun error => ret available).

Module AIProviderManager.

(** The lines every method starts with: the availability check, and the
    copy of the selected model of [providerState] into the provider
    object. *)
Definition prepare (provider : AIProvider) : M AIProviderInterface.t :=
  let providerInstance := providers provider in
  e <- ask ;;
  if negb (AIProviderInterface.isAvailable providerInstance e) then
    throw (JsError (AIProviderInterface.getName providerInstance ++ js " is not available"))
  else
    match provider with
    | groq =>
      stored <- gets (fun w => selectedModel (ps_groq w)) ;;
      match stored with
      | Some m => if str_truthy m then GroqProvider.setSelectedModel m else ret tt
      | None => ret tt
      end
    | ollama =>
      stored <- gets (fun w => selectedModel (ps_ollama w)) ;;
      match stored with
      | Some m => if str_truthy m then OllamaProvider.setSelectedModel m else ret tt
      | None => ret tt
      end
    | gemini => ret tt
    end ;;
    ret providerInstance.

Definition generateSummary (provider : AIProvider) (interest : JsString)
    (summaryLength : SummaryLength) : M (JsString * list BriefingSource) :=
  providerInstance <- prepare provider ;;
  AIProviderInterface.generateSummary providerInstance interest summaryLength.

Definition generateTweets (provider : AIProvider) (summary : JsString)
  : M (list JsString) :=
  providerInstance <- prepare provider ;;
  AIProviderInterface.generateTweets providerInstance summary.

Definition getTrendingTopics (provider : AIProvider) : M JsValue :=
  providerInstance <- prepare provider ;;
  AIProviderInterface.getTrendingTopics providerInstance.

End AIProviderManager.

End Providers.

(* ===================================================================== *)
(** ** lib/ai_providers.ts, the function-based module *)
(* ===================================================================== *)

Module ProvidersV1.

Definition CONFIG_GEMINI_MODEL : JsString := js "gemini-1.5-pro".
Definition CONFIG_GROQ_MODEL : JsString := js "llama3.2:latest".
Definition MAX_TOKENS_SUMMARY : Z := 1000.
Definition MAX_TOKENS_TWEETS : Z := 500.
Definition MAX_TOKENS_TRENDING : Z := 800.

(** [clients.gemini] and [clients.groq] are [null] without their keys. *)
Definition clients_gemini (e : Env) : bool := opt_truthy (GEMINI_API_KEY e).
Definition clients_groq (e : Env) : bool := opt_truthy (GROQ_API_KEY e).

(** The state right after the module has been loaded; the two fields of
    the provider objects do not exist in this module and stay untouched. *)
Definition initialWorld : World :=
  {| ps_ollama := {| models := []; selectedModel := None |};
     ps_groq := {| models := []; selectedModel := Some CONFIG_GROQ_MODEL |};
     groq_selectedModel := None;
     ollama_selectedModel := None;
     network := [] |}.

Definition listOllamaModels : M (list JsString) :=
  try_catch
    (e <- ask ;;
     t <- current_task ;;
     result <- request OllamaList (ollama_list e t) ;;
     modify (fun w => set_ps_ollama
                        {| models := match result with Some names => names | None => [] end;
                           selectedModel := selectedModel (ps_ollama w) |} w) ;;
     modify (fun w => set_ps_ollama
                        {| models := models (ps_ollama w);
                           selectedModel := Providers.first_or_null (models (ps_ollama w)) |} w) ;;
     gets (fun w => models (ps_ollama w)))
    (fun error =>
       modify (set_ps_ollama {| models := []; selectedModel := None |}) ;;
       ret []).

Definition setSelectedOllamaModel (model : JsString) : M unit :=
  listed <- gets (fun w => models (ps_ollama w)) ;;
  if Providers.includes_model listed model then
    modify (fun w => set_ps_ollama
                       {| models := models (ps_ollama w); selectedModel := Some model |} w)
  else ret tt.

Definition getSelectedOllamaModel : M (option JsString) :=
  gets (fun w => selectedModel (ps_ollama w)).

Definition listGroqModels : M (list JsString) :=
  try_catch
    (e <- ask ;;
     if negb (clients_groq e) then new_Error "Groq API key not configured"
     else
       t <- current_task ;;
       data <- request GroqModelsList (groq_models_list e t) ;;
       Providers.set_groq_models
         (Providers.sort
            (filter (fun id => str_truthy id && includes id (js "llama"))
                    (match data with Some ids => ids | None => [] end))) ;;
       listed <- gets (fun w => models (ps_groq w)) ;;
       (if List.length listed =? 0
        then Providers.set_groq_models [CONFIG_GROQ_MODEL] else ret tt) ;;
       stored <- gets (fun w => selectedModel (ps_groq w)) ;;
       (if negb (opt_truthy stored)
        then modify (fun w => set_ps_groq
                                {| models := models (ps_groq w);
                                   selectedModel := nth_error (models (ps_groq w)) 0 |} w)
        else ret tt) ;;
       gets (fun w => models (ps_groq w)))
    (fun error =>
       modify (set_ps_groq {| models := [CONFIG_GROQ_MODEL];
                              selectedModel := Some CONFIG_GROQ_MODEL |}) ;;
       gets (fun w => models (ps_groq w))).

Definition setSelectedGroqModel (model : JsString) : M unit :=
  listed <- gets (fun w => models (ps_groq w)) ;;
  if Providers.includes_model listed model then
    modify (fun w => set_ps_groq
                       {| models := models (ps_groq w); selectedModel := Some model |} w)
  else ret tt.

Definition getSelectedGroqModel : M (option JsString) :=
  gets (fun w => selectedModel (ps_groq w)).

Definition getAvailableModels (provider : AIProvider) : M (list JsString) :=
  match provider with
  | ollama => listOllamaModels
  | groq => listGroqModels
  | gemini => ret [CONFIG_GEMINI_MODEL]
  end.

Definition getAvailableProviders : M (list AIProvider) :=
  e <- ask ;;
  let providers := [] in
  let providers := if clients_gemini e then providers ++ [gemini] else providers in
  let providers := if clients_groq e then providers ++ [groq] else providers in
  try_catch
    (ms <- listOllamaModels ;;
     if 0 <? List.length ms then ret (providers ++ [ollama]) else ret providers)
    (fun error => ret providers).

Module AIProviderManager.

Definition getSummaryPrompt (interest : JsString) (summaryLength : SummaryLength) : JsString :=
  Providers.lengthInstructions summaryLength
  ++ jsq " about recent developments in `"
  ++ interest
  ++ jsq "`. Focus on the most important and recent news from the last 48 hours. Include specific facts, numbers, and key developments. Make it informative and engaging.

Please search for current information about this topic and provide a well-sourced summary.".

Definition getTweetPrompt (summary : JsString) : JsString :=
  jsq "Based on this news summary, generate exactly 3 witty, satirical tweets that are:
- Clever and humorous but not offensive
- Under 280 characters each
- Engaging and shareable
- Factually grounded in the summary

Summary: "
  ++ summary
  ++ jsq "

Return the response as a JSON object with this exact structure:
{
  `tweets`: [`tweet1`, `tweet2`, `tweet3`]
}".

Definition trendingPrompt : JsString := Providers.trendingPrompt_json.

(** [/^"|"$/g] replaced by the empty string. *)
Definition stripQuotes (s : JsString) : JsString :=
  let s1 := match s with
            | c :: r => if N.eqb c 0x22 then r else s
            | [] => []
            end in
  match rev s1 with
  | c :: r => if N.eqb c 0x22 then rev r else s1
  | [] => s1
  end.

(** [parsed.tweets || []] inside [try]; [fallback] is the value of the
    [catch] clause. *)
Definition tweetsOfJson (e : Env) (content : JsString) (fallback : JsValue) : JsValue :=
  match JSON_parse e content with
  | Throw _ => fallback
  | Ok parsed =>
    match get_prop parsed (js "tweets") with
    | Throw _ => fallback
    | Ok t => if truthy t then t else JArr []
    end
  end.

(** The fallback of the Gemini and Groq functions. *)
Definition quotedLines (content : JsString) : JsValue :=
  let tweets :=
    slice0 3 (filter (fun line => startsWith (trim line) [0x22%N]) (split LF content)) in
  js_strings (map stripQuotes tweets).

(** The fallback of the Ollama function. *)
Definition longLines (content : JsString) : JsValue :=
  js_strings (slice0 3 (filter (fun line => 10 <? List.length (trim line)) (split LF content))).

Definition geminiFallbackTopics : JsValue := Providers.GeminiProvider.fallbackTopics.
Definition ollamaFallbackTopics : JsValue := Providers.OllamaProvider.fallbackTopics.

(* Gemini implementations *)

Definition geminiContent (prompt : JsString) : M JsString :=
  e <- ask ;;
  if negb (clients_gemini e) then new_Error "Gemini API key not configured"
  else
    t <- current_task ;;
    request (GeminiGenerateContent CONFIG_GEMINI_MODEL prompt)
            (gemini_generateContent e t CONFIG_GEMINI_MODEL prompt).

Definition generateWithGemini (prompt : JsString) : M (JsString * list BriefingSource) :=
  text <- geminiContent prompt ;;
  ret (text, []).

Definition generateTweetsWithGemini (prompt : JsString) : M JsValue :=
  content <- geminiContent prompt ;;
  e <- ask ;;
  ret (tweetsOfJson e content (quotedLines content)).

Definition getTrendingWithGemini (prompt : JsString) : M JsValue :=
  content <- geminiContent prompt ;;
  e <- ask ;;
  ret (Providers.topicsOfJson e content geminiFallbackTopics).

(* Groq implementations *)

(** The guard, the choice of the model and the completion call the three
    Groq functions share; [choices[0]?.message?.content || ''] at the end. *)
Definition groqContent (prompt : JsString) (max_tokens : Z) : M JsString :=
  e <- ask ;;
  if negb (clients_groq e) then new_Error "Groq API key not configured"
  else
    stored <- gets (fun w => selectedModel (ps_groq w)) ;;
    let model := or_default stored CONFIG_GROQ_MODEL in
    t <- current_task ;;
    content <- request (GroqChatCreate model prompt max_tokens)
                       (groq_chat_create e t model prompt max_tokens) ;;
    ret (or_default content []).

Definition generateWithGroq (prompt : JsString) : M (JsString * list BriefingSource) :=
  content <- groqContent prompt MAX_TOKENS_SUMMARY ;;
  ret (content, []).

Definition generateTweetsWithGroq (prompt : JsString) : M JsValue :=
  content <- groqContent prompt MAX_TOKENS_TWEETS ;;
  e <- ask ;;
  ret (tweetsOfJson e content (quotedLines content)).

Definition getTrendingWithGroq (prompt : JsString) : M JsValue :=
  content <- groqContent prompt MAX_TOKENS_TRENDING ;;
  e <- ask ;;
  ret (Providers.topicsOfJson e content geminiFallbackTopics).

(* Ollama implementations *)

Definition ollamaContent (prompt : JsString) : M JsString :=
  stored <- gets (fun w => selectedModel (ps_ollama w)) ;;
  match stored with
  | Some model =>
    if negb (str_truthy model) then new_Error "No Ollama model selected"
    else
      e <- ask ;;
      t <- current_task ;;
      request (OllamaGenerate model prompt) (ollama_generate e t model prompt)
  | None => new_Error "No Ollama model selected"
  end.

Definition generateWithOllama (prompt : JsString) : M (JsString * list BriefingSource) :=
  content <- ollamaContent prompt ;;
  ret (content, []).

Definition generateTweetsWithOllama (prompt : JsString) : M JsValue :=
  content <- ollamaContent prompt ;;
  e <- ask ;;
  ret (tweetsOfJson e content (longLines content)).

Definition getTrendingWithOllama (prompt : JsString) : M JsValue :=
  content <- ollamaContent prompt ;;
  e <- ask ;;
  ret (Providers.topicsOfJson e content ollamaFallbackTopics).

Definition generateSummary (provider : AIProvider) (interest : JsString)
    (summaryLength : SummaryLength) : M (JsString * list BriefingSource) :=
  let prompt := getSummaryPrompt interest summaryLength in
  match provider with
  | gemini => generateWithGemini prompt
  | groq => generateWithGroq prompt
  | ollama => generateWithOllama prompt
  end.

Definition generateTweets (provider : AIProvider) (summary : JsString) : M JsValue :=
  let prompt := getTweetPrompt summary in
  match provider with
  | gemini => generateTweetsWithGemini prompt
  | groq => generateTweetsWithGroq prompt
  | ollama => generateTweetsWithOllama prompt
  end.

Definition getTrendingTopics (provider : AIProvider) : M JsValue :=
  let prompt := trendingPrompt in
  match provider with
  | gemini => getTrendingWithGemini prompt
  | groq => getTrendingWithGroq prompt
  | ollama => getTrendingWithOllama prompt
  end.

End AIProviderManager.

End ProvidersV1.

(* ===================================================================== *)
(** ** app/actions.ts *)
(* ===================================================================== *)

(** What [actions.ts] imports from ['../lib/ai_providers']. *)
Record AiProvidersModule := {
  lib_getAvailableProviders : M (list AIProvider);
  lib_generateSummary :
    AIProvider -> JsString -> SummaryLength -> M (JsString * list BriefingSource);
  lib_generateTweets : AIProvider -> JsString -> M JsValue;
  lib_getTrendingTopics : AIProvider -> M JsValue
}.

Definition classBasedModule : AiProvidersModule :=
  {| lib_getAvailableProviders := Providers.getAvailableProviders;
     lib_generateSummary := Providers.AIProviderManager.generateSummary;
     lib_generateTweets := fun provider summary =>
       tweets <- Providers.AIProviderManager.generateTweets provider summary ;;
       ret (js_strings tweets);
     lib_getTrendingTopics := Providers.AIProviderManager.getTrendingTopics |}.

Definition functionBasedModule : AiProvidersModule :=
  {| lib_getAvailableProviders := ProvidersV1.getAvailableProviders;
     lib_generateSummary := ProvidersV1.AIProviderManager.generateSummary;
     lib_generateTweets := ProvidersV1.AIProviderManager.generateTweets;
     lib_getTrendingTopics := ProvidersV1.AIProviderManager.getTrendingTopics |}.

(** The outcome of one promise, as [Promise.allSettled] reports it. *)
Inductive Settled (A : Type) :=
| fulfilled (value : A)
| rejected (reason : Thrown).
Arguments fulfilled {A} value.
Arguments rejected {A} reason.

Definition settle {A} (m : M A) : M (Settled A) :=
  fun c w =>
    match m c w with
    | (Ok a, w') => (Ok (fulfilled a), w')
    | (Throw e, w') => (Ok (rejected e), w')
    end.

(** [Promise.allSettled(promises)]: the promise at index [i] is the task
    [PipelineTask i]; the tasks are run to completion in the order of the
    list. *)
Fixpoint allSettled_from {A} (i : nat) (promises : list (M A)) : M (list (Settled A)) :=
  match promises with
  | [] => ret []
  | p :: rest =>
    r <- settle (in_task (PipelineTask i) p) ;;
    rs <- allSettled_from (S i) rest ;;
    ret (r :: rs)
  end.

Definition Promise_allSettled {A} (promises : list (M A)) : M (list (Settled A)) :=
  allSettled_from 0 promises.

(** [tweets.slice(0, 3)] on a value of unknown shape: arrays and strings
    have a [slice]; anything else makes the call a [TypeError]. *)
Definition slice_0_3 (v : JsValue) : Result JsValue :=
  match v with
  | JArr items => Ok (JArr (slice0 3 items))
  | JStr s => Ok (JStr (slice0 3 s))
  | _ => Throw (TypeError "tweets.slice is not a function")
  end.

Section Actions.

Variable lib : AiProvidersModule.

Definition getProviders : M (list AIProvider) :=
  try_catch (lib_getAvailableProviders lib) (fun error => ret []).

Definition placeholderTweetsFor (interest : JsString) : JsValue :=
  js_strings
    [ js "Breaking: New developments in " ++ interest ++ js "! ðŸš€";
      js "Stay informed about the latest " ++ interest ++ js " updates. Knowledge is power! ðŸ’¡";
      js "Another day, another " ++ interest ++ js " breakthrough. The future is now! âš¡" ].

Definition generateSingleBriefingForInterest (interest : JsString)
    (summaryLength : SummaryLength) (provider : AIProvider) : M BriefingItem :=
  try_catch
    ('(summary, sources) <- lib_generateSummary lib provider interest summaryLength ;;
     if negb (str_truthy summary) then new_Error "Empty summary generated"
     else
       tweets <- try_catch (lib_generateTweets lib provider summary)
                   (fun tweetError => ret (placeholderTweetsFor interest)) ;;
       sliced <- lift (slice_0_3 tweets) ;;
       ret {| interest := interest;
              summary := trim summary;
              sources := sources;
              tweets := sliced;
              error := None |})
    (fun error =>
       throw (JsError (match error with
                       | JsError message => message
                       | JsOther _ => js "Unknown error occurred"
                       end))).

(** The body of [results.forEach]: one settled result is added to the
    briefings, and to the errors if it is a rejection.  [interests[index]]
    is in range, as there is one result per interest. *)
Definition onResult (interests : list JsString) (acc : GenerateBriefingResponse)
    (indexed : nat * Settled BriefingItem) : GenerateBriefingResponse :=
  let '(index, result) := indexed in
  match result with
  | fulfilled value =>
    {| briefings := briefings acc ++ [value]; errors := errors acc |}
  | rejected reason =>
    let errorMessage := message_or_string reason in
    let topic := nth index interests (js "undefined") in
    {| briefings := briefings acc ++
         [ {| interest := topic;
              summary := js "Failed to generate summary due to an error.";
              sources := [];
              tweets := JArr [];
              error := Some errorMessage |} ];
       errors := errors acc ++
         [ jsq "Failed to generate briefing for `" ++ topic ++ jsq "`: " ++ errorMessage ] |}
  end.

Definition forEachResult (interests : list JsString)
    (results : list (Settled BriefingItem)) : GenerateBriefingResponse :=
  fold_left (onResult interests)
            (combine (seq 0 (List.length results)) results)
            {| briefings := []; errors := [] |}.

(** The part of [generateBriefing] after the provider has been settled. *)
Definition fanOut (interests : list JsString) (summaryLength : SummaryLength)
    (provider : AIProvider) : M GenerateBriefingResponse :=
  let promises :=
    map (fun interest => generateSingleBriefingForInterest interest summaryLength provider)
        interests in
  try_catch
    (results <- Promise_allSettled promises ;;
     ret (forEachResult interests results))
    (fun error =>
       ret {| briefings := [];
              errors := [ js "Unexpected error: " ++
                          match error with
                          | JsError message => message
                          | JsOther _ => js "Unknown error"
                          end ] |}).

Definition generateBriefing (interests : list JsString) (summaryLength : SummaryLength)
    (provider : AIProvider) : M GenerateBriefingResponse :=
  availableProviders <- lib_getAvailableProviders lib ;;
  if negb (existsb (AIProvider_eqb provider) availableProviders) then
    match availableProviders with
    | first :: _ => fanOut interests summaryLength first
    | [] =>
      ret {| briefings := [];
             errors := [ js "No AI providers available. Please configure at least one provider." ] |}
    end
  else fanOut interests summaryLength provider.

End Actions.

(* ===================================================================== *)
(** ** A concrete runtime, for running the code on examples *)
(* ===================================================================== *)

(** [JSON.parse] as ECMA-404 defines the grammar: white space, the three
    literals, numbers, strings with their escapes, arrays and objects (a
    repeated key keeps its first position and its last value). *)
Module Json.

Definition SyntaxError : Thrown := JsError (js "Unexpected token in JSON").

Definition isJsonSpace (c : CodeUnit) : bool :=
  (N.eqb c 0x20 || N.eqb c 0x09 || N.eqb c 0x0A || N.eqb c 0x0D)%bool.

Fixpoint skip_ws (s : JsString) : JsString :=
  match s with
  | c :: r => if isJsonSpace c then skip_ws r else s
  | [] => []
  end.

Definition hexValue (c : CodeUnit) : option N :=
  if isDigit c then Some (c - 0x30)%N
  else if (N.leb 0x41 c && N.leb c 0x46)%bool then Some (c - 0x41 + 10)%N
  else if (N.leb 0x61 c && N.leb c 0x66)%bool then Some (c - 0x61 + 10)%N
  else None.

Definition escapeValue (c : CodeUnit) : option CodeUnit :=
  if N.eqb c 0x22 then Some 0x22%N
  else if N.eqb c 0x5C then Some 0x5C%N
  else if N.eqb c 0x2F then Some 0x2F%N
  else if N.eqb c 0x62 then Some 0x08%N
  else if N.eqb c 0x66 then Some 0x0C%N
  else if N.eqb c 0x6E then Some 0x0A%N
  else if N.eqb c 0x72 then Some 0x0D%N
  else if N.eqb c 0x74 then Some 0x09%N
  else None.

(** The characters of a string after its opening quote, and the rest. *)
Fixpoint string_body (s : JsString) : option (JsString * JsString) :=
  match s with
  | [] => None
  | c :: r =>
    if N.eqb c 0x22 then Some ([], r)
    else if N.eqb c 0x5C then
      match r with
      | e :: r' =>
        if N.eqb e 0x75 then
          match r' with
          | h1 :: h2 :: h3 :: h4 :: r'' =>
            match hexValue h1, hexValue h2, hexValue h3, hexValue h4 with
            | Some a, Some b, Some c', Some d =>
              match string_body r'' with
              | Some (body, rest) =>
                Some ((a * 4096 + b * 256 + c' * 16 + d)%N :: body, rest)
              | None => None
              end
            | _, _, _, _ => None
            end
          | _ => None
          end
        else
          match escapeValue e with
          | Some v =>
            match string_body r' with
            | Some (body, rest) => Some (v :: body, rest)
            | None => None
            end
          | None => None
          end
      | [] => None
      end
    else if (c <? 0x20)%N then None
    else
      match string_body r with
      | Some (body, rest) => Some (c :: body, rest)
      | None => None
      end
  end.

Fixpoint digits (s : JsString) : JsString * JsString :=
  match s with
  | c :: r => if isDigit c then let '(ds, rest) := digits r in (c :: ds, rest)
              else ([], s)
  | [] => ([], [])
  end.

Definition digitsValue (ds : JsString) : Z :=
  fold_left (fun acc c => (acc * 10 + Z.of_N (c - 0x30))%Z) ds 0%Z.

(** A number: an optional minus, an integer part without a leading zero,
    an optional fraction and an optional exponent. *)
Definition number (s : JsString) : option (JsNumber * JsString) :=
  let '(negative, s1) :=
    match s with
    | c :: r => if N.eqb c 0x2D then (true, r) else (false, s)
    | [] => (false, s)
    end in
  let '(ints, s2) := digits s1 in
  match ints with
  | [] => None
  | d :: more =>
    if (N.eqb d 0x30 && negb (List.length more =? 0))%bool then None
    else
      let fraction :=
        match s2 with
        | c :: r =>
          if N.eqb c 0x2E then
            let '(fs, rest) := digits r in
            match fs with [] => None | _ => Some (fs, rest) end
          else Some ([], s2)
        | [] => Some ([], s2)
        end in
      match fraction with
      | None => None
      | Some (fracs, s3) =>
        let exponent :=
          match s3 with
          | c :: r =>
            if (N.eqb c 0x65 || N.eqb c 0x45)%bool then
              let '(expNegative, r1) :=
                match r with
                | sg :: r' =>
                  if N.eqb sg 0x2D then (true, r')
                  else if N.eqb sg 0x2B then (false, r')
                  else (false, r)
                | [] => (false, r)
                end in
              let '(es, rest) := digits r1 in
              match es with
              | [] => None
              | _ => Some ((if expNegative then - digitsValue es else digitsValue es)%Z, rest)
              end
            else Some (0%Z, s3)
          | [] => Some (0%Z, s3)
          end in
        match exponent with
        | None => None
        | Some (ex, s4) =>
          let m := digitsValue (ints ++ fracs) in
          Some ({| mantissa := if negative then (- m)%Z else m;
                   exponent10 := (ex - Z.of_nat (List.length fracs))%Z |}, s4)
        end
      end
  end.

Fixpoint set_prop (k : JsString) (v : JsValue) (props : list (JsString * JsValue))
  : list (JsString * JsValue) :=
  match props with
  | [] => [(k, v)]
  | (k', v') :: rest =>
    if js_eqb k k' then (k', v) :: rest else (k', v') :: set_prop k v rest
  end.

(** A value, the elements of an array after [[] or a comma, the members of
    an object after [{] or a comma.  Every call spends one unit of fuel and
    the calls that follow it start further into the text. *)
Fixpoint value (fuel : nat) (s : JsString) : option (JsValue * JsString) :=
  match fuel with
  | O => None
  | S fuel' =>
    match skip_ws s with
    | [] => None
    | c :: r =>
      if N.eqb c 0x7B then
        match skip_ws r with
        | c' :: r' => if N.eqb c' 0x7D then Some (JObj [], r')
                      else members fuel' [] (skip_ws r)
        | [] => None
        end
      else if N.eqb c 0x5B then
        match skip_ws r with
        | c' :: r' => if N.eqb c' 0x5D then Some (JArr [], r')
                      else elements fuel' [] (skip_ws r)
        | [] => None
        end
      else if N.eqb c 0x22 then
        match string_body r with
        | Some (body, rest) => Some (JStr body, rest)
        | None => None
        end
      else if startsWith (c :: r) (js "null") then Some (JNull, skipn 4 (c :: r))
      else if startsWith (c :: r) (js "true") then Some (JBool true, skipn 4 (c :: r))
      else if startsWith (c :: r) (js "false") then Some (JBool false, skipn 5 (c :: r))
      else
        match number (c :: r) with
        | Some (n, rest) => Some (JNum n, rest)
        | None => None
        end
    end
  end

with elements (fuel : nat) (acc : list JsValue) (s : JsString)
  : option (JsValue * JsString) :=
  match fuel with
  | O => None
  | S fuel' =>
    match value fuel' s with
    | Some (v, rest) =>
      match skip_ws rest with
      | c :: r =>
        if N.eqb c 0x2C then elements fuel' (acc ++ [v]) r
        else if N.eqb c 0x5D then Some (JArr (acc ++ [v]), r)
        else None
      | [] => None
      end
    | None => None
    end
  end

with members (fuel : nat) (acc : list (JsString * JsValue)) (s : JsString)
  : option (JsValue * JsString) :=
  match fuel with
  | O => None
  | S fuel' =>
    match skip_ws s with
    | q :: r =>
      if N.eqb q 0x22 then
        match string_body r with
        | Some (key, rest) =>
          match skip_ws rest with
          | colon :: r1 =>
            if N.eqb colon 0x3A then
              match value fuel' r1 with
              | Some (v, rest') =>
                match skip_ws rest' with
                | c :: r2 =>
                  if N.eqb c 0x2C then members fuel' (set_prop key v acc) r2
                  else if N.eqb c 0x7D then Some (JObj (set_prop key v acc), r2)
                  else None
                | [] => None
                end
              | None => None
              end
            else None
          | [] => None
          end
        | None => None
        end
      else None
    | [] => None
    end
  end.

Definition parse (text : JsString) : Result JsValue :=
  match value (2 * List.length text + 2) text with
  | Some (v, rest) =>
    match skip_ws rest with
    | [] => Ok v
    | _ => Throw SyntaxError
    end
  | None => Throw SyntaxError
  end.

End Json.

(** Lower-casing of the letters A to Z; the other code units of the
    examples below have no lower-case form. *)
Definition asciiLowerCase (s : JsString) : JsString :=
  map (fun c => if (N.leb 0x41 c && N.leb c 0x5A)%bool then (c + 0x20)%N else c) s.

(** An environment without credentials in which every service refuses to
    answer; [marked] hands its input back and there is no script element
    to remove.  The examples override the fields they need. *)
Definition unreachable : Thrown := JsError (js "fetch failed").

Definition offlineEnv : Env :=
  {| GEMINI_API_KEY := None;
     GROQ_API_KEY := None;
     gemini_generateContent := fun _ _ _ => Throw unreachable;
     groq_chat_create := fun _ _ _ _ => Throw unreachable;
     groq_models_list := fun _ => Throw unreachable;
     ollama_generate := fun _ _ _ => Throw unreachable;
     ollama_list := fun _ => Throw unreachable;
     fetch := fun _ _ => FetchRejects unreachable;
     marked := fun s => Ok s;
     strip_script_tags := fun s => s;
     toLowerCase := asciiLowerCase;
     JSON_parse := Json.parse |}.

(** Environments of the examples. *)

(** Gemini configured; the model answers every prompt with [answer]. *)
Definition geminiEnv (answer : Result JsString) : Env :=
  {| GEMINI_API_KEY := Some (js "key");
     GROQ_API_KEY := None;
     gemini_generateContent := fun _ _ _ => answer;
     groq_chat_create := fun _ _ _ _ => Throw unreachable;
     groq_models_list := fun _ => Throw unreachable;
     ollama_generate := fun _ _ _ => Throw unreachable;
     ollama_list := fun _ => Throw unreachable;
     fetch := fun _ _ => FetchRejects unreachable;
     marked := fun s => Ok s;
     strip_script_tags := fun s => s;
     toLowerCase := asciiLowerCase;
     JSON_parse := Json.parse |}.

(** Groq configured; the service lists [ids] and answers every prompt with
    [answer]. *)
Definition groqEnv (ids : Result (option (list JsString)))
    (answer : Result (option JsString)) : Env :=
  {| GEMINI_API_KEY := None;
     GROQ_API_KEY := Some (js "key");
     gemini_generateContent := fun _ _ _ => Throw unreachable;
     groq_chat_create := fun _ _ _ _ => answer;
     groq_models_list := fun _ => ids;
     ollama_generate := fun _ _ _ => Throw unreachable;
     ollama_list := fun _ => Throw unreachable;
     fetch := fun _ _ => FetchRejects unreachable;
     marked := fun s => Ok s;
     strip_script_tags := fun s => s;
     toLowerCase := asciiLowerCase;
     JSON_parse := Json.parse |}.

(** No cloud credentials; the local server answers every prompt with
    [answer]. *)
Definition ollamaEnv (answer : Result JsString) : Env :=
  {| GEMINI_API_KEY := None;
     GROQ_API_KEY := None;
     gemini_generateContent := fun _ _ _ => Throw unreachable;
     groq_chat_create := fun _ _ _ _ => Throw unreachable;
     groq_models_list := fun _ => Throw unreachable;
     ollama_generate := fun _ _ _ => answer;
     ollama_list := fun _ => Throw unreachable;
     fetch := fun _ _ => FetchRejects unreachable;
     marked := fun s => Ok s;
     strip_script_tags := fun s => s;
     toLowerCase := asciiLowerCase;
     JSON_parse := Json.parse |}.

Definition mainCtx (e : Env) : Ctx := {| env := e; task := MainTask |}.

(** The class-based module after a model has been selected for both
    providers that need one. *)
Definition selectedWorld (groqModel ollamaModel : JsString) : World :=
  {| ps_ollama := {| models := [ollamaModel]; selectedModel := Some ollamaModel |};
     ps_groq := {| models := [groqModel]; selectedModel := Some groqModel |};
     groq_selectedModel := Some groqModel;
     ollama_selectedModel := Some ollamaModel;
     network := [] |}.


(* ===================================================================== *)
(** ** app/actions.ts, the other server actions *)
(* ===================================================================== *)

(** A value of type [AIProvider] inside a template literal. *)
Definition AIProvider_toString (provider : AIProvider) : JsString :=
  match provider with
  | gemini => js "gemini"
  | groq => js "groq"
  | ollama => js "ollama"
  end.

(** The result of [testProviderConnection]. *)
Record ConnectionTest := {
  success : bool;
  message : JsString
}.

Section MoreActions.

Variable lib : AiProvidersModule.

Definition testProviderConnection (provider : AIProvider) : M ConnectionTest :=
  try_catch
    (availableProviders <- lib_getAvailableProviders lib ;;
     if negb (existsb (AIProvider_eqb provider) availableProviders) then
       ret {| success := false;
              message := AIProvider_toString provider
                         ++ js " is not available. Please check your configuration." |}
     else
       '(summary, sources) <- lib_generateSummary lib provider
                                (js "artificial intelligence") short ;;
       if str_truthy summary then
         ret {| success := true;
                message := AIProvider_toString provider ++ js " is working correctly!" |}
       else
         ret {| success := false;
                message := AIProvider_toString provider ++ js " returned empty response." |})
    (fun error =>
       ret {| success := false;
              message := AIProvider_toString provider ++ js " test failed: " ++
                         match error with
                         | JsError message => message
                         | JsOther _ => js "Unknown error"
                         end |}).

End MoreActions.

(* ===================================================================== *)
(** ** lib/utils.ts *)
(* ===================================================================== *)

Module Utils.

(** The contents of [localStorage]: keys and their strings, a key at most
    once. *)
Definition LocalStorage := list (JsString * JsString).

Fixpoint getItem (key : JsString) (items : LocalStorage) : option JsString :=
  match items with
  | [] => None
  | (k, v) :: rest => if js_eqb key k then Some v else getItem key rest
  end.

Fixpoint setItem (key value : JsString) (items : LocalStorage) : LocalStorage :=
  match items with
  | [] => [(key, value)]
  | (k, v) :: rest =>
    if js_eqb key k then (k, value) :: rest else (k, v) :: setItem key value rest
  end.

Definition removeItem (key : JsString) (items : LocalStorage) : LocalStorage :=
  filter (fun entry => negb (js_eqb key (fst entry))) items.

(** What the code finds in the browser, or on the server, where there is
    no [window]. *)
Record Browser := {
  (** [typeof window !== 'undefined'] *)
  window_defined : bool;
  (** the exception every access to [localStorage] ends in, where the
      browser blocks the storage *)
  storage_blocked : option Thrown;
  (** whether the storage has room for these contents; [setItem] throws
      where it has not *)
  within_quota : LocalStorage -> bool;
  (** [JSON.stringify(value)]: a string, or [undefined] *)
  JSON_stringify : JsValue -> option JsString;
  JSON_parse : JsString -> Result JsValue
}.

Definition QuotaExceededError : Thrown := JsError (js "The quota has been exceeded.").

Definition localStorage_getItem (b : Browser) (items : LocalStorage) (key : JsString)
  : Result (option JsString) :=
  match storage_blocked b with
  | Some e => Throw e
  | None => Ok (getItem key items)
  end.

(** [localStorage.setItem(key, value)]; the value is converted to a
    string. *)
Definition localStorage_setItem (b : Browser) (items : LocalStorage)
    (key : JsString) (value : option JsString) : Result LocalStorage :=
  match storage_blocked b with
  | Some e => Throw e
  | None =>
    let items' := setItem key (match value with Some s => s | None => js "undefined" end)
                          items in
    if within_quota b items' then Ok items' else Throw QuotaExceededError
  end.

Definition localStorage_removeItem (b : Browser) (items : LocalStorage) (key : JsString)
  : Result LocalStorage :=
  match storage_blocked b with
  | Some e => Throw e
  | None => Ok (removeItem key items)
  end.

(** [storage.get(key, defaultValue)] *)
Definition get (b : Browser) (items : LocalStorage) (key : JsString)
    (defaultValue : JsValue) : JsValue :=
  if negb (window_defined b) then defaultValue
  else
    match
      match localStorage_getItem b items key with
      | Throw e => Throw e
      | Ok item =>
        if opt_truthy item
        then JSON_parse b (match item with Some s => s | None => [] end)
        else Ok defaultValue
      end
    with
    | Ok v => v
    | Throw error => defaultValue
    end.

(** [storage.set(key, value)]: the contents of [localStorage] after the
    call. *)
Definition set (b : Browser) (items : LocalStorage) (key : JsString) (value : JsValue)
  : LocalStorage :=
  if negb (window_defined b) then items
  else
    match localStorage_setItem b items key (JSON_stringify b value) with
    | Ok items' => items'
    | Throw error => items
    end.

(** [storage.remove(key)] *)
Definition remove (b : Browser) (items : LocalStorage) (key : JsString) : LocalStorage :=
  if negb (window_defined b) then items
  else
    match localStorage_removeItem b items key with
    | Ok items' => items'
    | Throw error => items
    end.

End Utils.

(* ===================================================================== *)
(** ** app/page.tsx, the list of interests *)
(* ===================================================================== *)

Module Page.

(** The two pieces of state [addInterest] and [removeInterest] work on. *)
Record InterestsState := {
  interests : list JsString;
  newInterest : JsString
}.

(** [interests.includes(x)] *)
Definition includes_interest (l : list JsString) (x : JsString) : bool :=
  existsb (js_eqb x) l.

Definition addInterest (s : InterestsState) : InterestsState :=
  if str_truthy (trim (newInterest s))
     && negb (includes_interest (interests s) (trim (newInterest s)))
  then {| interests := interests s ++ [trim (newInterest s)]; newInterest := [] |}
  else s.

Definition removeInterest (interestToRemove : JsString) (s : InterestsState)
  : InterestsState :=
  {| interests := filter (fun interest => negb (js_eqb interest interestToRemove))
                         (interests s);
     newInterest := newInterest s |}.

End Page.

(* ===================================================================== *)
(** ** Notions used in the statements *)
(* ===================================================================== *)

(** The provider [generateBriefing] goes on with: the requested one if it
    is available, else the first available one. *)
Definition resolvedProvider (provider : AIProvider) (available : list AIProvider)
  : option AIProvider :=
  if existsb (AIProvider_eqb provider) available then Some provider
  else hd_error available.

(** The promises [generateBriefing] hands to [Promise.allSettled]. *)
Definition pipelines (lib : AiProvidersModule) (interests : list JsString)
    (summaryLength : SummaryLength) (provider : AIProvider) : list (M BriefingItem) :=
  map (fun interest => generateSingleBriefingForInterest lib interest summaryLength provider)
      interests.

(** The entry [generateBriefing] adds for a topic whose pipeline was
    rejected with [errorMessage], and the line it adds to the errors. *)
Definition errorBriefing (topic errorMessage : JsString) : BriefingItem :=
  {| interest := topic;
     summary := js "Failed to generate summary due to an error.";
     sources := [];
     tweets := JArr [];
     error := Some errorMessage |}.

Definition errorLine (topic errorMessage : JsString) : JsString :=
  jsq "Failed to generate briefing for `" ++ topic ++ jsq "`: " ++ errorMessage.

Definition noProviderResponse : GenerateBriefingResponse :=
  {| briefings := [];
     errors := [ js "No AI providers available. Please configure at least one provider." ] |}.

(** How a run of a promise settles. *)
Definition settledOf {A} (run : Result A * World) : Settled A :=
  match fst run with
  | Ok value => fulfilled value
  | Throw reason => rejected reason
  end.

(** The briefing and the error lines that one settled result contributes. *)
Definition entryOf (interests : list JsString) (indexed : nat * Settled BriefingItem)
  : BriefingItem :=
  match snd indexed with
  | fulfilled value => value
  | rejected reason =>
    errorBriefing (nth (fst indexed) interests (js "undefined")) (message_or_string reason)
  end.

Definition errorsOf (interests : list JsString) (indexed : nat * Settled BriefingItem)
  : list JsString :=
  match snd indexed with
  | fulfilled _ => []
  | rejected reason =>
    [errorLine (nth (fst indexed) interests (js "undefined")) (message_or_string reason)]
  end.



(** What [searchWeb] returns for a query that encodes to [encodedQuery],
    given what the search service did. *)
Definition searchOutcome (encodedQuery : JsString) (maxResults : Z)
    (outcome : FetchOutcome) : list BriefingSource :=
  match outcome with
  | FetchResponse true (Ok v) =>
    match sources_of_answer v with
    | Ok mapped => slice0Z maxResults mapped
    | Throw _ => [fallbackSource encodedQuery]
    end
  | _ => [fallbackSource encodedQuery]
  end.

(** Two environments that cannot be told apart from the task [t]: the same
    credentials and library functions, and the same answers of every
    service to the requests of [t]. *)
Definition agreeAt (t : Task) (e1 e2 : Env) : Prop :=
  GEMINI_API_KEY e1 = GEMINI_API_KEY e2
  /\ GROQ_API_KEY e1 = GROQ_API_KEY e2
  /\ (forall model prompt,
        gemini_generateContent e1 t model prompt = gemini_generateContent e2 t model prompt)
  /\ (forall model prompt max_tokens,
        groq_chat_create e1 t model prompt max_tokens
        = groq_chat_create e2 t model prompt max_tokens)
  /\ groq_models_list e1 t = groq_models_list e2 t
  /\ (forall model prompt,
        ollama_generate e1 t model prompt = ollama_generate e2 t model prompt)
  /\ ollama_list e1 t = ollama_list e2 t
  /\ (forall address, fetch e1 t address = fetch e2 t address)
  /\ (forall s, marked e1 s = marked e2 s)
  /\ (forall s, strip_script_tags e1 s = strip_script_tags e2 s)
  /\ (forall s, toLowerCase e1 s = toLowerCase e2 s)
  /\ (forall s, JSON_parse e1 s = JSON_parse e2 s).

(** Two states that differ at most in the log of requests. *)
Definition sameState (w1 w2 : World) : Prop :=
  ps_ollama w1 = ps_ollama w2
  /\ ps_groq w1 = ps_groq w2
  /\ groq_selectedModel w1 = groq_selectedModel w2
  /\ ollama_selectedModel w1 = ollama_selectedModel w2.

(** Two runs of async code, in two contexts and from states that differ at
    most in the log, end in the same value or thrown value and in states
    that again differ at most in the log. *)
Definition Related {A} (c1 c2 : Ctx) (m1 m2 : M A) : Prop :=
  forall w1 w2,
    sameState w1 w2 ->
    fst (m1 c1 w1) = fst (m2 c2 w2)
    /\ sameState (snd (m1 c1 w1)) (snd (m2 c2 w2)).

(** Async code that changes nothing but the log. *)
Definition KeepsState {A} (m : M A) : Prop :=
  forall c w, sameState (snd (m c w)) w.

(** The state after the first lines of a method of [AIProviderManager]:
    the selection stored in [providerState], if there is one, has been
    copied into the object of an available provider. *)
Definition prepared (p : AIProvider) (e : Env) (w : World) : World :=
  if negb (AIProviderInterface.isAvailable (Providers.providers p) e) then w
  else
    match p with
    | gemini => w
    | groq =>
      match selectedModel (ps_groq w) with
      | Some m => if str_truthy m then set_groq_selectedModel (Some m) w else w
      | None => w
      end
    | ollama =>
      match selectedModel (ps_ollama w) with
      | Some m => if str_truthy m then set_ollama_selectedModel (Some m) w else w
      | None => w
      end
    end.

(* ===================================================================== *)
(** ** More environments and states for the examples *)
(* ===================================================================== *)

(** The search service answers every request with [body]. *)
Definition searchEnv (body : JsString) : Env :=
  {| GEMINI_API_KEY := None;
     GROQ_API_KEY := None;
     gemini_generateContent := fun _ _ _ => Throw unreachable;
     groq_chat_create := fun _ _ _ _ => Throw unreachable;
     groq_models_list := fun _ => Throw unreachable;
     ollama_generate := fun _ _ _ => Throw unreachable;
     ollama_list := fun _ => Throw unreachable;
     fetch := fun _ _ => FetchResponse true (Json.parse body);
     marked := fun s => Ok s;
     strip_script_tags := fun s => s;
     toLowerCase := asciiLowerCase;
     JSON_parse := Json.parse |}.

(** Gemini configured; the model answers the summary prompts (they start
    with "Write") with [summaryText] and refuses every other prompt. *)
Definition summaryOnlyEnv (summaryText : JsString) : Env :=
  {| GEMINI_API_KEY := Some (js "key");
     GROQ_API_KEY := None;
     gemini_generateContent := fun _ _ prompt =>
       if startsWith prompt (js "Write") then Ok summaryText else Throw unreachable;
     groq_chat_create := fun _ _ _ _ => Throw unreachable;
     groq_models_list := fun _ => Throw unreachable;
     ollama_generate := fun _ _ _ => Throw unreachable;
     ollama_list := fun _ => Throw unreachable;
     fetch := fun _ _ => FetchRejects unreachable;
     marked := fun s => Ok s;
     strip_script_tags := fun s => s;
     toLowerCase := asciiLowerCase;
     JSON_parse := Json.parse |}.

(** Gemini configured; the model answers every prompt with [answer], except
    in the pipeline of the topic at index [failing], where it refuses. *)
Definition oneFailingEnv (failing : nat) (answer : JsString) : Env :=
  {| GEMINI_API_KEY := Some (js "key");
     GROQ_API_KEY := None;
     gemini_generateContent := fun t _ _ =>
       match t with
       | PipelineTask i => if i =? failing then Throw unreachable else Ok answer
       | MainTask => Ok answer
       end;
     groq_chat_create := fun _ _ _ _ => Throw unreachable;
     groq_models_list := fun _ => Throw unreachable;
     ollama_generate := fun _ _ _ => Throw unreachable;
     ollama_list := fun _ => Throw unreachable;
     fetch := fun _ _ => FetchRejects unreachable;
     marked := fun s => Ok s;
     strip_script_tags := fun s => s;
     toLowerCase := asciiLowerCase;
     JSON_parse := Json.parse |}.

(** A state in which the listings have stored two models each and the
    first of them is selected. *)
Definition listedWorld : World :=
  {| ps_ollama := {| models := [js "llama2"; js "codellama"];
                     selectedModel := Some (js "llama2") |};
     ps_groq := {| models := [js "llama3-70b-8192"; js "llama3-8b-8192"];
                   selectedModel := Some (js "llama3-70b-8192") |};
     groq_selectedModel := Some (js "llama3-70b-8192");
     ollama_selectedModel := Some (js "llama2");
     network := [] |}.

(** Three topics, for the examples of the fan-out. *)
Definition threeTopics : list JsString :=
  [js "ai"; js "quantum computing"; js "space"].


(* ===================================================================== *)
(** ** Notions used in the further properties *)
(* ===================================================================== *)

(** The state after a request has been logged. *)
Definition logged (call : NetCall) (w : World) : World :=
  {| ps_ollama := ps_ollama w; ps_groq := ps_groq w;
     groq_selectedModel := groq_selectedModel w;
     ollama_selectedModel := ollama_selectedModel w;
     network := network w ++ [call] |}.

(** [wp c m Q E w]: run in the context [c] from the state [w], the async
    code [m] ends in a value and a state that satisfy [Q], or in a thrown
    value and a state that satisfy [E]. *)
Definition wp {A} (c : Ctx) (m : M A) (Q : A -> World -> Prop)
    (E : Thrown -> World -> Prop) (w : World) : Prop :=
  match m c w with
  | (Ok a, w') => Q a w'
  | (Throw e, w') => E e w'
  end.

(** [m] keeps the invariant [I], whether it returns or throws. *)
Definition Keeps {A} (I : World -> Prop) (m : M A) : Prop :=
  forall c w, I w -> wp c m (fun _ => I) (fun _ => I) w.

(** One call of an export of [ai_providers.ts]. *)
Inductive ApiCall :=
| call_listOllamaModels
| call_setSelectedOllamaModel (model : JsString)
| call_getSelectedOllamaModel
| call_listGroqModels
| call_setSelectedGroqModel (model : JsString)
| call_getSelectedGroqModel
| call_getAvailableModels (provider : AIProvider)
| call_getAvailableProviders
| call_generateSummary (provider : AIProvider) (interest : JsString)
    (summaryLength : SummaryLength)
| call_generateTweets (provider : AIProvider) (summary : JsString)
| call_getTrendingTopics (provider : AIProvider).

(** The state a call leaves behind, in the class-based module and in the
    function-based one. *)
Definition classBased_after (call : ApiCall) (c : Ctx) (w : World) : World :=
  match call with
  | call_listOllamaModels => snd (Providers.listOllamaModels c w)
  | call_setSelectedOllamaModel model => snd (Providers.setSelectedOllamaModel model c w)
  | call_getSelectedOllamaModel => snd (Providers.getSelectedOllamaModel c w)
  | call_listGroqModels => snd (Providers.listGroqModels c w)
  | call_setSelectedGroqModel model => snd (Providers.setSelectedGroqModel model c w)
  | call_getSelectedGroqModel => snd (Providers.getSelectedGroqModel c w)
  | call_getAvailableModels provider => snd (Providers.getAvailableModels provider c w)
  | call_getAvailableProviders => snd (Providers.getAvailableProviders c w)
  | call_generateSummary provider interest summaryLength =>
    snd (Providers.AIProviderManager.generateSummary provider interest summaryLength c w)
  | call_generateTweets provider summary =>
    snd (Providers.AIProviderManager.generateTweets provider summary c w)
  | call_getTrendingTopics provider =>
    snd (Providers.AIProviderManager.getTrendingTopics provider c w)
  end.

Definition functionBased_after (call : ApiCall) (c : Ctx) (w : World) : World :=
  match call with
  | call_listOllamaModels => snd (ProvidersV1.listOllamaModels c w)
  | call_setSelectedOllamaModel model => snd (ProvidersV1.setSelectedOllamaModel model c w)
  | call_getSelectedOllamaModel => snd (ProvidersV1.getSelectedOllamaModel c w)
  | call_listGroqModels => snd (ProvidersV1.listGroqModels c w)
  | call_setSelectedGroqModel model => snd (ProvidersV1.setSelectedGroqModel model c w)
  | call_getSelectedGroqModel => snd (ProvidersV1.getSelectedGroqModel c w)
  | call_getAvailableModels provider => snd (ProvidersV1.getAvailableModels provider c w)
  | call_getAvailableProviders => snd (ProvidersV1.getAvailableProviders c w)
  | call_generateSummary provider interest summaryLength =>
    snd (ProvidersV1.AIProviderManager.generateSummary provider interest summaryLength c w)
  | call_generateTweets provider summary =>
    snd (ProvidersV1.AIProviderManager.generateTweets provider summary c w)
  | call_getTrendingTopics provider =>
    snd (ProvidersV1.AIProviderManager.getTrendingTopics provider c w)
  end.

(** The state after a sequence of calls, each from a task of its own, the
    oldest first. *)
Definition afterAll (after : ApiCall -> Ctx -> World -> World) (e : Env)
    (calls : list (Task * ApiCall)) (w : World) : World :=
  fold_left (fun w '(t, call) => after call {| env := e; task := t |} w) calls w.

(** The three models the class-based [listOllamaModels] lists. *)
Definition mockModels : list JsString := [js "llama2"; js "llama2:13b"; js "codellama"].

(** The model selected for Ollama in [providerState] is one of those
    listed there. *)
Definition ollamaSelectionListed (w : World) : Prop :=
  forall m, selectedModel (ps_ollama w) = Some m -> In m (models (ps_ollama w)).

(** In the class-based module: the models listed for Ollama, the one
    selected in [providerState], the one held by the provider object and
    the ones requests were sent for are among [mockModels]. *)
Definition ollamaModelsMocked (w : World) : Prop :=
  incl (models (ps_ollama w)) mockModels
  /\ (forall m, selectedModel (ps_ollama w) = Some m -> In m mockModels)
  /\ (forall m, ollama_selectedModel w = Some m -> In m mockModels)
  /\ (forall m prompt, In (OllamaGenerate m prompt) (network w) -> In m mockModels).



(** Since the state [w0], Ollama has been asked for no model but [llama2],
    which is the model selected in [providerState]. *)
Definition asksLlama2Since (w0 w : World) : Prop :=
  selectedModel (ps_ollama w) = Some (js "llama2")
  /\ forall m prompt,
       In (OllamaGenerate m prompt) (network w) ->
       In (OllamaGenerate m prompt) (network w0) \/ m = js "llama2".


(** A value with at most three elements: what [slice(0, 3)] returns. *)
Definition atMostThree (v : JsValue) : Prop :=
  match v with
  | JArr items => List.length items <= 3
  | JStr s => List.length s <= 3
  | _ => False
  end.


(** A briefing that carries an [error]. *)
Definition hasError (b : BriefingItem) : bool :=
  match error b with Some _ => true | None => false end.


(** What the settled result of the pipeline of [topic] is, if it is
    fulfilled: a briefing of that topic without an error. *)
Definition settledFor (topic : JsString) (r : Settled BriefingItem) : Prop :=
  match r with
  | fulfilled value => interest value = topic /\ error value = None
  | rejected _ => True
  end.


(** A browser for the examples: the storage is open and has room;
    [JSON.stringify] is given for strings without a character to escape,
    which it puts between double quotes. *)
Definition exampleBrowser : Utils.Browser :=
  {| Utils.window_defined := true;
     Utils.storage_blocked := None;
     Utils.within_quota := fun _ => true;
     Utils.JSON_stringify := fun value =>
       match value with
       | JStr s => Some (jsq "`" ++ s ++ jsq "`")
       | _ => None
       end;
     Utils.JSON_parse := Json.parse |}.
(* ===================================================================== *)
(** * Properties *)
(* ===================================================================== *)

Unset Implicit Arguments.

Ltac unfold_monad :=
  unfold bind, ret, throw, try_catch, ask, current_task, gets,
    lift, new_Error, request, modify, in_task, settle in *.

(** ** Social posts *)

Lemma tweetsOfContent_length content :
  1 <= List.length (Providers.tweetsOfContent content) <= 3.
Proof.
  unfold Providers.tweetsOfContent, slice0.
  set (l := map _ _).
  destruct (Nat.ltb_spec 0 (List.length (firstn 3 l))) as [H|H].
  - split; [lia|]. apply firstn_le_length.
  - simpl. lia.
Qed.

Lemma str_truthy_nonempty (s : JsString) : s <> [] -> str_truthy s = true.
Proof. destruct s; [congruence | reflexivity]. Qed.

Lemma GeminiProvider_generateTweets_answer e t w summary content :
  Providers.GeminiProvider.isAvailable e = true ->
  gemini_generateContent e t Providers.CONFIG_GEMINI_MODEL
    (Providers.getTweetPrompt summary) = Ok content ->
  fst (Providers.GeminiProvider.generateTweets summary {| env := e; task := t |} w)
  = Ok (Providers.tweetsOfContent content).
Proof.
  intros Ha Hc.
  unfold Providers.GeminiProvider.generateTweets, Providers.GeminiProvider.generateContent.
  unfold_monad. simpl. rewrite Ha. simpl. rewrite Hc. reflexivity.
Qed.

Lemma GroqProvider_generateTweets_answer e t w summary model answer :
  Providers.GroqProvider.isAvailable e = true ->
  groq_selectedModel w = Some model -> model <> [] ->
  groq_chat_create e t model (Providers.getTweetPrompt summary)
    Providers.MAX_TOKENS_TWEETS = Ok answer ->
  fst (Providers.GroqProvider.generateTweets summary {| env := e; task := t |} w)
  = Ok (Providers.tweetsOfContent (or_default answer [])).
Proof.
  intros Ha Hm Hne Hc.
  unfold Providers.GroqProvider.generateTweets, Providers.GroqProvider.requireModel,
    Providers.GroqProvider.complete.
  unfold_monad. simpl. rewrite Ha. simpl. rewrite Hm.
  rewrite (@str_truthy_nonempty _ Hne). simpl. rewrite Hc. reflexivity.
Qed.

Lemma OllamaProvider_generateTweets_answer e t w summary model content :
  ollama_selectedModel w = Some model -> model <> [] ->
  ollama_generate e t model (Providers.getTweetPrompt summary) = Ok content ->
  fst (Providers.OllamaProvider.generateTweets summary {| env := e; task := t |} w)
  = Ok (Providers.tweetsOfContent content).
Proof.
  intros Hm Hne Hc.
  unfold Providers.OllamaProvider.generateTweets, Providers.OllamaProvider.requireModel,
    Providers.OllamaProvider.generate.
  unfold_monad. simpl. rewrite Hm.
  rewrite (@str_truthy_nonempty _ Hne). simpl. rewrite Hc. reflexivity.
Qed.

(** Whatever a provider class returns as tweets has been through
    [tweetsOfContent]. *)
Lemma provider_generateTweets_ok p summary c w tweets w' :
  AIProviderInterface.generateTweets (Providers.providers p) summary c w = (Ok tweets, w') ->
  exists content, tweets = Providers.tweetsOfContent content.
Proof.
  destruct p; simpl;
    unfold Providers.GeminiProvider.generateTweets, Providers.GeminiProvider.generateContent,
      Providers.GroqProvider.generateTweets, Providers.GroqProvider.requireModel,
      Providers.GroqProvider.complete,
      Providers.OllamaProvider.generateTweets, Providers.OllamaProvider.requireModel,
      Providers.OllamaProvider.generate;
    unfold_monad; simpl; intros H;
    repeat match type of H with
           | context [match ?x with _ => _ end] => destruct x eqn:?; simpl in H
           | context [if ?x then _ else _] => destruct x eqn:?; simpl in H
           end;
    try discriminate; inversion H; subst; eexists; reflexivity.
Qed.

(** ** Symbolic execution of async code *)

Section WpRules.

Context {A B : Type}.
Variable c : Ctx.

Lemma wp_ret (a : A) Q E w : wp c (ret a) Q E w = Q a w.
Proof. reflexivity. Qed.

Lemma wp_throw e (Q : A -> World -> Prop) E w : wp c (throw e) Q E w = E e w.
Proof. reflexivity. Qed.

Lemma wp_new_Error msg (Q : A -> World -> Prop) E w :
  wp c (new_Error msg) Q E w = E (JsError (js msg)) w.
Proof. reflexivity. Qed.

Lemma wp_lift (r : Result A) Q E w :
  wp c (lift r) Q E w = match r with Ok a => Q a w | Throw e => E e w end.
Proof. unfold wp, lift. destruct r; reflexivity. Qed.

Lemma wp_gets (f : World -> A) Q E w : wp c (gets f) Q E w = Q (f w) w.
Proof. reflexivity. Qed.

Lemma wp_request call (r : Result A) Q E w :
  wp c (request call r) Q E w
  = match r with Ok a => Q a (logged call w) | Throw e => E e (logged call w) end.
Proof. unfold wp, request. destruct r; reflexivity. Qed.

Lemma wp_bind (m : M A) (k : A -> M B) Q E w :
  wp c (bind m k) Q E w = wp c m (fun a w' => wp c (k a) Q E w') E w.
Proof. unfold wp, bind. destruct (m c w) as [[a|e] w']; reflexivity. Qed.

Lemma wp_try_catch (m : M A) (h : Thrown -> M A) Q E w :
  wp c (try_catch m h) Q E w = wp c m Q (fun e w' => wp c (h e) Q E w') w.
Proof. unfold wp, try_catch. destruct (m c w) as [[a|e] w']; reflexivity. Qed.

Lemma wp_mono (m : M A) (Q Q' : A -> World -> Prop) (E E' : Thrown -> World -> Prop) w :
  wp c m Q E w ->
  (forall a w', Q a w' -> Q' a w') ->
  (forall e w', E e w' -> E' e w') ->
  wp c m Q' E' w.
Proof. unfold wp. destruct (m c w) as [[a|e] w']; auto. Qed.

Lemma wp_snd (m : M A) (I : World -> Prop) w :
  wp c m (fun _ => I) (fun _ => I) w -> I (snd (m c w)).
Proof. unfold wp. destruct (m c w) as [[a|e] w']; auto. Qed.

End WpRules.

Lemma wp_ask c Q E w : wp c ask Q E w = Q (env c) w.
Proof. reflexivity. Qed.

Lemma wp_current_task c Q E w : wp c current_task Q E w = Q (task c) w.
Proof. reflexivity. Qed.

Lemma wp_modify c f Q E w : wp c (modify f) Q E w = Q tt (f w).
Proof. reflexivity. Qed.

Lemma wp_in_task {A} c t (m : M A) Q E w :
  wp c (in_task t m) Q E w = wp {| env := env c; task := t |} m Q E w.
Proof. reflexivity. Qed.

Lemma wp_settle {A} c (m : M A) Q E w :
  wp c (settle m) Q E w
  = wp c m (fun a => Q (fulfilled a)) (fun e => Q (rejected e)) w.
Proof. unfold wp, settle. destruct (m c w) as [[a|e] w']; reflexivity. Qed.

(** One step of symbolic execution. *)
Ltac wp_step :=
  lazymatch goal with
  | |- wp _ (bind _ _) _ _ _ => rewrite wp_bind
  | |- wp _ (try_catch _ _) _ _ _ => rewrite wp_try_catch
  | |- wp _ (ret _) _ _ _ => rewrite wp_ret
  | |- wp _ (throw _) _ _ _ => rewrite wp_throw
  | |- wp _ (new_Error _) _ _ _ => rewrite wp_new_Error
  | |- wp _ (lift _) _ _ _ => rewrite wp_lift
  | |- wp _ (gets _) _ _ _ => rewrite wp_gets
  | |- wp _ (modify _) _ _ _ => rewrite wp_modify
  | |- wp _ (request _ _) _ _ _ => rewrite wp_request
  | |- wp _ ask _ _ _ => rewrite wp_ask
  | |- wp _ current_task _ _ _ => rewrite wp_current_task
  | |- wp _ (in_task _ _) _ _ _ => rewrite wp_in_task
  | |- wp _ (settle _) _ _ _ => rewrite wp_settle
  | |- wp _ (if ?b then _ else _) _ _ _ => destruct b eqn:?
  | |- wp _ (match ?x with _ => _ end) _ _ _ => destruct x eqn:?
  | |- match ?x with _ => _ end => destruct x eqn:?
  end; cbv beta.

Ltac wp_run := repeat wp_step.


(** ** The order of [sort] *)

Lemma js_leb_total a b : Providers.js_leb a b = false -> Providers.js_leb b a = true.
Proof.
  revert b. induction a as [|x a IH]; intros [|y b]; simpl; try discriminate; auto.
  destruct (N.ltb_spec x y) as [Hxy|Hxy]; [discriminate|].
  destruct (N.ltb_spec y x) as [Hyx|Hyx]; [reflexivity|].
  apply IH.
Qed.

Lemma insert_sorted_perm x l : Permutation (x :: l) (Providers.insert_sorted x l).
Proof.
  induction l as [|y l IH]; simpl; [reflexivity|].
  destruct (Providers.js_leb x y); [reflexivity|].
  rewrite perm_swap. constructor. exact IH.
Qed.

Lemma sort_perm l : Permutation l (Providers.sort l).
Proof.
  unfold Providers.sort. induction l as [|x l IH]; simpl; [constructor|].
  rewrite <- insert_sorted_perm. constructor. exact IH.
Qed.

Lemma insert_sorted_Sorted x l :
  Sorted (fun a b => Providers.js_leb a b = true) l ->
  Sorted (fun a b => Providers.js_leb a b = true) (Providers.insert_sorted x l).
Proof.
  induction 1 as [|y l Hs IH Hhd]; simpl; [repeat constructor|].
  destruct (Providers.js_leb x y) eqn:Hxy.
  - constructor; [constructor; assumption | constructor; exact Hxy].
  - constructor; [exact IH|].
    destruct l as [|z l]; simpl.
    + constructor. apply js_leb_total. exact Hxy.
    + destruct (Providers.js_leb x z) eqn:Hxz.
      * constructor. apply js_leb_total. exact Hxy.
      * inversion Hhd; subst. constructor. assumption.
Qed.

Lemma sort_Sorted l : Sorted (fun a b => Providers.js_leb a b = true) (Providers.sort l).
Proof.
  unfold Providers.sort. induction l as [|x l IH]; simpl; [constructor|].
  apply insert_sorted_Sorted. exact IH.
Qed.


(** ** Web search *)

Lemma prepend_ok p r s : r = Ok s -> prepend p r = Ok (p ++ s).
Proof. intros ->. reflexivity. Qed.

Lemma unescaped_not_surrogate (c : CodeUnit) :
  isUriUnescaped c = true -> isLowSurrogate c = false /\ isHighSurrogate c = false.
Proof.
  unfold isUriUnescaped, isLowSurrogate, isHighSurrogate.
  repeat rewrite orb_true_iff. repeat rewrite andb_true_iff.
  repeat rewrite andb_false_iff.
  repeat rewrite N.leb_le. repeat rewrite N.eqb_eq. repeat rewrite N.leb_gt.
  lia.
Qed.

(** Induction on the length, as a surrogate pair takes two code units. *)
Lemma encodeURIComponent_wellFormed (s : JsString) :
  isWellFormed s = true -> exists encoded, encodeURIComponent s = Ok encoded.
Proof.
  remember (List.length s) as n eqn:Hn.
  revert s Hn. induction n as [n IH] using lt_wf_ind. intros s Hn Hwf.
  destruct s as [|c r]; [eexists; reflexivity|].
  simpl in *.
  destruct (isUriUnescaped c) eqn:Hu.
  - destruct (unescaped_not_surrogate _ Hu) as [Hlow Hhigh].
    rewrite Hlow, Hhigh in Hwf.
    destruct (IH (List.length r) ltac:(lia) r eq_refl Hwf) as [enc Henc].
    eexists. apply prepend_ok. exact Henc.
  - destruct (isLowSurrogate c); [discriminate|].
    destruct (isHighSurrogate c).
    + destruct r as [|d r']; [discriminate|].
      apply andb_true_iff in Hwf. destruct Hwf as [Hd Hwf]. rewrite Hd.
      destruct (IH (List.length r') ltac:(simpl in *; lia) r' eq_refl Hwf) as [enc Henc].
      eexists. apply prepend_ok. exact Henc.
    + destruct (IH (List.length r) ltac:(lia) r eq_refl Hwf) as [enc Henc].
      eexists. apply prepend_ok. exact Henc.
Qed.

Lemma encodeURIComponent_illFormed (s : JsString) :
  isWellFormed s = false -> encodeURIComponent s = Throw URIError.
Proof.
  remember (List.length s) as n eqn:Hn.
  revert s Hn. induction n as [n IH] using lt_wf_ind. intros s Hn Hwf.
  destruct s as [|c r]; [discriminate|].
  simpl in *.
  destruct (isUriUnescaped c) eqn:Hu.
  - destruct (unescaped_not_surrogate _ Hu) as [Hlow Hhigh].
    rewrite Hlow, Hhigh in Hwf.
    rewrite (IH (List.length r) ltac:(lia) r eq_refl Hwf). reflexivity.
  - destruct (isLowSurrogate c); [reflexivity|].
    destruct (isHighSurrogate c).
    + destruct r as [|d r']; [reflexivity|].
      destruct (isLowSurrogate d); [|reflexivity].
      simpl in Hwf.
      rewrite (IH (List.length r') ltac:(simpl in *; lia) r' eq_refl Hwf). reflexivity.
    + rewrite (IH (List.length r) ltac:(lia) r eq_refl Hwf). reflexivity.
Qed.

Lemma slice0Z_length {A} (n : Z) (xs : list A) :
  (0 <= n)%Z -> (Z.of_nat (List.length (slice0Z n xs)) <= n)%Z.
Proof.
  intros Hn. unfold slice0Z.
  destruct (Z.ltb_spec n 0); [lia|].
  pose proof (firstn_le_length (Z.to_nat n) xs). lia.
Qed.

Lemma searchOutcome_length encoded maxResults outcome :
  (1 <= maxResults)%Z ->
  (Z.of_nat (List.length (searchOutcome encoded maxResults outcome)) <= maxResults)%Z.
Proof.
  intros Hn. unfold searchOutcome.
  destruct outcome as [err | [|] [v|err]]; simpl; try lia.
  destruct (sources_of_answer _); simpl; try lia.
  apply slice0Z_length. lia.
Qed.

Lemma searchWeb_run e t w query maxResults encoded :
  encodeURIComponent query = Ok encoded ->
  searchWeb query maxResults {| env := e; task := t |} w
  = (Ok (searchOutcome encoded maxResults (fetch e t (searchUrl encoded maxResults))),
     {| ps_ollama := ps_ollama w; ps_groq := ps_groq w;
        groq_selectedModel := groq_selectedModel w;
        ollama_selectedModel := ollama_selectedModel w;
        network := network w ++ [Fetch (searchUrl encoded maxResults)] |}).
Proof.
  intros Henc.
  unfold searchWeb, do_fetch, searchOutcome. unfold_monad. simpl.
  rewrite Henc. simpl.
  destruct (fetch e t (searchUrl encoded maxResults)) as [err | [|] [v|err]]; simpl;
    rewrite ?Henc; simpl; try reflexivity.
  destruct (sources_of_answer _); simpl; rewrite ?Henc; reflexivity.
Qed.

(** C10 (as amended).  For a query without an unpaired surrogate and
    [maxResults >= 1], [searchWeb] never rejects, whatever the search
    service does, and returns at most [maxResults] sources.  When the
    request fails, the answer is not [ok], its body is not JSON or not of
    the expected shape, it returns exactly one fallback source, whose url is
    the Google search address followed by the URI-encoded query. *)
Theorem searchWeb_never_rejects (e : Env) (t : Task) (w : World)
    (query : JsString) (maxResults : Z) :
  isWellFormed query = true ->
  (1 <= maxResults)%Z ->
  exists encoded sources w',
    encodeURIComponent query = Ok encoded
    /\ searchWeb query maxResults {| env := e; task := t |} w = (Ok sources, w')
    /\ (Z.of_nat (List.length sources) <= maxResults)%Z
    /\ ((forall v mapped,
            fetch e t (searchUrl encoded maxResults) = FetchResponse true (Ok v) ->
            sources_of_answer v = Ok mapped -> False) ->
        sources = [fallbackSource encoded])
    /\ url (fallbackSource encoded)
       = JStr (js "https://www.google.com/search?q=" ++ encoded).
Proof.
  intros Hwf Hmax.
  destruct (encodeURIComponent_wellFormed _ Hwf) as [encoded Henc].
  exists encoded. do 2 eexists.
  split; [exact Henc|].
  split; [apply searchWeb_run; exact Henc|].
  split; [apply searchOutcome_length; exact Hmax|].
  split; [|reflexivity].
  intros Hfail. unfold searchOutcome.
  destruct (fetch e t (searchUrl encoded maxResults)) as [err | [|] [v|err]] eqn:Hf;
    try reflexivity.
  destruct (sources_of_answer _) as [mapped|] eqn:Hs; [|reflexivity].
  exfalso. exact (Hfail _ mapped eq_refl Hs).
Qed.

(** The theorem at work with the search service out of reach. *)
Lemma searchWeb_never_rejects_witness :
  exists encoded sources w',
    encodeURIComponent (js "quantum computing") = Ok encoded
    /\ searchWeb (js "quantum computing") 5 (mainCtx offlineEnv) Providers.initialWorld
       = (Ok sources, w')
    /\ (Z.of_nat (List.length sources) <= 5)%Z
    /\ ((forall v mapped,
            fetch offlineEnv MainTask (searchUrl encoded 5) = FetchResponse true (Ok v) ->
            sources_of_answer v = Ok mapped -> False) ->
        sources = [fallbackSource encoded])
    /\ url (fallbackSource encoded)
       = JStr (js "https://www.google.com/search?q=" ++ encoded).
Proof.
  apply (searchWeb_never_rejects offlineEnv MainTask Providers.initialWorld
           (js "quantum computing") 5).
  - vm_compute. reflexivity.
  - lia.
Defined.

(** An answer of the search service with three titles, and the first two
    of them asked for. *)
Example searchWeb_two_of_three :
  fst (searchWeb (js "ai") 2
         (mainCtx (searchEnv (jsq "[`ai`,[`AI`,`Ai`,`AI winter`],[``,`a name`,``],[`u1`,`u2`,`u3`]]")))
         Providers.initialWorld)
  = Ok [ {| title := JStr (js "AI"); url := JStr (js "u1");
            snippet := JStr (js "No description available") |};
         {| title := JStr (js "Ai"); url := JStr (js "u2");
            snippet := JStr (js "a name") |} ].
Proof. vm_compute. reflexivity. Qed.

(** C10 as stated fails in three ways: a query with an unpaired surrogate
    makes [encodeURIComponent] throw in the [try] block and again in the
    [catch] block, so [searchWeb] rejects; with [maxResults = 0] a failed
    request still gives one source; and the url of the fallback source
    holds the encoded query, here without the space of the query. *)
Lemma searchWeb_counterexample :
  fst (searchWeb [0xD800%N] 5 (mainCtx offlineEnv) Providers.initialWorld)
    = Throw URIError
  /\ fst (searchWeb (js "ai") 0 (mainCtx offlineEnv) Providers.initialWorld)
    = Ok [fallbackSource (js "ai")]
  /\ fst (searchWeb (js "a b") 5 (mainCtx offlineEnv) Providers.initialWorld)
    = Ok [ {| title := JStr (js "Search Results Unavailable");
              url := JStr (js "https://www.google.com/search?q=a%20b");
              snippet := JStr (js "Could not fetch real-time sources. Click to search Google.") |} ].
Proof. repeat split; vm_compute; reflexivity. Qed.

(** C3 (as amended).  Whatever string the model answers with, the empty
    string included, [generateTweets] of each of the three provider classes
    returns between one and three tweets: the lines that pass the filter are
    cut to three, and the three fixed placeholder tweets stand in when no
    line passes.  The first part bounds the parsing of any answer and any
    tweets a provider returns; the other three say that a provider that is
    configured and gets an answer returns the parsing of that answer. *)
Theorem generateTweets_one_to_three :
  (forall content, 1 <= List.length (Providers.tweetsOfContent content) <= 3)
  /\ (forall p summary c w tweets w',
        AIProviderInterface.generateTweets (Providers.providers p) summary c w
          = (Ok tweets, w') ->
        1 <= List.length tweets <= 3)
  /\ (forall e t w summary content,
        Providers.GeminiProvider.isAvailable e = true ->
        gemini_generateContent e t Providers.CONFIG_GEMINI_MODEL
          (Providers.getTweetPrompt summary) = Ok content ->
        fst (Providers.GeminiProvider.generateTweets summary {| env := e; task := t |} w)
          = Ok (Providers.tweetsOfContent content))
  /\ (forall e t w summary model answer,
        Providers.GroqProvider.isAvailable e = true ->
        groq_selectedModel w = Some model -> model <> [] ->
        groq_chat_create e t model (Providers.getTweetPrompt summary)
          Providers.MAX_TOKENS_TWEETS = Ok answer ->
        fst (Providers.GroqProvider.generateTweets summary {| env := e; task := t |} w)
          = Ok (Providers.tweetsOfContent (or_default answer [])))
  /\ (forall e t w summary model content,
        ollama_selectedModel w = Some model -> model <> [] ->
        ollama_generate e t model (Providers.getTweetPrompt summary) = Ok content ->
        fst (Providers.OllamaProvider.generateTweets summary {| env := e; task := t |} w)
          = Ok (Providers.tweetsOfContent content)).
Proof.
  split; [exact tweetsOfContent_length|].
  split.
  { intros p summary c w tweets w' H.
    destruct (@provider_generateTweets_ok _ _ _ _ _ _ H) as [content ->].
    apply tweetsOfContent_length. }
  split; [exact GeminiProvider_generateTweets_answer|].
  split; [exact GroqProvider_generateTweets_answer|].
  exact OllamaProvider_generateTweets_answer.
Qed.

(** The theorem at work: an empty answer gives the three placeholders with
    each provider, and what comes back has three entries. *)
Lemma generateTweets_one_to_three_witness :
  fst (Providers.GeminiProvider.generateTweets (js "news")
         (mainCtx (geminiEnv (Ok []))) Providers.initialWorld)
    = Ok (Providers.tweetsOfContent [])
  /\ fst (Providers.GroqProvider.generateTweets (js "news")
            (mainCtx (groqEnv (Ok None) (Ok None)))
            (selectedWorld (js "llama3-8b-8192") (js "llama2")))
    = Ok (Providers.tweetsOfContent [])
  /\ fst (Providers.OllamaProvider.generateTweets (js "news")
            (mainCtx (ollamaEnv (Ok [])))
            (selectedWorld (js "llama3-8b-8192") (js "llama2")))
    = Ok (Providers.tweetsOfContent [])
  /\ 1 <= List.length Providers.placeholderTweets <= 3.
Proof.
  destruct generateTweets_one_to_three as (Hlen & Hany & Hgemini & Hgroq & Hollama).
  split.
  { apply Hgemini; reflexivity. }
  split.
  { apply (Hgroq _ _ _ _ (js "llama3-8b-8192") None);
      [reflexivity | reflexivity | discriminate | reflexivity]. }
  split.
  { apply (Hollama _ _ _ _ (js "llama2") []);
      [reflexivity | discriminate | reflexivity]. }
  apply (Hany gemini (js "news") (mainCtx (geminiEnv (Ok []))) Providers.initialWorld
              Providers.placeholderTweets
              (snd (Providers.GeminiProvider.generateTweets (js "news")
                      (mainCtx (geminiEnv (Ok []))) Providers.initialWorld))).
  vm_compute. reflexivity.
Defined.

(** C3 as stated fails on the function-based module: an empty answer is
    not JSON and has no line that starts with a quote, so
    [generateTweetsWithGemini] returns no tweet at all; and the [tweets] of a
    JSON answer are returned uncut, here four of them. *)
Lemma generateTweets_function_based_counterexample :
  fst (ProvidersV1.AIProviderManager.generateTweets gemini (js "news")
         (mainCtx (geminiEnv (Ok []))) ProvidersV1.initialWorld)
    = Ok (JArr [])
  /\ fst (ProvidersV1.AIProviderManager.generateTweets gemini (js "news")
            (mainCtx (geminiEnv (Ok (jsq "{`tweets`:[`a`,`b`,`c`,`d`]}"))))
            ProvidersV1.initialWorld)
    = Ok (JArr [JStr (js "a"); JStr (js "b"); JStr (js "c"); JStr (js "d")]).
Proof. split; vm_compute; reflexivity. Qed.

(** ** Trending topics *)

Lemma firstn_3_length_pos {A} (l : list A) :
  0 < List.length l -> 1 <= List.length (firstn 3 l) <= 3.
Proof.
  intros H. split; [|apply firstn_le_length].
  destruct l; simpl in *; lia.
Qed.

Lemma GroqProvider_topicsOfContent_length e content :
  exists items,
    Providers.GroqProvider.topicsOfContent e content = JArr items
    /\ 1 <= List.length items <= 3.
Proof.
  unfold Providers.GroqProvider.topicsOfContent.
  destruct (Providers.GroqProvider.topicsOfJsonArray e content) as [topics|] eqn:Hjson.
  - unfold Providers.GroqProvider.topicsOfJsonArray in Hjson.
    destruct (JSON_parse e content) as [parsed|]; [|discriminate].
    destruct (get_prop parsed (js "topics")) as [[| | | | |items|]|]; try discriminate.
    destruct (Nat.ltb_spec 0 (List.length items)) as [Hpos|]; [|discriminate].
    inversion Hjson; subst. eexists; split; [reflexivity|].
    apply firstn_3_length_pos; assumption.
  - unfold Providers.GroqProvider.topicsOfText.
    set (topics := map _ _).
    destruct (Nat.eqb_spec (List.length topics) 0) as [Hz|Hnz].
    + eexists; split; [reflexivity|]. simpl. lia.
    + eexists; split; [reflexivity|].
      apply firstn_3_length_pos; lia.
Qed.

Lemma GroqProvider_getTrendingTopics_answer e t w model answer :
  Providers.GroqProvider.isAvailable e = true ->
  groq_selectedModel w = Some model -> model <> [] ->
  groq_chat_create e t model Providers.trendingPrompt_text
    Providers.MAX_TOKENS_TRENDING = Ok answer ->
  fst (Providers.GroqProvider.getTrendingTopics {| env := e; task := t |} w)
  = Ok (Providers.GroqProvider.topicsOfContent e (or_default answer [])).
Proof.
  intros Ha Hm Hne Hc.
  unfold Providers.GroqProvider.getTrendingTopics, Providers.GroqProvider.requireModel,
    Providers.GroqProvider.complete.
  unfold_monad. simpl. rewrite Ha. simpl. rewrite Hm.
  rewrite (@str_truthy_nonempty _ Hne). simpl. rewrite Hc. reflexivity.
Qed.

Lemma GeminiProvider_getTrendingTopics_answer e t w content :
  Providers.GeminiProvider.isAvailable e = true ->
  gemini_generateContent e t Providers.CONFIG_GEMINI_MODEL
    Providers.trendingPrompt_json = Ok content ->
  fst (Providers.GeminiProvider.getTrendingTopics {| env := e; task := t |} w)
  = Ok (Providers.topicsOfJson e content Providers.GeminiProvider.fallbackTopics).
Proof.
  intros Ha Hc.
  unfold Providers.GeminiProvider.getTrendingTopics, Providers.GeminiProvider.generateContent.
  unfold_monad. simpl. rewrite Ha. simpl. rewrite Hc. reflexivity.
Qed.

Lemma OllamaProvider_getTrendingTopics_answer e t w model content :
  ollama_selectedModel w = Some model -> model <> [] ->
  ollama_generate e t model Providers.trendingPrompt_json = Ok content ->
  fst (Providers.OllamaProvider.getTrendingTopics {| env := e; task := t |} w)
  = Ok (Providers.topicsOfJson e content Providers.OllamaProvider.fallbackTopics).
Proof.
  intros Hm Hne Hc.
  unfold Providers.OllamaProvider.getTrendingTopics, Providers.OllamaProvider.requireModel,
    Providers.OllamaProvider.generate.
  unfold_monad. simpl. rewrite Hm.
  rewrite (@str_truthy_nonempty _ Hne). simpl. rewrite Hc. reflexivity.
Qed.

Lemma topicsOfJson_unparseable e content fallback err :
  JSON_parse e content = Throw err ->
  Providers.topicsOfJson e content fallback = fallback.
Proof. intros H. unfold Providers.topicsOfJson. rewrite H. reflexivity. Qed.

Lemma topicsOfJsonArray_some e content parsed topics :
  JSON_parse e content = Ok parsed ->
  get_prop parsed (js "topics") = Ok (JArr topics) ->
  topics <> [] ->
  Providers.GroqProvider.topicsOfJsonArray e content = Some (JArr (firstn 3 topics)).
Proof.
  intros Hp Hg Hne. unfold Providers.GroqProvider.topicsOfJsonArray.
  rewrite Hp, Hg. destruct topics; [congruence | reflexivity].
Qed.

Lemma topicsOfJsonArray_none e content :
  (forall parsed topics,
      JSON_parse e content = Ok parsed ->
      get_prop parsed (js "topics") = Ok (JArr topics) -> topics = []) ->
  Providers.GroqProvider.topicsOfJsonArray e content = None.
Proof.
  intros H. unfold Providers.GroqProvider.topicsOfJsonArray.
  destruct (JSON_parse e content) as [parsed|]; [|reflexivity].
  destruct (get_prop parsed (js "topics")) as [[| | | | |items|]|] eqn:Hg; try reflexivity.
  rewrite (H parsed items eq_refl Hg). reflexivity.
Qed.

Lemma firstn_min_3 {A} (l : list A) : firstn (Nat.min (List.length l) 3) l = firstn 3 l.
Proof.
  destruct (Nat.le_gt_cases (List.length l) 3) as [H|H].
  - rewrite Nat.min_l by exact H. rewrite !firstn_all2 by lia. reflexivity.
  - rewrite Nat.min_r by lia. reflexivity.
Qed.

Lemma topicsOfText_lines e content :
  let lines := filter (fun line => 10 <? List.length (trim line)) (split LF content) in
  Providers.GroqProvider.topicsOfText e content
  = match lines with
    | [] => Providers.GroqProvider.fallbackTopics
    | _ :: _ => JArr (map (Providers.GroqProvider.topicOfLine e) (firstn 3 lines))
    end.
Proof.
  intros lines. unfold Providers.GroqProvider.topicsOfText. fold lines.
  rewrite firstn_min_3. destruct lines as [|l1 rest]; [reflexivity|].
  set (topics := map _ _).
  assert (Hlen : List.length topics <= 3)
    by (unfold topics; rewrite length_map; apply firstn_le_length).
  assert (Hpos : (List.length topics =? 0) = false) by reflexivity.
  rewrite Hpos. unfold slice0. rewrite firstn_all2 by exact Hlen. reflexivity.
Qed.

Lemma JArr_inj (a b : list JsValue) : JArr a = JArr b -> a = b.
Proof. intros H. injection H as ->. reflexivity. Qed.

Lemma topicOfLine_entries e (l : list JsString) :
  Forall2
    (fun rawLine topic =>
       let cleanLine := trim (removeBold (stripNumbering (trim rawLine))) in
       let colonIndex := indexOf cleanLine (js ":") in
       exists title description,
         topic = TrendingTopic title description
         /\ if (0 <? colonIndex)%Z
            then title = trim (substring cleanLine 0 (Z.to_nat colonIndex))
                 /\ description
                    = trim (substring_from cleanLine (Z.to_nat colonIndex + 1))
            else title = cleanLine
                 /\ description
                    = js "Recent developments in " ++ toLowerCase e cleanLine)
    l (map (Providers.GroqProvider.topicOfLine e) l).
Proof.
  induction l as [|line l IH]; simpl; constructor; [|exact IH].
  unfold Providers.GroqProvider.topicOfLine.
  destruct (0 <? indexOf _ _)%Z; do 2 eexists; split; try reflexivity; split; reflexivity.
Qed.

(** C4 (as amended).  [GroqProvider.getTrendingTopics] returns between one
    and three entries whatever the model answers.  For a JSON answer with a
    non-empty [topics] array they are the first three elements of that
    array, as they are.  For any other answer they are one (title,
    description) entry for each of the first three lines of more than ten
    characters: the line without its numbering and bold markers, split at
    its first colon if it has one after its first character, and described
    as "Recent developments in ..." otherwise.  Without such a line they
    are the three fixed entries.  [GeminiProvider] and [OllamaProvider]
    return their three fixed entries when the answer is not JSON or is the
    JSON [null]; for any other JSON answer they return its [topics] as they
    are, or an empty list if it has none: they have no text extraction. *)
Theorem getTrendingTopics_fallbacks :
  (forall e t w model answer,
      Providers.GroqProvider.isAvailable e = true ->
      groq_selectedModel w = Some model -> model <> [] ->
      groq_chat_create e t model Providers.trendingPrompt_text
        Providers.MAX_TOKENS_TRENDING = Ok answer ->
      let content := or_default answer [] in
      let lines := filter (fun line => 10 <? List.length (trim line)) (split LF content) in
      exists items,
        fst (Providers.GroqProvider.getTrendingTopics {| env := e; task := t |} w)
          = Ok (JArr items)
        /\ 1 <= List.length items <= 3
        /\ (forall parsed topics,
              JSON_parse e content = Ok parsed ->
              get_prop parsed (js "topics") = Ok (JArr topics) ->
              topics <> [] ->
              items = firstn 3 topics)
        /\ ((forall parsed topics,
               JSON_parse e content = Ok parsed ->
               get_prop parsed (js "topics") = Ok (JArr topics) ->
               topics = []) ->
            (lines <> [] ->
             Forall2
               (fun rawLine topic =>
                  let cleanLine := trim (removeBold (stripNumbering (trim rawLine))) in
                  let colonIndex := indexOf cleanLine (js ":") in
                  exists title description,
                    topic = TrendingTopic title description
                    /\ if (0 <? colonIndex)%Z
                       then title = trim (substring cleanLine 0 (Z.to_nat colonIndex))
                            /\ description
                               = trim (substring_from cleanLine (Z.to_nat colonIndex + 1))
                       else title = cleanLine
                            /\ description
                               = js "Recent developments in " ++ toLowerCase e cleanLine)
               (firstn 3 lines) items)
            /\ (lines = [] ->
                items = [ TrendingTopic (js "Technology Updates")
                            (js "Latest tech developments and innovations");
                          TrendingTopic (js "Global Politics")
                            (js "Recent political developments worldwide");
                          TrendingTopic (js "Economic News")
                            (js "Financial market updates and economic trends") ])))
  /\ (forall e t w content,
        Providers.GeminiProvider.isAvailable e = true ->
        gemini_generateContent e t Providers.CONFIG_GEMINI_MODEL
          Providers.trendingPrompt_json = Ok content ->
        let fixed :=
          JArr [ TrendingTopic (js "Technology Updates") (js "Latest tech developments");
                 TrendingTopic (js "Global Politics") (js "Recent political developments");
                 TrendingTopic (js "Economic News") (js "Financial market updates") ] in
        exists topics,
          fst (Providers.GeminiProvider.getTrendingTopics {| env := e; task := t |} w)
            = Ok topics
          /\ (forall err, JSON_parse e content = Throw err -> topics = fixed)
          /\ (forall parsed err,
                JSON_parse e content = Ok parsed ->
                get_prop parsed (js "topics") = Throw err -> topics = fixed)
          /\ (forall parsed found,
                JSON_parse e content = Ok parsed ->
                get_prop parsed (js "topics") = Ok found ->
                topics = if truthy found then found else JArr []))
  /\ (forall e t w model content,
        ollama_selectedModel w = Some model -> model <> [] ->
        ollama_generate e t model Providers.trendingPrompt_json = Ok content ->
        let fixed :=
          JArr [ TrendingTopic (js "AI Development") (js "Latest AI advancements");
                 TrendingTopic (js "Tech Innovation") (js "New technology releases");
                 TrendingTopic (js "Market Updates") (js "Financial developments") ] in
        exists topics,
          fst (Providers.OllamaProvider.getTrendingTopics {| env := e; task := t |} w)
            = Ok topics
          /\ (forall err, JSON_parse e content = Throw err -> topics = fixed)
          /\ (forall parsed err,
                JSON_parse e content = Ok parsed ->
                get_prop parsed (js "topics") = Throw err -> topics = fixed)
          /\ (forall parsed found,
                JSON_parse e content = Ok parsed ->
                get_prop parsed (js "topics") = Ok found ->
                topics = if truthy found then found else JArr [])).
Proof.
  split.
  { intros e t w model answer Ha Hm Hne Hc content lines.
    destruct (GroqProvider_topicsOfContent_length e content) as (items & Hitems & Hlen).
    exists items.
    split.
    { rewrite (@GroqProvider_getTrendingTopics_answer _ _ _ _ _ Ha Hm Hne Hc).
      fold content. rewrite Hitems. reflexivity. }
    split; [exact Hlen|].
    split.
    { intros parsed topics Hp Hg Hnonempty.
      unfold Providers.GroqProvider.topicsOfContent in Hitems.
      rewrite (topicsOfJsonArray_some e content parsed topics Hp Hg Hnonempty) in Hitems.
      injection Hitems as <-. reflexivity. }
    intros Hnot.
    unfold Providers.GroqProvider.topicsOfContent in Hitems.
    rewrite (topicsOfJsonArray_none e content Hnot) in Hitems.
    rewrite topicsOfText_lines in Hitems. fold lines in Hitems.
    split.
    - intros Hlines. destruct lines as [|l1 rest] eqn:Hl; [congruence|].
      apply JArr_inj in Hitems. rewrite <- Hitems. apply topicOfLine_entries.
    - intros Hlines. rewrite Hlines in Hitems. apply JArr_inj in Hitems.
      rewrite <- Hitems. reflexivity. }
  split.
  { intros e t w content Ha Hc fixed.
    exists (Providers.topicsOfJson e content Providers.GeminiProvider.fallbackTopics).
    split; [apply (@GeminiProvider_getTrendingTopics_answer _ _ w _ Ha Hc)|].
    unfold Providers.topicsOfJson.
    repeat split.
    - intros err Hp. rewrite Hp. reflexivity.
    - intros parsed err Hp Hg. rewrite Hp, Hg. reflexivity.
    - intros parsed found Hp Hg. rewrite Hp, Hg. reflexivity. }
  intros e t w model content Hm Hne Hc fixed.
  exists (Providers.topicsOfJson e content Providers.OllamaProvider.fallbackTopics).
  split; [apply (@OllamaProvider_getTrendingTopics_answer e _ _ _ _ Hm Hne Hc)|].
  unfold Providers.topicsOfJson.
  repeat split.
  - intros err Hp. rewrite Hp. reflexivity.
  - intros parsed err Hp Hg. rewrite Hp, Hg. reflexivity.
  - intros parsed found Hp Hg. rewrite Hp, Hg. reflexivity.
Qed.

(** The theorem at work.  Groq: a JSON answer with four topics, and an
    answer of three lines of which two are long enough.  Gemini: an answer
    that is not JSON, and a JSON answer.  Ollama: an answer that is not
    JSON. *)
Lemma getTrendingTopics_fallbacks_witness :
  fst (Providers.GroqProvider.getTrendingTopics
         (mainCtx (groqEnv (Ok None)
                     (Ok (Some (jsq "{`topics`:[{`title`:`A`,`description`:`B`},1,2,3]}")))))
         (selectedWorld (js "llama3-8b-8192") (js "llama2")))
    = Ok (JArr [ TrendingTopic (js "A") (js "B");
                 JNum {| mantissa := 1; exponent10 := 0 |};
                 JNum {| mantissa := 2; exponent10 := 0 |} ])
  /\ (let e := groqEnv (Ok None)
                (Ok (Some (js "1. **AI chips**: demand is rising
2. Climate summit ends without a deal
ok"))) in
      exists items,
        fst (Providers.GroqProvider.getTrendingTopics (mainCtx e)
               (selectedWorld (js "llama3-8b-8192") (js "llama2")))
          = Ok (JArr items)
        /\ Forall2
             (fun rawLine topic =>
                let cleanLine := trim (removeBold (stripNumbering (trim rawLine))) in
                let colonIndex := indexOf cleanLine (js ":") in
                exists title description,
                  topic = TrendingTopic title description
                  /\ if (0 <? colonIndex)%Z
                     then title = trim (substring cleanLine 0 (Z.to_nat colonIndex))
                          /\ description
                             = trim (substring_from cleanLine (Z.to_nat colonIndex + 1))
                     else title = cleanLine
                          /\ description
                             = js "Recent developments in " ++ toLowerCase e cleanLine)
             [js "1. **AI chips**: demand is rising";
              js "2. Climate summit ends without a deal"]
             items
        /\ items = [ TrendingTopic (js "AI chips") (js "demand is rising");
                     TrendingTopic (js "Climate summit ends without a deal")
                       (js "Recent developments in climate summit ends without a deal") ])
  /\ fst (Providers.GeminiProvider.getTrendingTopics
            (mainCtx (geminiEnv (Ok (js "no idea")))) Providers.initialWorld)
     = Ok (JArr [ TrendingTopic (js "Technology Updates") (js "Latest tech developments");
                  TrendingTopic (js "Global Politics") (js "Recent political developments");
                  TrendingTopic (js "Economic News") (js "Financial market updates") ])
  /\ fst (Providers.GeminiProvider.getTrendingTopics
            (mainCtx (geminiEnv (Ok (jsq "{`topics`:[{`title`:`A`,`description`:`B`}]}"))))
            Providers.initialWorld)
     = Ok (JArr [TrendingTopic (js "A") (js "B")])
  /\ fst (Providers.OllamaProvider.getTrendingTopics
            (mainCtx (ollamaEnv (Ok (js "no idea"))))
            (selectedWorld (js "llama3-8b-8192") (js "llama2")))
     = Ok (JArr [ TrendingTopic (js "AI Development") (js "Latest AI advancements");
                  TrendingTopic (js "Tech Innovation") (js "New technology releases");
                  TrendingTopic (js "Market Updates") (js "Financial developments") ]).
Proof.
  destruct getTrendingTopics_fallbacks as (Hgroq & Hgemini & Hollama).
  split.
  { destruct (Hgroq (groqEnv (Ok None)
                       (Ok (Some (jsq "{`topics`:[{`title`:`A`,`description`:`B`},1,2,3]}"))))
                MainTask (selectedWorld (js "llama3-8b-8192") (js "llama2"))
                (js "llama3-8b-8192") _ eq_refl eq_refl ltac:(discriminate) eq_refl)
      as (items & Hrun & _ & Hjson & _).
    unfold mainCtx. rewrite Hrun. f_equal. f_equal.
    eapply eq_trans;
      [ eapply Hjson; [vm_compute; reflexivity | vm_compute; reflexivity | discriminate]
      | reflexivity ]. }
  split.
  { intros e.
    destruct (Hgroq e MainTask (selectedWorld (js "llama3-8b-8192") (js "llama2"))
                (js "llama3-8b-8192") _ eq_refl eq_refl ltac:(discriminate) eq_refl)
      as (items & Hrun & _ & _ & Htext).
    assert (Hthrow : JSON_parse e
                       (or_default (Some (js "1. **AI chips**: demand is rising
2. Climate summit ends without a deal
ok")) [])
                     = Throw Json.SyntaxError) by (vm_compute; reflexivity).
    destruct Htext as [Hlines _].
    { intros parsed topics Hp. rewrite Hthrow in Hp. discriminate Hp. }
    assert (Hfirst : firstn 3
                       (filter (fun line => 10 <? List.length (trim line))
                          (split LF (or_default (Some (js "1. **AI chips**: demand is rising
2. Climate summit ends without a deal
ok")) [])))
                     = [js "1. **AI chips**: demand is rising";
                        js "2. Climate summit ends without a deal"])
      by (vm_compute; reflexivity).
    rewrite Hfirst in Hlines.
    exists items. split; [exact Hrun|].
    split; [apply Hlines; vm_compute; discriminate|].
    apply JArr_inj. apply (@f_equal _ _ (fun r => match r with Ok v => v | Throw _ => JNull end)
                             _ _) in Hrun.
    rewrite <- Hrun. vm_compute. reflexivity. }
  split.
  { destruct (Hgemini (geminiEnv (Ok (js "no idea"))) MainTask Providers.initialWorld
                (js "no idea") eq_refl eq_refl) as (topics & Hrun & Hthrow & _).
    unfold mainCtx. rewrite Hrun. f_equal. eapply Hthrow. vm_compute. reflexivity. }
  split.
  { destruct (Hgemini (geminiEnv (Ok (jsq "{`topics`:[{`title`:`A`,`description`:`B`}]}")))
                MainTask Providers.initialWorld _ eq_refl eq_refl)
      as (topics & Hrun & _ & _ & Hfound).
    unfold mainCtx. rewrite Hrun. f_equal.
    erewrite Hfound; [| vm_compute; reflexivity | vm_compute; reflexivity].
    reflexivity. }
  destruct (Hollama (ollamaEnv (Ok (js "no idea"))) MainTask
              (selectedWorld (js "llama3-8b-8192") (js "llama2")) (js "llama2")
              (js "no idea") eq_refl ltac:(discriminate) eq_refl)
    as (topics & Hrun & Hthrow & _).
  unfold mainCtx. rewrite Hrun. f_equal. eapply Hthrow. vm_compute. reflexivity.
Defined.

(** C4 as stated fails on [GeminiProvider.getTrendingTopics] and on
    [OllamaProvider.getTrendingTopics]: a JSON answer with an empty [topics]
    array, or without [topics], gives no entry, and one with four topics
    gives four.  It fails on [GroqProvider.getTrendingTopics] too: the
    elements of a JSON answer's [topics] are returned unchecked, here a
    number, which is no (title, description) entry. *)
Lemma getTrendingTopics_entries_counterexample :
  fst (Providers.GeminiProvider.getTrendingTopics
         (mainCtx (geminiEnv (Ok (jsq "{`topics`:[]}")))) Providers.initialWorld)
    = Ok (JArr [])
  /\ fst (Providers.GeminiProvider.getTrendingTopics
            (mainCtx (geminiEnv (Ok (jsq "{}")))) Providers.initialWorld)
    = Ok (JArr [])
  /\ fst (Providers.GeminiProvider.getTrendingTopics
            (mainCtx (geminiEnv (Ok (jsq "{`topics`:[`a`,`b`,`c`,`d`]}"))))
            Providers.initialWorld)
    = Ok (JArr [JStr (js "a"); JStr (js "b"); JStr (js "c"); JStr (js "d")])
  /\ fst (Providers.OllamaProvider.getTrendingTopics
            (mainCtx (ollamaEnv (Ok (jsq "{}"))))
            (selectedWorld (js "llama3-8b-8192") (js "llama2")))
    = Ok (JArr [])
  /\ fst (Providers.GroqProvider.getTrendingTopics
            (mainCtx (groqEnv (Ok None) (Ok (Some (jsq "{`topics`:[1]}")))))
            (selectedWorld (js "llama3-8b-8192") (js "llama2")))
    = Ok (JArr [JNum {| mantissa := 1; exponent10 := 0 |}]).
Proof.
  split; [vm_compute; reflexivity|].
  split; [vm_compute; reflexivity|].
  split; [vm_compute; reflexivity|].
  split; [vm_compute; reflexivity|].
  vm_compute. reflexivity.
Qed.
(** ** Calls without a model, in any state *)
(** ** Generation without a selected model *)

Ltac unfold_providers :=
  unfold Providers.AIProviderManager.generateSummary,
    Providers.AIProviderManager.generateTweets,
    Providers.AIProviderManager.getTrendingTopics,
    Providers.AIProviderManager.prepare,
    Providers.GeminiProvider.generateSummary, Providers.GeminiProvider.generateTweets,
    Providers.GeminiProvider.getTrendingTopics, Providers.GeminiProvider.generateContent,
    Providers.GroqProvider.generateSummary, Providers.GroqProvider.generateTweets,
    Providers.GroqProvider.getTrendingTopics, Providers.GroqProvider.requireModel,
    Providers.GroqProvider.complete, Providers.GroqProvider.setSelectedModel,
    Providers.OllamaProvider.generateSummary, Providers.OllamaProvider.generateTweets,
    Providers.OllamaProvider.getTrendingTopics, Providers.OllamaProvider.requireModel,
    Providers.OllamaProvider.generate, Providers.OllamaProvider.setSelectedModel in *.

Ltac unfold_providersV1 :=
  unfold ProvidersV1.AIProviderManager.generateSummary,
    ProvidersV1.AIProviderManager.generateTweets,
    ProvidersV1.AIProviderManager.getTrendingTopics,
    ProvidersV1.AIProviderManager.generateWithGemini,
    ProvidersV1.AIProviderManager.generateTweetsWithGemini,
    ProvidersV1.AIProviderManager.getTrendingWithGemini,
    ProvidersV1.AIProviderManager.geminiContent,
    ProvidersV1.AIProviderManager.generateWithGroq,
    ProvidersV1.AIProviderManager.generateTweetsWithGroq,
    ProvidersV1.AIProviderManager.getTrendingWithGroq,
    ProvidersV1.AIProviderManager.groqContent,
    ProvidersV1.AIProviderManager.generateWithOllama,
    ProvidersV1.AIProviderManager.generateTweetsWithOllama,
    ProvidersV1.AIProviderManager.getTrendingWithOllama,
    ProvidersV1.AIProviderManager.ollamaContent in *.






(** ** Model selection *)

Lemma js_eqb_eq (a b : JsString) : js_eqb a b = true <-> a = b.
Proof.
  revert b. induction a as [|x a IH]; intros [|y b]; simpl;
    try (split; [discriminate | congruence]); try tauto.
  unfold cu_eqb. rewrite andb_true_iff, N.eqb_eq, IH.
  split; [intros [-> ->]; reflexivity | intros H; inversion H; auto].
Qed.

Lemma includes_model_In (ms : list JsString) (model : JsString) :
  Providers.includes_model ms model = true <-> In model ms.
Proof.
  unfold Providers.includes_model. rewrite existsb_exists.
  split.
  - intros (x & Hin & Heq). apply js_eqb_eq in Heq. subst. assumption.
  - intros Hin. exists model. split; [assumption | apply js_eqb_eq; reflexivity].
Qed.

Lemma includes_model_not_In (ms : list JsString) (model : JsString) :
  Providers.includes_model ms model = false <-> ~ In model ms.
Proof.
  rewrite <- includes_model_In.
  destruct (Providers.includes_model ms model); split; congruence.
Qed.

(** What a listing returns is what it has stored as the model list. *)
Lemma listGroqModels_stored c w :
  fst (Providers.listGroqModels c w)
  = Ok (models (ps_groq (snd (Providers.listGroqModels c w)))).
Proof.
  unfold Providers.listGroqModels, Providers.set_groq_models. unfold_monad. simpl.
  destruct (negb (Providers.GroqProvider.isAvailable (env c))); [reflexivity|].
  simpl. destruct (groq_models_list (env c) (task c)) as [data|err]; reflexivity.
Qed.

Lemma listOllamaModels_stored c w :
  fst (Providers.listOllamaModels c w)
  = Ok (models (ps_ollama (snd (Providers.listOllamaModels c w)))).
Proof. reflexivity. Qed.

(** C7.  For Groq and for Ollama: the listing of the models returns the
    list it stores; after [setSelected...Model(id)] with an [id] of the
    stored list, [getSelected...Model()] returns [id]; with any other [id]
    the call changes nothing, so the model selected before is returned. *)
Theorem selectModel_getSelectedModel (c : Ctx) (w : World) (id : JsString) :
  (In id (models (ps_groq w)) ->
     fst ((Providers.setSelectedGroqModel id ;; Providers.getSelectedGroqModel) c w)
       = Ok (Some id))
  /\ (~ In id (models (ps_groq w)) ->
        (Providers.setSelectedGroqModel id ;; Providers.getSelectedGroqModel) c w
          = (Ok (selectedModel (ps_groq w)), w))
  /\ (In id (models (ps_ollama w)) ->
        fst ((Providers.setSelectedOllamaModel id ;; Providers.getSelectedOllamaModel) c w)
          = Ok (Some id))
  /\ (~ In id (models (ps_ollama w)) ->
        (Providers.setSelectedOllamaModel id ;; Providers.getSelectedOllamaModel) c w
          = (Ok (selectedModel (ps_ollama w)), w))
  /\ fst (Providers.listGroqModels c w)
     = Ok (models (ps_groq (snd (Providers.listGroqModels c w))))
  /\ fst (Providers.listOllamaModels c w)
     = Ok (models (ps_ollama (snd (Providers.listOllamaModels c w)))).
Proof.
  split; [|split; [|split; [|split; [|split]]]];
    try apply listGroqModels_stored; try apply listOllamaModels_stored;
    unfold Providers.setSelectedGroqModel, Providers.getSelectedGroqModel,
      Providers.setSelectedOllamaModel, Providers.getSelectedOllamaModel,
      Providers.GroqProvider.setSelectedModel, Providers.OllamaProvider.setSelectedModel;
    unfold_monad; intros H.
  - apply includes_model_In in H. rewrite H. reflexivity.
  - apply includes_model_not_In in H. rewrite H. reflexivity.
  - apply includes_model_In in H. rewrite H. reflexivity.
  - apply includes_model_not_In in H. rewrite H. reflexivity.
Qed.

Lemma selectModel_getSelectedModel_witness :
  fst ((Providers.setSelectedGroqModel (js "llama3-8b-8192") ;;
        Providers.getSelectedGroqModel) (mainCtx offlineEnv) listedWorld)
    = Ok (Some (js "llama3-8b-8192"))
  /\ (Providers.setSelectedGroqModel (js "gpt-4") ;;
      Providers.getSelectedGroqModel) (mainCtx offlineEnv) listedWorld
    = (Ok (Some (js "llama3-70b-8192")), listedWorld)
  /\ fst ((Providers.setSelectedOllamaModel (js "codellama") ;;
           Providers.getSelectedOllamaModel) (mainCtx offlineEnv) listedWorld)
    = Ok (Some (js "codellama"))
  /\ (Providers.setSelectedOllamaModel (js "mistral") ;;
      Providers.getSelectedOllamaModel) (mainCtx offlineEnv) listedWorld
    = (Ok (Some (js "llama2")), listedWorld).
Proof.
  split.
  { apply (proj1 (selectModel_getSelectedModel (mainCtx offlineEnv) listedWorld
                    (js "llama3-8b-8192"))).
    vm_compute. right. left. reflexivity. }
  split.
  { apply (proj1 (proj2 (selectModel_getSelectedModel (mainCtx offlineEnv) listedWorld
                           (js "gpt-4")))).
    vm_compute. intros [H|[H|[]]]; discriminate H. }
  split.
  { apply (proj1 (proj2 (proj2 (selectModel_getSelectedModel (mainCtx offlineEnv)
                                  listedWorld (js "codellama"))))).
    vm_compute. right. left. reflexivity. }
  apply (proj1 (proj2 (proj2 (proj2 (selectModel_getSelectedModel (mainCtx offlineEnv)
                                       listedWorld (js "mistral")))))).
  vm_compute. intros [H|[H|[]]]; discriminate H.
Defined.

(** ** Availability *)

Lemma listOllamaModels_mock c w :
  fst (Providers.listOllamaModels c w)
  = Ok [js "llama2"; js "llama2:13b"; js "codellama"].
Proof. reflexivity. Qed.

Lemma In_app_singleton {A} (x y : A) (l : list A) :
  In x (l ++ [y]) <-> In x l \/ x = y.
Proof.
  rewrite in_app_iff. simpl. intuition congruence.
Qed.

(** C8 (as amended).  [getAvailableProviders] always returns, and a
    provider is in its result exactly when: for Gemini and for Groq, the
    cheap check of the provider passes (its credential is set; the Groq
    model list is not consulted); for Ollama, the listing of its models,
    attempted on the spot, gives a non-empty list.  This holds in both
    modules; in the class-based one the listing is a fixed list of three
    models, so Ollama is always reported. *)
Theorem getAvailableProviders_iff (e : Env) (t : Task) (w : World) :
  (exists avail w',
      Providers.getAvailableProviders {| env := e; task := t |} w = (Ok avail, w')
      /\ In ollama avail
      /\ forall p, In p avail <->
           match p with
           | gemini => AIProviderInterface.isAvailable (Providers.providers gemini) e = true
           | groq => AIProviderInterface.isAvailable (Providers.providers groq) e = true
           | ollama =>
             AIProviderInterface.isAvailable (Providers.providers ollama) e = true
             /\ exists ms, fst (Providers.listOllamaModels {| env := e; task := t |} w) = Ok ms
                           /\ 0 < List.length ms
           end)
  /\ (exists avail w',
        ProvidersV1.getAvailableProviders {| env := e; task := t |} w = (Ok avail, w')
        /\ forall p, In p avail <->
             match p with
             | gemini => ProvidersV1.clients_gemini e = true
             | groq => ProvidersV1.clients_groq e = true
             | ollama =>
               exists ms, fst (ProvidersV1.listOllamaModels {| env := e; task := t |} w) = Ok ms
                          /\ 0 < List.length ms
             end).
Proof.
  split.
  - unfold Providers.getAvailableProviders, Providers.listOllamaModels.
    unfold_monad. simpl.
    do 2 eexists. split; [reflexivity|].
    split; [apply in_or_app; right; left; reflexivity|].
    intros p. rewrite In_app_singleton.
    destruct (Providers.GeminiProvider.isAvailable e) eqn:Hg;
      destruct (Providers.GroqProvider.isAvailable e) eqn:Hq;
      destruct p; simpl; split; intros H;
      repeat match goal with
             | H : _ \/ _ |- _ => destruct H
             | H : _ /\ _ |- _ => destruct H
             | H : False |- _ => destruct H
             end;
      try discriminate; try reflexivity; auto;
      try (split; [reflexivity | eexists; split; [reflexivity | simpl; lia]]).
  - unfold ProvidersV1.getAvailableProviders, ProvidersV1.listOllamaModels.
    unfold_monad. simpl.
    destruct (ollama_list e t) as [[names|]|err]; simpl;
      try (destruct (Nat.ltb_spec 0 (List.length names)) as [Hlen|Hlen]);
      do 2 eexists; (split; [reflexivity|]);
      intros p; rewrite ?In_app_singleton;
      destruct (ProvidersV1.clients_gemini e) eqn:Hg;
      destruct (ProvidersV1.clients_groq e) eqn:Hq;
      destruct p; simpl; split; intros H;
      repeat match goal with
             | H : _ \/ _ |- _ => destruct H
             | H : _ /\ _ |- _ => destruct H
             | H : exists _, _ |- _ => destruct H
             | H : False |- _ => destruct H
             | H : Ok _ = Ok _ |- _ => inversion H; subst; clear H
             end;
      try discriminate; try reflexivity; auto;
      try (eexists; split; [reflexivity | assumption]);
      simpl in *; try lia.
Qed.

(** C8 as stated fails for Groq, a provider that needs a selected model:
    with a credential and a listing that yields no model, Groq is still
    reported (and Ollama, which always is). *)
Lemma getAvailableProviders_groq_counterexample :
  fst (Providers.listGroqModels (mainCtx (groqEnv (Ok (Some [])) (Ok None)))
         Providers.initialWorld) = Ok []
  /\ fst (Providers.getAvailableProviders (mainCtx (groqEnv (Ok (Some [])) (Ok None)))
            Providers.initialWorld) = Ok [groq; ollama].
Proof. split; vm_compute; reflexivity. Qed.

(** ** The pipeline of one topic *)

Lemma slice_0_3_placeholders interest :
  slice_0_3 (placeholderTweetsFor interest) = Ok (placeholderTweetsFor interest).
Proof. reflexivity. Qed.

Lemma pipeline_empty_summary lib interest len provider c w sources w1 :
  lib_generateSummary lib provider interest len c w = (Ok ([], sources), w1) ->
  generateSingleBriefingForInterest lib interest len provider c w
  = (Throw (JsError (js "Empty summary generated")), w1).
Proof.
  intros Hs. unfold generateSingleBriefingForInterest. unfold_monad.
  rewrite Hs. reflexivity.
Qed.

Lemma pipeline_tweets_failure lib interest len provider c w summary sources w1 err w2 :
  lib_generateSummary lib provider interest len c w = (Ok (summary, sources), w1) ->
  summary <> [] ->
  lib_generateTweets lib provider summary c w1 = (Throw err, w2) ->
  generateSingleBriefingForInterest lib interest len provider c w
  = (Ok {| interest := interest;
           summary := trim summary;
           sources := sources;
           tweets := placeholderTweetsFor interest;
           error := None |}, w2).
Proof.
  intros Hs Hne Ht. unfold generateSingleBriefingForInterest. unfold_monad.
  rewrite Hs. rewrite (str_truthy_nonempty summary Hne). simpl.
  rewrite Ht. reflexivity.
Qed.

(** C9.  In the pipeline of one topic, whichever module serves it: a
    summary call that returns the empty string makes the pipeline fail
    with "Empty summary generated", in the state the summary call left, so
    that the tweets are not asked for; a tweets call that fails after a
    non-empty summary does not make the pipeline fail: the briefing is
    returned, without an error, with the trimmed summary, its sources and
    three posts written around the topic, "Breaking: New developments in
    <topic>! ..." and the two others. *)
Theorem pipeline_summary_fatal_tweets_not
    (lib : AiProvidersModule) (interest : JsString) (len : SummaryLength)
    (provider : AIProvider) (c : Ctx) (w : World) :
  (forall sources w1,
      lib_generateSummary lib provider interest len c w = (Ok ([], sources), w1) ->
      generateSingleBriefingForInterest lib interest len provider c w
      = (Throw (JsError (js "Empty summary generated")), w1))
  /\ (forall summary sources w1 err w2,
        lib_generateSummary lib provider interest len c w = (Ok (summary, sources), w1) ->
        summary <> [] ->
        lib_generateTweets lib provider summary c w1 = (Throw err, w2) ->
        generateSingleBriefingForInterest lib interest len provider c w
        = (Ok {| interest := interest;
                 summary := trim summary;
                 sources := sources;
                 tweets :=
                   JArr [ JStr (js "Breaking: New developments in " ++ interest
                                ++ js "! ðŸš€");
                          JStr (js "Stay informed about the latest " ++ interest
                                ++ js " updates. Knowledge is power! ðŸ’¡");
                          JStr (js "Another day, another " ++ interest
                                ++ js " breakthrough. The future is now! âš¡") ];
                 error := None |}, w2)).
Proof.
  split.
  - intros sources w1. apply pipeline_empty_summary.
  - intros summary sources w1 err w2 Hs Hne Ht.
    rewrite (pipeline_tweets_failure lib interest len provider c w summary sources w1
               err w2 Hs Hne Ht).
    reflexivity.
Qed.

(** The theorem at work with Gemini: a model that answers with the empty
    string, and a model that answers the summary prompt only. *)
Lemma pipeline_summary_fatal_tweets_not_witness :
  fst (generateSingleBriefingForInterest classBasedModule (js "quantum computing") short
         gemini (mainCtx (geminiEnv (Ok []))) Providers.initialWorld)
    = Throw (JsError (js "Empty summary generated"))
  /\ fst (generateSingleBriefingForInterest classBasedModule (js "quantum computing") short
            gemini (mainCtx (summaryOnlyEnv (js " Qubits got cheaper. ")))
            Providers.initialWorld)
    = Ok {| interest := js "quantum computing";
            summary := js "Qubits got cheaper.";
            sources := [];
            tweets :=
              JArr [ JStr (js "Breaking: New developments in quantum computing! ðŸš€");
                     JStr (js "Stay informed about the latest quantum computing updates. Knowledge is power! ðŸ’¡");
                     JStr (js "Another day, another quantum computing breakthrough. The future is now! âš¡") ];
            error := None |}.
Proof.
  set (topic := js "quantum computing").
  set (c0 := mainCtx (geminiEnv (Ok []))).
  set (c1 := mainCtx (summaryOnlyEnv (js " Qubits got cheaper. "))).
  pose (w1 := snd (lib_generateSummary classBasedModule gemini topic short c1
                     Providers.initialWorld)).
  pose (w2 := snd (lib_generateTweets classBasedModule gemini
                     (js " Qubits got cheaper. ") c1 w1)).
  split.
  - rewrite (proj1 (pipeline_summary_fatal_tweets_not classBasedModule topic short gemini
                      c0 Providers.initialWorld)
               [] (snd (lib_generateSummary classBasedModule gemini topic short c0
                          Providers.initialWorld))).
    + reflexivity.
    + vm_compute. reflexivity.
  - rewrite (proj2 (pipeline_summary_fatal_tweets_not classBasedModule topic short gemini
                      c1 Providers.initialWorld)
               (js " Qubits got cheaper. ") [] w1 unreachable w2).
    + vm_compute. reflexivity.
    + vm_compute. reflexivity.
    + vm_compute. discriminate.
    + vm_compute. reflexivity.
Defined.

(** ** The fan-out and the aggregation *)

Lemma allSettled_from_ok {A} (promises : list (M A)) i c w :
  exists results w',
    allSettled_from i promises c w = (Ok results, w')
    /\ List.length results = List.length promises.
Proof.
  revert i w. induction promises as [|p rest IH]; intros i w.
  - exists [], w. split; reflexivity.
  - simpl. unfold_monad.
    destruct (p {| env := env c; task := PipelineTask i |} w) as [[v|err] w1];
      destruct (IH (S i) w1) as (rs & w2 & Hrs & Hlen); rewrite Hrs;
      eexists; eexists; (split; [reflexivity | simpl; congruence]).
Qed.

Lemma fold_onResult interests (indexed : list (nat * Settled BriefingItem)) acc :
  fold_left (onResult interests) indexed acc
  = {| briefings := briefings acc ++ map (entryOf interests) indexed;
       errors := errors acc ++ flat_map (errorsOf interests) indexed |}.
Proof.
  revert acc. induction indexed as [|[index result] rest IH]; intros acc.
  - simpl. rewrite !app_nil_r. destruct acc; reflexivity.
  - simpl. rewrite IH.
    destruct result; simpl; unfold entryOf, errorsOf; simpl;
      rewrite <- ?app_assoc; reflexivity.
Qed.

Lemma forEachResult_spec interests results :
  forEachResult interests results
  = {| briefings := map (entryOf interests) (combine (seq 0 (List.length results)) results);
       errors := flat_map (errorsOf interests)
                          (combine (seq 0 (List.length results)) results) |}.
Proof. unfold forEachResult. rewrite fold_onResult. reflexivity. Qed.

Lemma fanOut_run lib interests len p c w results w' :
  Promise_allSettled (pipelines lib interests len p) c w = (Ok results, w') ->
  fanOut lib interests len p c w = (Ok (forEachResult interests results), w').
Proof.
  intros H. unfold fanOut. unfold_monad.
  unfold pipelines in H. rewrite H. reflexivity.
Qed.

Lemma generateBriefing_resolved lib interests len provider c w avail w1 p :
  lib_getAvailableProviders lib c w = (Ok avail, w1) ->
  resolvedProvider provider avail = Some p ->
  generateBriefing lib interests len provider c w = fanOut lib interests len p c w1.
Proof.
  intros Ha Hp. unfold generateBriefing. unfold_monad. rewrite Ha.
  unfold resolvedProvider in Hp.
  destruct (existsb (AIProvider_eqb provider) avail); simpl.
  - inversion Hp; subst. reflexivity.
  - destruct avail; simpl in Hp; inversion Hp; subst. reflexivity.
Qed.

Lemma generateBriefing_unresolved lib interests len provider c w w1 :
  lib_getAvailableProviders lib c w = (Ok [], w1) ->
  generateBriefing lib interests len provider c w = (Ok noProviderResponse, w1).
Proof.
  intros Ha. unfold generateBriefing. unfold_monad. rewrite Ha. reflexivity.
Qed.

Lemma nth_error_combine_seq {A} (l : list A) i j :
  nth_error (combine (seq i (List.length l)) l) j
  = option_map (fun x => (i + j, x)) (nth_error l j).
Proof.
  revert i j. induction l as [|x l IH]; intros i [|j]; simpl; try reflexivity.
  - rewrite Nat.add_0_r. reflexivity.
  - rewrite IH. destruct (nth_error l j); simpl; [|reflexivity].
    f_equal. f_equal. lia.
Qed.

Lemma length_combine_seq {A} (l : list A) i :
  List.length (combine (seq i (List.length l)) l) = List.length l.
Proof. rewrite length_combine, length_seq. lia. Qed.

(** The availability check of either module issues no generation
    request. *)
Lemma getAvailableProviders_no_generation lib c w :
  lib = classBasedModule \/ lib = functionBasedModule ->
  filter isGenerationCall (network (snd (lib_getAvailableProviders lib c w)))
  = filter isGenerationCall (network w).
Proof.
  intros [-> | ->]; simpl.
  - unfold Providers.getAvailableProviders, Providers.listOllamaModels.
    unfold_monad. simpl. reflexivity.
  - unfold ProvidersV1.getAvailableProviders, ProvidersV1.listOllamaModels.
    unfold_monad. simpl.
    destruct (ollama_list (env c) (task c)) as [[names|]|err]; simpl;
      try (destruct (0 <? List.length names)); simpl;
      rewrite filter_app; simpl; apply app_nil_r.
Qed.

(** C6.  When the module reports no available provider,
    [generateBriefing] returns no briefing and the single error line "No AI
    providers available. ...", and does nothing after the availability
    check; with either module of the repository, the log of requests holds
    no more generation request than before the call. *)
Theorem generateBriefing_no_provider
    (lib : AiProvidersModule) (interests : list JsString) (len : SummaryLength)
    (provider : AIProvider) (c : Ctx) (w w1 : World) :
  lib_getAvailableProviders lib c w = (Ok [], w1) ->
  generateBriefing lib interests len provider c w
  = (Ok {| briefings := [];
           errors := [ js "No AI providers available. Please configure at least one provider." ] |},
     w1)
  /\ (lib = classBasedModule \/ lib = functionBasedModule ->
      filter isGenerationCall (network w1) = filter isGenerationCall (network w)).
Proof.
  intros Ha. split.
  - apply generateBriefing_unresolved. exact Ha.
  - intros Hlib.
    pose proof (getAvailableProviders_no_generation lib c w Hlib) as H.
    rewrite Ha in H. exact H.
Qed.

(** The theorem at work: the function-based module without credentials and
    with the local server out of reach. *)
Lemma generateBriefing_no_provider_witness :
  generateBriefing functionBasedModule [js "quantum computing"] short gemini
    (mainCtx offlineEnv) ProvidersV1.initialWorld
  = (Ok {| briefings := [];
           errors := [ js "No AI providers available. Please configure at least one provider." ] |},
     snd (ProvidersV1.getAvailableProviders (mainCtx offlineEnv) ProvidersV1.initialWorld))
  /\ filter isGenerationCall
       (network (snd (ProvidersV1.getAvailableProviders (mainCtx offlineEnv)
                        ProvidersV1.initialWorld)))
     = [].
Proof.
  destruct (generateBriefing_no_provider functionBasedModule [js "quantum computing"] short
              gemini (mainCtx offlineEnv) ProvidersV1.initialWorld
              (snd (ProvidersV1.getAvailableProviders (mainCtx offlineEnv)
                      ProvidersV1.initialWorld)))
    as [Hrun Hlog].
  - vm_compute. reflexivity.
  - split; [exact Hrun|].
    rewrite Hlog; [reflexivity | right; reflexivity].
Defined.

(** ** All pipelines succeed *)

Lemma pipeline_success lib interest len provider c w summary sources w1 posts w2 :
  lib_generateSummary lib provider interest len c w = (Ok (summary, sources), w1) ->
  summary <> [] ->
  lib_generateTweets lib provider summary c w1 = (Ok (JArr posts), w2) ->
  generateSingleBriefingForInterest lib interest len provider c w
  = (Ok {| interest := interest;
           summary := trim summary;
           sources := sources;
           tweets := JArr (slice0 3 posts);
           error := None |}, w2).
Proof.
  intros Hs Hne Ht. unfold generateSingleBriefingForInterest. unfold_monad.
  rewrite Hs. rewrite (str_truthy_nonempty summary Hne). simpl.
  rewrite Ht. reflexivity.
Qed.

Lemma map_entryOf_fulfilled interests (values : list BriefingItem) i :
  map (entryOf interests) (combine (seq i (List.length (map fulfilled values)))
                                   (map fulfilled values))
  = values.
Proof.
  revert i. induction values as [|v values IH]; intros i; simpl; [reflexivity|].
  rewrite IH. reflexivity.
Qed.

Lemma errorsOf_fulfilled interests (values : list BriefingItem) i :
  flat_map (errorsOf interests) (combine (seq i (List.length (map fulfilled values)))
                                         (map fulfilled values))
  = [].
Proof.
  revert i. induction values as [|v values IH]; intros i; simpl; [reflexivity|].
  rewrite IH. reflexivity.
Qed.

Section AllSucceed.

Variable lib : AiProvidersModule.
Variable Inv : World -> Prop.
Variable e : Env.
Variable len : SummaryLength.
Variable p : AIProvider.

Lemma allSettled_all_succeed (interests : list JsString) (i0 : nat) (t : Task) (w : World) :
  Inv w ->
  (forall i topic w,
      nth_error interests i = Some topic -> Inv w ->
      exists summary sources w',
        lib_generateSummary lib p topic len {| env := e; task := PipelineTask (i0 + i) |} w
          = (Ok (summary, sources), w')
        /\ summary <> [] /\ Inv w') ->
  (forall i summary w,
      Inv w ->
      exists posts w',
        lib_generateTweets lib p summary {| env := e; task := PipelineTask i |} w
          = (Ok (JArr posts), w')
        /\ Inv w') ->
  exists values w',
    allSettled_from i0 (pipelines lib interests len p) {| env := e; task := t |} w
      = (Ok (map fulfilled values), w')
    /\ Inv w'
    /\ map interest values = interests
    /\ Forall (fun b => error b = None) values.
Proof.
  intros Hinv Hsum Htw. revert i0 w Hinv Hsum.
  induction interests as [|topic rest IH]; intros i0 w Hinv Hsum.
  - exists [], w. repeat split; auto.
  - destruct (Hsum 0 topic w eq_refl Hinv) as (summary & sources & w1 & Hs & Hne & Hinv1).
    rewrite Nat.add_0_r in Hs.
    destruct (Htw i0 summary w1 Hinv1) as (posts & w2 & Ht & Hinv2).
    destruct (IH (S i0) w2 Hinv2) as (values & w3 & Hrest & Hinv3 & Hmap & Hnone).
    { intros i topic' w' Hnth Hw'.
      replace (S i0 + i) with (i0 + S i) by lia.
      apply (Hsum (S i) topic' w' Hnth Hw'). }
    eexists (_ :: values), w3.
    simpl. unfold_monad. simpl.
    rewrite (pipeline_success lib topic len p _ _ _ _ _ _ _ Hs Hne Ht).
    simpl in Hrest. rewrite Hrest.
    repeat split; auto.
    simpl. congruence.
Qed.

End AllSucceed.

(** C2 (as amended).  With a provider whose [generateSummary] calls all
    succeed with a non-empty summary and whose [generateTweets] calls all
    succeed with an array of posts, in every state that the run can reach ([Inv]:
    any property of the state that holds after the availability check and
    that the calls preserve), [generateBriefing] returns exactly one
    briefing per topic, in the order of the topics, none of them marked as
    an error, and no error line. *)
Theorem generateBriefing_all_succeed
    (lib : AiProvidersModule) (Inv : World -> Prop)
    (interests : list JsString) (len : SummaryLength) (provider : AIProvider)
    (c : Ctx) (w : World) (avail : list AIProvider) (w1 : World) (p : AIProvider) :
  lib_getAvailableProviders lib c w = (Ok avail, w1) ->
  resolvedProvider provider avail = Some p ->
  Inv w1 ->
  (forall i topic w,
      nth_error interests i = Some topic -> Inv w ->
      exists summary sources w',
        lib_generateSummary lib p topic len {| env := env c; task := PipelineTask i |} w
          = (Ok (summary, sources), w')
        /\ summary <> [] /\ Inv w') ->
  (forall i summary w,
      Inv w ->
      exists posts w',
        lib_generateTweets lib p summary {| env := env c; task := PipelineTask i |} w
          = (Ok (JArr posts), w')
        /\ Inv w') ->
  exists response w',
    generateBriefing lib interests len provider c w = (Ok response, w')
    /\ List.length (briefings response) = List.length interests
    /\ map interest (briefings response) = interests
    /\ Forall (fun b => error b = None) (briefings response)
    /\ errors response = [].
Proof.
  intros Ha Hp Hinv Hsum Htw.
  destruct (allSettled_all_succeed lib Inv (env c) len p interests 0 (task c) w1 Hinv
              Hsum Htw) as (values & w' & Hrun & _ & Hmap & Hnone).
  exists (forEachResult interests (map fulfilled values)), w'.
  split.
  { rewrite (generateBriefing_resolved lib interests len provider c w avail w1 p Ha Hp).
    apply fanOut_run. unfold Promise_allSettled. destruct c; exact Hrun. }
  rewrite forEachResult_spec. simpl.
  rewrite map_entryOf_fulfilled, errorsOf_fulfilled.
  repeat split; auto.
  rewrite <- Hmap. rewrite length_map. reflexivity.
Qed.

(** The theorem at work: Gemini answering every prompt with one line. *)
Lemma generateBriefing_all_succeed_witness :
  exists response w',
    generateBriefing classBasedModule [js "ai"; js "space"] short gemini
      (mainCtx (geminiEnv (Ok (js "Big news today, for everyone.")))) Providers.initialWorld
      = (Ok response, w')
    /\ List.length (briefings response) = 2
    /\ map interest (briefings response) = [js "ai"; js "space"]
    /\ Forall (fun b => error b = None) (briefings response)
    /\ errors response = [].
Proof.
  apply (generateBriefing_all_succeed classBasedModule (fun _ => True)
           [js "ai"; js "space"] short gemini
           (mainCtx (geminiEnv (Ok (js "Big news today, for everyone."))))
           Providers.initialWorld [gemini; ollama]
           (snd (Providers.getAvailableProviders
                   (mainCtx (geminiEnv (Ok (js "Big news today, for everyone."))))
                   Providers.initialWorld))
           gemini).
  - vm_compute. reflexivity.
  - reflexivity.
  - exact I.
  - intros i topic w _ _.
    exists (js "Big news today, for everyone."), [].
    eexists. split; [|split; [vm_compute; discriminate | exact I]].
    unfold classBasedModule, lib_generateSummary, renderMarkdown.
    repeat (progress (unfold_providers; unfold_monad; simpl)).
    reflexivity.
  - intros i summary w _.
    exists (map JStr (Providers.tweetsOfContent (js "Big news today, for everyone."))).
    eexists. split; [|exact I].
    unfold classBasedModule, lib_generateTweets.
    repeat (progress (unfold_providers; unfold_monad; simpl)).
    reflexivity.
Defined.

(** C2 as stated fails in two ways.  A summary call may succeed with the
    empty string: with Gemini answering every prompt with the empty string,
    every [generateSummary] and [generateTweets] call of the class-based
    module succeeds, yet the briefing of the topic is an error entry and
    there is an error line.  And a tweets call may succeed with a value that
    is not an array: with Gemini answering every prompt with
    [{"tweets":5}], every call of the function-based module succeeds, the
    summary is not empty, and [tweets.slice] throws in the pipeline. *)
Lemma generateBriefing_success_not_enough_counterexample :
  (forall topic len t w,
      fst (lib_generateSummary classBasedModule gemini topic len
             {| env := geminiEnv (Ok []); task := t |} w) = Ok ([], []))
  /\ (forall summary t w,
        fst (lib_generateTweets classBasedModule gemini summary
               {| env := geminiEnv (Ok []); task := t |} w)
        = Ok (js_strings Providers.placeholderTweets))
  /\ fst (generateBriefing classBasedModule [js "ai"] short gemini
            (mainCtx (geminiEnv (Ok []))) Providers.initialWorld)
     = Ok {| briefings := [errorBriefing (js "ai") (js "Empty summary generated")];
             errors := [errorLine (js "ai") (js "Empty summary generated")] |}
  /\ (forall topic len t w,
        fst (lib_generateSummary functionBasedModule gemini topic len
               {| env := geminiEnv (Ok (jsq "{`tweets`:5}")); task := t |} w)
        = Ok (jsq "{`tweets`:5}", []))
  /\ (forall summary t w,
        fst (lib_generateTweets functionBasedModule gemini summary
               {| env := geminiEnv (Ok (jsq "{`tweets`:5}")); task := t |} w)
        = Ok (JNum {| mantissa := 5; exponent10 := 0 |}))
  /\ fst (generateBriefing functionBasedModule [js "ai"] short gemini
            (mainCtx (geminiEnv (Ok (jsq "{`tweets`:5}")))) ProvidersV1.initialWorld)
     = Ok {| briefings := [errorBriefing (js "ai") (js "tweets.slice is not a function")];
             errors := [errorLine (js "ai") (js "tweets.slice is not a function")] |}.
Proof.
  split; [reflexivity|].
  split; [reflexivity|].
  split; [vm_compute; reflexivity|].
  split; [reflexivity|].
  split; [intros; vm_compute; reflexivity|].
  vm_compute. reflexivity.
Qed.

(** ** Independence of the pipelines *)

Lemma sameState_refl w : sameState w w.
Proof. repeat split. Qed.

Lemma sameState_sym w1 w2 : sameState w1 w2 -> sameState w2 w1.
Proof. intros (H1 & H2 & H3 & H4). repeat split; congruence. Qed.

Lemma sameState_trans w1 w2 w3 : sameState w1 w2 -> sameState w2 w3 -> sameState w1 w3.
Proof.
  intros (H1 & H2 & H3 & H4) (K1 & K2 & K3 & K4). repeat split; congruence.
Qed.

Lemma agreeAt_refl t e : agreeAt t e e.
Proof. repeat split. Qed.

Section RelatedRules.

Variables c1 c2 : Ctx.
Hypothesis same_task : task c1 = task c2.

Lemma Related_ret {A} (a : A) : Related c1 c2 (ret a) (ret a).
Proof. intros w1 w2 H. split; [reflexivity | exact H]. Qed.

Lemma Related_throw {A} (err : Thrown) : Related c1 c2 (@throw A err) (throw err).
Proof. intros w1 w2 H. split; [reflexivity | exact H]. Qed.

Lemma Related_new_Error {A} (message : String.string) :
  Related c1 c2 (@new_Error A message) (new_Error message).
Proof. apply Related_throw. Qed.

Lemma Related_lift {A} (r : Result A) : Related c1 c2 (lift r) (lift r).
Proof. intros w1 w2 H. split; [reflexivity | exact H]. Qed.

Lemma Related_request {A} (call1 call2 : NetCall) (r : Result A) :
  Related c1 c2 (request call1 r) (request call2 r).
Proof.
  intros w1 w2 (H1 & H2 & H3 & H4). split; [reflexivity|].
  repeat split; assumption.
Qed.

Lemma Related_gets {A} (f : World -> A) :
  (forall w1 w2, sameState w1 w2 -> f w1 = f w2) ->
  Related c1 c2 (gets f) (gets f).
Proof.
  intros Hf w1 w2 H. unfold gets. simpl. split; [|exact H].
  f_equal. apply Hf. exact H.
Qed.

Lemma Related_modify (f : World -> World) :
  (forall w1 w2, sameState w1 w2 -> sameState (f w1) (f w2)) ->
  Related c1 c2 (modify f) (modify f).
Proof.
  intros Hf w1 w2 H. unfold modify. simpl. split; [reflexivity | apply Hf; exact H].
Qed.

Lemma Related_bind {A B} (m1 m2 : M A) (k1 k2 : A -> M B) :
  Related c1 c2 m1 m2 ->
  (forall a, (exists w, fst (m1 c1 w) = Ok a) -> Related c1 c2 (k1 a) (k2 a)) ->
  Related c1 c2 (bind m1 k1) (bind m2 k2).
Proof.
  intros Hm Hk w1 w2 H. unfold bind.
  destruct (Hm w1 w2 H) as [Hfst Hsnd].
  destruct (m1 c1 w1) as [[a|err] w1'] eqn:E1;
    destruct (m2 c2 w2) as [[a'|err'] w2'] eqn:E2; simpl in *; try discriminate.
  - inversion Hfst; subst a'.
    apply Hk; [|exact Hsnd]. exists w1. rewrite E1. reflexivity.
  - inversion Hfst; subst. split; [reflexivity | exact Hsnd].
Qed.

Lemma Related_try_catch {A} (m1 m2 : M A) (h1 h2 : Thrown -> M A) :
  Related c1 c2 m1 m2 ->
  (forall err, Related c1 c2 (h1 err) (h2 err)) ->
  Related c1 c2 (try_catch m1 h1) (try_catch m2 h2).
Proof.
  intros Hm Hh w1 w2 H. unfold try_catch.
  destruct (Hm w1 w2 H) as [Hfst Hsnd].
  destruct (m1 c1 w1) as [[a|err] w1'] eqn:E1;
    destruct (m2 c2 w2) as [[a'|err'] w2'] eqn:E2; simpl in *; try discriminate.
  - inversion Hfst; subst. split; [reflexivity | exact Hsnd].
  - inversion Hfst; subst. apply Hh. exact Hsnd.
Qed.

Lemma Related_ask {B} (k1 k2 : Env -> M B) :
  Related c1 c2 (k1 (env c1)) (k2 (env c2)) ->
  Related c1 c2 (bind ask k1) (bind ask k2).
Proof. intros Hk w1 w2 H. unfold bind, ask. apply Hk. exact H. Qed.

Lemma Related_current_task {B} (k1 k2 : Task -> M B) :
  Related c1 c2 (k1 (task c1)) (k2 (task c1)) ->
  Related c1 c2 (bind current_task k1) (bind current_task k2).
Proof.
  intros Hk w1 w2 H. unfold bind, current_task. rewrite <- same_task.
  apply Hk. exact H.
Qed.

End RelatedRules.

Lemma KeepsState_ret {A} (a : A) : KeepsState (ret a).
Proof. intros c w. apply sameState_refl. Qed.

Lemma KeepsState_throw {A} (err : Thrown) : KeepsState (@throw A err).
Proof. intros c w. apply sameState_refl. Qed.

Lemma KeepsState_new_Error {A} (message : String.string) : KeepsState (@new_Error A message).
Proof. apply KeepsState_throw. Qed.

Lemma KeepsState_lift {A} (r : Result A) : KeepsState (lift r).
Proof. intros c w. apply sameState_refl. Qed.

Lemma KeepsState_ask : KeepsState ask.
Proof. intros c w. apply sameState_refl. Qed.

Lemma KeepsState_current_task : KeepsState current_task.
Proof. intros c w. apply sameState_refl. Qed.

Lemma KeepsState_gets {A} (f : World -> A) : KeepsState (gets f).
Proof. intros c w. apply sameState_refl. Qed.

Lemma KeepsState_request {A} (call : NetCall) (r : Result A) : KeepsState (request call r).
Proof. intros c w. repeat split. Qed.

Lemma KeepsState_bind {A B} (m : M A) (k : A -> M B) :
  KeepsState m -> (forall a, KeepsState (k a)) -> KeepsState (bind m k).
Proof.
  intros Hm Hk c w. unfold bind. specialize (Hm c w).
  destruct (m c w) as [[a|err] w']; simpl in *; [|exact Hm].
  eapply sameState_trans; [apply Hk | exact Hm].
Qed.

Lemma KeepsState_try_catch {A} (m : M A) (h : Thrown -> M A) :
  KeepsState m -> (forall err, KeepsState (h err)) -> KeepsState (try_catch m h).
Proof.
  intros Hm Hh c w. unfold try_catch. specialize (Hm c w).
  destruct (m c w) as [[a|err] w']; simpl in *; [exact Hm|].
  eapply sameState_trans; [apply Hh | exact Hm].
Qed.

Create HintDb keeps discriminated.
#[export] Hint Resolve KeepsState_ret KeepsState_throw KeepsState_new_Error KeepsState_lift
  KeepsState_ask KeepsState_current_task KeepsState_gets KeepsState_request : keeps.

(** Every step of a computation built from the operations above keeps the
    state. *)
Ltac keeps_state :=
  repeat first
    [ progress auto with keeps
    | apply KeepsState_bind; [ | intros ? ]
    | apply KeepsState_try_catch; [ | intros ? ]
    | match goal with
      | |- KeepsState (if ?b then _ else _) => destruct b
      | |- KeepsState (match ?x with _ => _ end) => destruct x
      | |- KeepsState (let _ := _ in _) => cbv zeta
      end ].

Lemma KeepsState_searchWeb query maxResults : KeepsState (searchWeb query maxResults).
Proof. unfold searchWeb, do_fetch. keeps_state. Qed.
#[export] Hint Resolve KeepsState_searchWeb : keeps.

Lemma sameState_request_l call w1 w2 :
  sameState w1 w2 ->
  sameState {| ps_ollama := ps_ollama w1; ps_groq := ps_groq w1;
               groq_selectedModel := groq_selectedModel w1;
               ollama_selectedModel := ollama_selectedModel w1;
               network := network w1 ++ [call] |} w2.
Proof. intros (H1 & H2 & H3 & H4). repeat split; assumption. Qed.

Lemma sameState_field {A} (f : World -> A) :
  (forall w, f w = f {| ps_ollama := ps_ollama w; ps_groq := ps_groq w;
                        groq_selectedModel := groq_selectedModel w;
                        ollama_selectedModel := ollama_selectedModel w;
                        network := [] |}) ->
  forall w1 w2, sameState w1 w2 -> f w1 = f w2.
Proof.
  intros Hf w1 w2 (H1 & H2 & H3 & H4).
  rewrite (Hf w1), (Hf w2), H1, H2, H3, H4. reflexivity.
Qed.

Lemma prepare_returns p c w a :
  fst (Providers.AIProviderManager.prepare p c w) = Ok a -> a = Providers.providers p.
Proof.
  unfold Providers.AIProviderManager.prepare,
    Providers.GroqProvider.setSelectedModel, Providers.OllamaProvider.setSelectedModel.
  unfold_monad.
  destruct (negb (AIProviderInterface.isAvailable (Providers.providers p) (env c)));
    [discriminate|].
  destruct p; simpl;
    repeat match goal with
           | |- context [match ?x with _ => _ end] => destruct x; simpl
           end;
    intros H; inversion H; reflexivity.
Qed.

Create HintDb related discriminated.
#[export] Hint Resolve Related_ret Related_throw Related_new_Error Related_lift
  Related_request : related.

Section Agreement.

Variables (t : Task) (e1 e2 : Env).
Hypothesis agree : agreeAt t e1 e2.

Local Notation "'Rel' m" :=
  (Related {| env := e1; task := t |} {| env := e2; task := t |} m m)
  (at level 10, m at level 9).

Lemma renderMarkdown_agree s : renderMarkdown e1 s = renderMarkdown e2 s.
Proof.
  destruct agree as (_ & _ & _ & _ & _ & _ & _ & _ & Hm & Hs & _ & _).
  unfold renderMarkdown. rewrite Hs, Hm. reflexivity.
Qed.

Lemma tweetsOfJson_agree content fallback :
  ProvidersV1.AIProviderManager.tweetsOfJson e1 content fallback
  = ProvidersV1.AIProviderManager.tweetsOfJson e2 content fallback.
Proof.
  destruct agree as (_ & _ & _ & _ & _ & _ & _ & _ & _ & _ & _ & Hj).
  unfold ProvidersV1.AIProviderManager.tweetsOfJson. rewrite Hj. reflexivity.
Qed.

Lemma isAvailable_agree p :
  AIProviderInterface.isAvailable (Providers.providers p) e1
  = AIProviderInterface.isAvailable (Providers.providers p) e2.
Proof.
  destruct agree as (Hk1 & Hk2 & _).
  destruct p;
    unfold Providers.providers, Providers.GeminiProvider.instance,
      Providers.GroqProvider.instance, Providers.OllamaProvider.instance,
      AIProviderInterface.isAvailable, Providers.GeminiProvider.isAvailable,
      Providers.GroqProvider.isAvailable, Providers.OllamaProvider.isAvailable;
    rewrite ?Hk1, ?Hk2; reflexivity.
Qed.

(** What the second environment answers is replaced by what the first one
    answers. *)
Ltac use_agreement :=
  cbv beta zeta; cbn [env task];
  unfold Providers.GeminiProvider.isAvailable, Providers.GroqProvider.isAvailable,
    Providers.OllamaProvider.isAvailable, ProvidersV1.clients_gemini,
    ProvidersV1.clients_groq;
  rewrite <- ?(proj1 agree),
    <- ?(proj1 (proj2 agree)),
    <- ?(proj1 (proj2 (proj2 agree))),
    <- ?(proj1 (proj2 (proj2 (proj2 agree)))),
    <- ?(proj1 (proj2 (proj2 (proj2 (proj2 agree))))),
    <- ?(proj1 (proj2 (proj2 (proj2 (proj2 (proj2 agree)))))),
    <- ?(proj1 (proj2 (proj2 (proj2 (proj2 (proj2 (proj2 agree))))))),
    <- ?(proj1 (proj2 (proj2 (proj2 (proj2 (proj2 (proj2 (proj2 agree)))))))),
    <- ?renderMarkdown_agree, <- ?tweetsOfJson_agree.

(** One step of a proof that two runs are related: a rule of the monad, a
    lemma already proved, or a case analysis on a test that both runs
    share once the agreement of the environments has been used. *)
Ltac related_step :=
  lazymatch goal with
  | |- Related _ _ (bind ask _) (bind ask _) => apply Related_ask
  | |- Related _ _ (bind current_task _) (bind current_task _) =>
    apply Related_current_task; [reflexivity | ]
  | |- Related _ _ (bind _ _) (bind _ _) => apply Related_bind; [ | intros ? _ ]
  | |- Related _ _ (try_catch _ _) (try_catch _ _) =>
    apply Related_try_catch; [ | intros ? ]
  | |- Related _ _ (gets _) (gets _) =>
    apply Related_gets; apply sameState_field; reflexivity
  | |- Related _ _ (modify _) (modify _) =>
    apply Related_modify;
    let H1 := fresh in let H2 := fresh in let H3 := fresh in let H4 := fresh in
    intros ? ? (H1 & H2 & H3 & H4); repeat split; simpl; congruence
  | |- Related _ _ (if ?b then _ else _) (if ?b then _ else _) => destruct b
  | |- Related _ _ (match ?x with _ => _ end) (match ?x with _ => _ end) => destruct x
  | |- Related _ _ _ _ => solve [auto with related]
  end.

Ltac related := use_agreement; repeat (related_step; use_agreement).

Lemma Related_do_fetch address : Rel (do_fetch address).
Proof. unfold do_fetch. related. Qed.
Hint Resolve Related_do_fetch : related.

Lemma Related_searchWeb query maxResults : Rel (searchWeb query maxResults).
Proof. unfold searchWeb. related. Qed.
Hint Resolve Related_searchWeb : related.

Lemma Related_GeminiProvider_generateSummary topic len :
  Rel (Providers.GeminiProvider.generateSummary topic len).
Proof.
  unfold Providers.GeminiProvider.generateSummary,
    Providers.GeminiProvider.generateContent.
  related.
Qed.

Lemma Related_GeminiProvider_generateTweets summary :
  Rel (Providers.GeminiProvider.generateTweets summary).
Proof.
  unfold Providers.GeminiProvider.generateTweets,
    Providers.GeminiProvider.generateContent.
  related.
Qed.

Lemma Related_GroqProvider_requireModel : Rel Providers.GroqProvider.requireModel.
Proof. unfold Providers.GroqProvider.requireModel. related. Qed.
Hint Resolve Related_GroqProvider_requireModel : related.

Lemma Related_GroqProvider_complete model prompt max_tokens :
  Rel (Providers.GroqProvider.complete model prompt max_tokens).
Proof. unfold Providers.GroqProvider.complete. related. Qed.
Hint Resolve Related_GroqProvider_complete : related.

Lemma Related_GroqProvider_generateSummary topic len :
  Rel (Providers.GroqProvider.generateSummary topic len).
Proof.
  unfold Providers.GroqProvider.generateSummary, searchWeb_default. related.
Qed.

Lemma Related_GroqProvider_generateTweets summary :
  Rel (Providers.GroqProvider.generateTweets summary).
Proof. unfold Providers.GroqProvider.generateTweets. related. Qed.

Lemma Related_OllamaProvider_requireModel : Rel Providers.OllamaProvider.requireModel.
Proof. unfold Providers.OllamaProvider.requireModel. related. Qed.
Hint Resolve Related_OllamaProvider_requireModel : related.

Lemma Related_OllamaProvider_generate model prompt :
  Rel (Providers.OllamaProvider.generate model prompt).
Proof. unfold Providers.OllamaProvider.generate. related. Qed.
Hint Resolve Related_OllamaProvider_generate : related.

Lemma Related_OllamaProvider_generateSummary topic len :
  Rel (Providers.OllamaProvider.generateSummary topic len).
Proof.
  unfold Providers.OllamaProvider.generateSummary, searchWeb_default. related.
Qed.

Lemma Related_OllamaProvider_generateTweets summary :
  Rel (Providers.OllamaProvider.generateTweets summary).
Proof. unfold Providers.OllamaProvider.generateTweets. related. Qed.

Lemma Related_prepare p : Rel (Providers.AIProviderManager.prepare p).
Proof.
  unfold Providers.AIProviderManager.prepare.
  apply Related_ask. cbv beta. cbn [env]. rewrite <- isAvailable_agree.
  destruct p; unfold Providers.GroqProvider.setSelectedModel,
    Providers.OllamaProvider.setSelectedModel; related.
Qed.

Lemma Related_classBased_generateSummary p topic len :
  Rel (lib_generateSummary classBasedModule p topic len).
Proof.
  unfold classBasedModule, lib_generateSummary,
    Providers.AIProviderManager.generateSummary.
  apply Related_bind; [apply Related_prepare|].
  intros a [w Ha]. apply prepare_returns in Ha. subst a.
  destruct p; cbn [Providers.providers AIProviderInterface.generateSummary
                   Providers.GeminiProvider.instance Providers.GroqProvider.instance
                   Providers.OllamaProvider.instance];
    [ apply Related_GeminiProvider_generateSummary
    | apply Related_GroqProvider_generateSummary
    | apply Related_OllamaProvider_generateSummary ].
Qed.

Lemma Related_classBased_generateTweets p summary :
  Rel (lib_generateTweets classBasedModule p summary).
Proof.
  unfold classBasedModule, lib_generateTweets,
    Providers.AIProviderManager.generateTweets.
  apply Related_bind; [|intros; apply Related_ret].
  apply Related_bind; [apply Related_prepare|].
  intros a [w Ha]. apply prepare_returns in Ha. subst a.
  destruct p; cbn [Providers.providers AIProviderInterface.generateTweets
                   Providers.GeminiProvider.instance Providers.GroqProvider.instance
                   Providers.OllamaProvider.instance];
    [ apply Related_GeminiProvider_generateTweets
    | apply Related_GroqProvider_generateTweets
    | apply Related_OllamaProvider_generateTweets ].
Qed.

Lemma Related_classBased_getAvailableProviders :
  Rel (lib_getAvailableProviders classBasedModule).
Proof.
  unfold classBasedModule, lib_getAvailableProviders, Providers.getAvailableProviders,
    Providers.listOllamaModels.
  apply Related_ask. cbv beta zeta. cbn [env]. rewrite <- !isAvailable_agree.
  related.
Qed.

Lemma Related_functionBased_generateSummary p topic len :
  Rel (lib_generateSummary functionBasedModule p topic len).
Proof.
  unfold functionBasedModule, lib_generateSummary,
    ProvidersV1.AIProviderManager.generateSummary.
  destruct p; unfold_providersV1; related.
Qed.

Lemma Related_functionBased_generateTweets p summary :
  Rel (lib_generateTweets functionBasedModule p summary).
Proof.
  unfold functionBasedModule, lib_generateTweets,
    ProvidersV1.AIProviderManager.generateTweets.
  destruct p; unfold_providersV1; related.
Qed.

Lemma Related_functionBased_getAvailableProviders :
  Rel (lib_getAvailableProviders functionBasedModule).
Proof.
  unfold functionBasedModule, lib_getAvailableProviders,
    ProvidersV1.getAvailableProviders, ProvidersV1.listOllamaModels.
  related.
Qed.

End Agreement.

(** The methods of the provider classes and the functions of the
    function-based module change nothing but the log. *)
Lemma KeepsState_provider_generateSummary p topic len :
  KeepsState (AIProviderInterface.generateSummary (Providers.providers p) topic len).
Proof.
  destruct p; simpl;
    unfold Providers.GeminiProvider.generateSummary, Providers.GeminiProvider.generateContent,
      Providers.GroqProvider.generateSummary, Providers.GroqProvider.requireModel,
      Providers.GroqProvider.complete,
      Providers.OllamaProvider.generateSummary, Providers.OllamaProvider.requireModel,
      Providers.OllamaProvider.generate, searchWeb_default;
    keeps_state.
Qed.

Lemma KeepsState_provider_generateTweets p summary :
  KeepsState (AIProviderInterface.generateTweets (Providers.providers p) summary).
Proof.
  destruct p; simpl;
    unfold Providers.GeminiProvider.generateTweets, Providers.GeminiProvider.generateContent,
      Providers.GroqProvider.generateTweets, Providers.GroqProvider.requireModel,
      Providers.GroqProvider.complete,
      Providers.OllamaProvider.generateTweets, Providers.OllamaProvider.requireModel,
      Providers.OllamaProvider.generate;
    keeps_state.
Qed.

Lemma KeepsState_functionBased_generateSummary p topic len :
  KeepsState (lib_generateSummary functionBasedModule p topic len).
Proof.
  unfold functionBasedModule, lib_generateSummary,
    ProvidersV1.AIProviderManager.generateSummary.
  destruct p; unfold_providersV1; keeps_state.
Qed.

Lemma KeepsState_functionBased_generateTweets p summary :
  KeepsState (lib_generateTweets functionBasedModule p summary).
Proof.
  unfold functionBasedModule, lib_generateTweets,
    ProvidersV1.AIProviderManager.generateTweets.
  destruct p; unfold_providersV1; keeps_state.
Qed.

Lemma prepare_snd p c w :
  snd (Providers.AIProviderManager.prepare p c w) = prepared p (env c) w.
Proof.
  unfold Providers.AIProviderManager.prepare, prepared,
    Providers.GroqProvider.setSelectedModel, Providers.OllamaProvider.setSelectedModel.
  unfold_monad.
  destruct (negb (AIProviderInterface.isAvailable (Providers.providers p) (env c)));
    [reflexivity|].
  destruct p; simpl; try reflexivity.
  - destruct (selectedModel (ps_groq w)) as [m|]; [|reflexivity].
    destruct (str_truthy m); reflexivity.
  - destruct (selectedModel (ps_ollama w)) as [m|]; [|reflexivity].
    destruct (str_truthy m); reflexivity.
Qed.

Lemma prepared_sameState p e1 e2 w1 w2 :
  GEMINI_API_KEY e1 = GEMINI_API_KEY e2 ->
  GROQ_API_KEY e1 = GROQ_API_KEY e2 ->
  sameState w1 w2 ->
  sameState (prepared p e1 w1) (prepared p e2 w2).
Proof.
  intros Hk1 Hk2 (H1 & H2 & H3 & H4).
  unfold prepared.
  replace (AIProviderInterface.isAvailable (Providers.providers p) e2)
    with (AIProviderInterface.isAvailable (Providers.providers p) e1).
  2:{ destruct p;
        unfold Providers.providers, Providers.GeminiProvider.instance,
          Providers.GroqProvider.instance, Providers.OllamaProvider.instance,
          AIProviderInterface.isAvailable, Providers.GeminiProvider.isAvailable,
          Providers.GroqProvider.isAvailable, Providers.OllamaProvider.isAvailable;
        rewrite ?Hk1, ?Hk2; reflexivity. }
  destruct (negb (AIProviderInterface.isAvailable (Providers.providers p) e1));
    [repeat split; assumption|].
  destruct p; [repeat split; assumption | |].
  - rewrite <- H2. destruct (selectedModel (ps_groq w1)) as [m|];
      [|repeat split; assumption].
    destruct (str_truthy m); repeat split; simpl; congruence.
  - rewrite <- H1. destruct (selectedModel (ps_ollama w1)) as [m|];
      [|repeat split; assumption].
    destruct (str_truthy m); repeat split; simpl; congruence.
Qed.

Lemma prepared_idempotent p e w w' :
  sameState w' (prepared p e w) -> sameState (prepared p e w') (prepared p e w).
Proof.
  unfold prepared.
  destruct (negb (AIProviderInterface.isAvailable (Providers.providers p) e));
    [intros H; exact H|].
  destruct p; [intros H; exact H | |].
  - destruct (selectedModel (ps_groq w)) as [m|] eqn:Hm.
    + destruct (str_truthy m) eqn:Ht; intros (H1 & H2 & H3 & H4); simpl in *;
        rewrite H2, Hm, Ht; repeat split; simpl; congruence.
    + intros (H1 & H2 & H3 & H4). rewrite H2, Hm. repeat split; assumption.
  - destruct (selectedModel (ps_ollama w)) as [m|] eqn:Hm.
    + destruct (str_truthy m) eqn:Ht; intros (H1 & H2 & H3 & H4); simpl in *;
        rewrite H1, Hm, Ht; repeat split; simpl; congruence.
    + intros (H1 & H2 & H3 & H4). rewrite H1, Hm. repeat split; assumption.
Qed.

Lemma classBased_generateSummary_state p topic len c w :
  sameState (snd (lib_generateSummary classBasedModule p topic len c w))
            (prepared p (env c) w).
Proof.
  rewrite <- prepare_snd.
  unfold classBasedModule, lib_generateSummary,
    Providers.AIProviderManager.generateSummary, bind.
  destruct (Providers.AIProviderManager.prepare p c w) as [[a|err] w'] eqn:E; simpl;
    [|apply sameState_refl].
  assert (Ha : a = Providers.providers p).
  { apply (prepare_returns p c w). rewrite E. reflexivity. }
  subst a. apply KeepsState_provider_generateSummary.
Qed.

Lemma classBased_generateTweets_state p summary c w :
  sameState (snd (lib_generateTweets classBasedModule p summary c w))
            (prepared p (env c) w).
Proof.
  rewrite <- prepare_snd.
  unfold classBasedModule, lib_generateTweets,
    Providers.AIProviderManager.generateTweets, bind.
  destruct (Providers.AIProviderManager.prepare p c w) as [[a|err] w'] eqn:E; simpl;
    [|apply sameState_refl].
  assert (Ha : a = Providers.providers p).
  { apply (prepare_returns p c w). rewrite E. reflexivity. }
  subst a.
  pose proof (KeepsState_provider_generateTweets p summary c w') as H.
  destruct (AIProviderInterface.generateTweets (Providers.providers p) summary c w')
    as [[tweets|err] w'']; exact H.
Qed.

Lemma prepare_fst p c w :
  fst (Providers.AIProviderManager.prepare p c w)
  = if negb (AIProviderInterface.isAvailable (Providers.providers p) (env c))
    then Throw (JsError (AIProviderInterface.getName (Providers.providers p)
                         ++ js " is not available"))
    else Ok (Providers.providers p).
Proof.
  unfold Providers.AIProviderManager.prepare,
    Providers.GroqProvider.setSelectedModel, Providers.OllamaProvider.setSelectedModel.
  unfold_monad.
  destruct (negb (AIProviderInterface.isAvailable (Providers.providers p) (env c)));
    [reflexivity|].
  destruct p; simpl; try reflexivity.
  - destruct (selectedModel (ps_groq w)) as [m|]; [|reflexivity].
    destruct (str_truthy m); reflexivity.
  - destruct (selectedModel (ps_ollama w)) as [m|]; [|reflexivity].
    destruct (str_truthy m); reflexivity.
Qed.

Lemma Related_provider_generateSummary t e p topic len :
  Related {| env := e; task := t |} {| env := e; task := t |}
          (AIProviderInterface.generateSummary (Providers.providers p) topic len)
          (AIProviderInterface.generateSummary (Providers.providers p) topic len).
Proof.
  destruct p; simpl;
    [ apply Related_GeminiProvider_generateSummary
    | apply Related_GroqProvider_generateSummary
    | apply Related_OllamaProvider_generateSummary ]; apply agreeAt_refl.
Qed.

(** A summary call gives the same result whether or not an earlier call
    has already copied the selection into the provider object. *)
Lemma classBased_generateSummary_prepared p topic len c w w' :
  sameState w' (prepared p (env c) w) ->
  fst (lib_generateSummary classBasedModule p topic len c w')
  = fst (lib_generateSummary classBasedModule p topic len c w).
Proof.
  intros Hw.
  unfold classBasedModule, lib_generateSummary,
    Providers.AIProviderManager.generateSummary, bind.
  pose proof (prepare_fst p c w) as Hf. pose proof (prepare_fst p c w') as Hf'.
  pose proof (prepare_snd p c w) as Hs. pose proof (prepare_snd p c w') as Hs'.
  destruct (Providers.AIProviderManager.prepare p c w) as [r1 w1].
  destruct (Providers.AIProviderManager.prepare p c w') as [r1' w1'].
  simpl in *. subst r1 r1' w1 w1'.
  destruct (negb (AIProviderInterface.isAvailable (Providers.providers p) (env c)));
    [reflexivity|].
  destruct c as [e t]. simpl in *.
  apply (Related_provider_generateSummary t e p topic len).
  apply prepared_idempotent. exact Hw.
Qed.

Section Isolation.

Variable lib : AiProvidersModule.
Variable prep : AIProvider -> Env -> World -> World.

Hypothesis summary_related :
  forall t e1 e2 p topic len,
    agreeAt t e1 e2 ->
    Related {| env := e1; task := t |} {| env := e2; task := t |}
            (lib_generateSummary lib p topic len) (lib_generateSummary lib p topic len).
Hypothesis tweets_related :
  forall t e1 e2 p summary,
    agreeAt t e1 e2 ->
    Related {| env := e1; task := t |} {| env := e2; task := t |}
            (lib_generateTweets lib p summary) (lib_generateTweets lib p summary).
Hypothesis available_related :
  forall t e1 e2,
    agreeAt t e1 e2 ->
    Related {| env := e1; task := t |} {| env := e2; task := t |}
            (lib_getAvailableProviders lib) (lib_getAvailableProviders lib).
Hypothesis available_ok :
  forall c w, exists avail w', lib_getAvailableProviders lib c w = (Ok avail, w').
Hypothesis summary_state :
  forall p topic len c w,
    sameState (snd (lib_generateSummary lib p topic len c w)) (prep p (env c) w).
Hypothesis tweets_state :
  forall p summary c w,
    sameState (snd (lib_generateTweets lib p summary c w)) (prep p (env c) w).
Hypothesis prep_sameState :
  forall p e1 e2 w1 w2,
    GEMINI_API_KEY e1 = GEMINI_API_KEY e2 ->
    GROQ_API_KEY e1 = GROQ_API_KEY e2 ->
    sameState w1 w2 ->
    sameState (prep p e1 w1) (prep p e2 w2).
Hypothesis prep_idempotent :
  forall p e w w', sameState w' (prep p e w) -> sameState (prep p e w') (prep p e w).
Hypothesis summary_prepared :
  forall p topic len c w w',
    sameState w' (prep p (env c) w) ->
    fst (lib_generateSummary lib p topic len c w')
    = fst (lib_generateSummary lib p topic len c w).

(** A pipeline gives the same result in two environments that its task
    cannot tell apart. *)
Lemma pipeline_related t e1 e2 topic len p :
  agreeAt t e1 e2 ->
  Related {| env := e1; task := t |} {| env := e2; task := t |}
          (generateSingleBriefingForInterest lib topic len p)
          (generateSingleBriefingForInterest lib topic len p).
Proof.
  intros Hagree. unfold generateSingleBriefingForInterest.
  apply Related_try_catch; [|intros; apply Related_throw].
  apply Related_bind; [apply summary_related; assumption|].
  intros [summary sources] _.
  destruct (negb (str_truthy summary)); [apply Related_new_Error|].
  apply Related_bind.
  - apply Related_try_catch; [apply tweets_related; assumption|].
    intros; apply Related_ret.
  - intros tweets _. apply Related_bind; [apply Related_lift|].
    intros; apply Related_ret.
Qed.

(** Whatever a pipeline gets as answers, it leaves the state as the first
    lines of [AIProviderManager] leave it. *)
Lemma pipeline_state topic len p c w :
  sameState (snd (generateSingleBriefingForInterest lib topic len p c w))
            (prep p (env c) w).
Proof.
  unfold generateSingleBriefingForInterest. unfold_monad.
  pose proof (summary_state p topic len c w) as Hs.
  destruct (lib_generateSummary lib p topic len c w) as [[[summary sources]|err] w1];
    simpl in *; [|exact Hs].
  destruct (negb (str_truthy summary)); simpl; [exact Hs|].
  pose proof (tweets_state p summary c w1) as Ht.
  assert (Hw : forall w2, sameState w2 (prep p (env c) w1) ->
                          sameState w2 (prep p (env c) w)).
  { intros w2 H2. eapply sameState_trans; [exact H2|].
    apply prep_idempotent. exact Hs. }
  destruct (lib_generateTweets lib p summary c w1) as [[tweets|err] w2]; simpl in *.
  - destruct (slice_0_3 tweets); simpl; apply Hw; exact Ht.
  - apply Hw; exact Ht.
Qed.

Lemma allSettled_isolated e1 e2 t k len p interests :
  (forall t', t' <> PipelineTask k -> agreeAt t' e1 e2) ->
  forall i0 w1 w2,
    sameState w1 w2 ->
    exists rs1 w1' rs2 w2',
      allSettled_from i0 (pipelines lib interests len p) {| env := e1; task := t |} w1
        = (Ok rs1, w1')
      /\ allSettled_from i0 (pipelines lib interests len p) {| env := e2; task := t |} w2
        = (Ok rs2, w2')
      /\ List.length rs1 = List.length interests
      /\ List.length rs2 = List.length interests
      /\ sameState w1' w2'
      /\ forall j, i0 + j <> k -> nth_error rs1 j = nth_error rs2 j.
Proof.
  intros Hagree.
  assert (Hkeys : GEMINI_API_KEY e1 = GEMINI_API_KEY e2
                  /\ GROQ_API_KEY e1 = GROQ_API_KEY e2).
  { destruct (Hagree MainTask ltac:(discriminate)) as (Hk1 & Hk2 & _). auto. }
  destruct Hkeys as [Hk1 Hk2].
  induction interests as [|topic rest IH]; intros i0 w1 w2 Hw.
  - exists [], w1, [], w2.
    split; [reflexivity|]. split; [reflexivity|].
    split; [reflexivity|]. split; [reflexivity|].
    split; [exact Hw | reflexivity].
  - simpl. unfold_monad. simpl.
    set (run1 := generateSingleBriefingForInterest lib topic len p
                   {| env := e1; task := PipelineTask i0 |} w1).
    set (run2 := generateSingleBriefingForInterest lib topic len p
                   {| env := e2; task := PipelineTask i0 |} w2).
    assert (Hstate : sameState (snd run1) (snd run2)).
    { eapply sameState_trans; [apply pipeline_state|].
      eapply sameState_trans; [|apply sameState_sym; apply pipeline_state].
      apply prep_sameState; assumption. }
    assert (Hresult : i0 <> k -> fst run1 = fst run2).
    { intros Hne.
      apply (pipeline_related (PipelineTask i0) e1 e2 topic len p); [|exact Hw].
      apply Hagree. congruence. }
    destruct (IH (S i0) (snd run1) (snd run2) Hstate)
      as (rs1 & w1' & rs2 & w2' & Hr1 & Hr2 & Hl1 & Hl2 & Hw' & Hnth).
    destruct run1 as [r1 wa] eqn:E1; destruct run2 as [r2 wb] eqn:E2; simpl in *.
    exists ((match r1 with Ok a => fulfilled a | Throw err => rejected err end) :: rs1), w1',
           ((match r2 with Ok a => fulfilled a | Throw err => rejected err end) :: rs2), w2'.
    split; [destruct r1; simpl; rewrite Hr1; reflexivity|].
    split; [destruct r2; simpl; rewrite Hr2; reflexivity|].
    split; [simpl; congruence|].
    split; [simpl; congruence|].
    split; [exact Hw'|].
    intros [|j] Hj; simpl.
    + rewrite Hresult by lia. reflexivity.
    + apply Hnth. lia.
Qed.

(** A pipeline gives the same result from the state in which the fan-out
    starts and from the state another pipeline has left. *)
Lemma pipeline_from_prepared topic len p c w w' :
  sameState w' (prep p (env c) w) ->
  fst (generateSingleBriefingForInterest lib topic len p c w')
  = fst (generateSingleBriefingForInterest lib topic len p c w).
Proof.
  intros Hw.
  unfold generateSingleBriefingForInterest. unfold_monad.
  pose proof (summary_prepared p topic len c w w' Hw) as Hf.
  assert (Hs : sameState (snd (lib_generateSummary lib p topic len c w'))
                         (snd (lib_generateSummary lib p topic len c w))).
  { eapply sameState_trans; [apply summary_state|].
    eapply sameState_trans; [apply prep_idempotent; exact Hw|].
    apply sameState_sym. apply summary_state. }
  destruct (lib_generateSummary lib p topic len c w') as [r1' w1'].
  destruct (lib_generateSummary lib p topic len c w) as [r1 w1].
  simpl in *. subst r1'.
  destruct r1 as [[summary sources]|err]; simpl; [|reflexivity].
  destruct (negb (str_truthy summary)); simpl; [reflexivity|].
  destruct c as [e t].
  destruct (tweets_related t e e p summary (agreeAt_refl t e) w1' w1 Hs) as [Ht _].
  destruct (lib_generateTweets lib p summary {| env := e; task := t |} w1') as [r2' w2'].
  destruct (lib_generateTweets lib p summary {| env := e; task := t |} w1) as [r2 w2].
  simpl in *. subst r2'.
  destruct r2 as [tweets|err]; simpl.
  - destruct (slice_0_3 tweets); reflexivity.
  - reflexivity.
Qed.

Lemma allSettled_independent e t len p interests w :
  forall i0 w' results w2,
    sameState w' w \/ sameState w' (prep p e w) ->
    allSettled_from i0 (pipelines lib interests len p) {| env := e; task := t |} w'
      = (Ok results, w2) ->
    forall j topic,
      nth_error interests j = Some topic ->
      nth_error results j
      = Some (settledOf (generateSingleBriefingForInterest lib topic len p
                           {| env := e; task := PipelineTask (i0 + j) |} w)).
Proof.
  induction interests as [|topic0 rest IH]; intros i0 w' results w2 Hw Hrun j topic Hj.
  - destruct j; discriminate.
  - simpl in Hrun. unfold_monad. simpl in Hrun.
    set (c0 := {| env := e; task := PipelineTask i0 |}) in *.
    assert (Hfst : fst (generateSingleBriefingForInterest lib topic0 len p c0 w')
                   = fst (generateSingleBriefingForInterest lib topic0 len p c0 w)).
    { destruct Hw as [Hw | Hw].
      - apply (pipeline_related (PipelineTask i0) e e topic0 len p (agreeAt_refl _ e)).
        exact Hw.
      - apply (pipeline_from_prepared topic0 len p c0 w w'). exact Hw. }
    assert (Hnext : sameState (snd (generateSingleBriefingForInterest lib topic0 len p c0 w'))
                              (prep p e w)).
    { eapply sameState_trans; [apply pipeline_state|]. simpl.
      destruct Hw as [Hw | Hw].
      - apply prep_sameState; [reflexivity | reflexivity | exact Hw].
      - apply prep_idempotent. exact Hw. }
    destruct (generateSingleBriefingForInterest lib topic0 len p c0 w') as [r wa] eqn:E.
    simpl in Hfst, Hnext.
    destruct (allSettled_from (S i0) (pipelines lib rest len p)
                {| env := e; task := t |} wa) as [rs w3] eqn:Erest.
    assert (Hrs : exists rs', rs = Ok rs'
                  /\ results = settledOf (r, wa) :: rs').
    { destruct r; simpl in Hrun; rewrite Erest in Hrun;
        destruct rs; inversion Hrun; subst; eexists; split; reflexivity. }
    destruct Hrs as (rs' & -> & ->).
    destruct j as [|j]; simpl in Hj.
    + inversion Hj; subst topic0. simpl. rewrite Nat.add_0_r.
      unfold settledOf. simpl. fold c0. rewrite Hfst. reflexivity.
    + simpl. replace (i0 + S j) with (S i0 + j) by lia.
      apply (IH (S i0) wa rs' w3 (or_intror Hnext) Erest j topic Hj).
Qed.

Lemma nth_error_briefings interests results j :
  nth_error (briefings (forEachResult interests results)) j
  = option_map (fun r => entryOf interests (j, r)) (nth_error results j).
Proof.
  rewrite forEachResult_spec. simpl.
  rewrite nth_error_map, nth_error_combine_seq.
  destruct (nth_error results j); reflexivity.
Qed.

(** Two runs of [generateBriefing] from the same state, in environments
    that differ only in what the services answer to the pipeline of the
    topic at index [k], give the same briefing for every other topic. *)
Lemma generateBriefing_isolated e1 e2 k interests len provider w :
  (forall t', t' <> PipelineTask k -> agreeAt t' e1 e2) ->
  exists r1 w1 r2 w2,
    generateBriefing lib interests len provider (mainCtx e1) w = (Ok r1, w1)
    /\ generateBriefing lib interests len provider (mainCtx e2) w = (Ok r2, w2)
    /\ forall j, j <> k -> nth_error (briefings r1) j = nth_error (briefings r2) j.
Proof.
  intros Hagree.
  destruct (available_ok (mainCtx e1) w) as (avail & wa & Ha1).
  destruct (available_ok (mainCtx e2) w) as (avail2 & wb & Ha2).
  destruct (available_related MainTask e1 e2 (Hagree MainTask ltac:(discriminate)) w w
              (sameState_refl w)) as [Hfst Hsnd].
  unfold mainCtx in *. rewrite Ha1, Ha2 in Hfst, Hsnd. simpl in Hfst, Hsnd.
  inversion Hfst; subst avail2.
  destruct (resolvedProvider provider avail) as [p|] eqn:Hp.
  - destruct (allSettled_isolated e1 e2 MainTask k len p interests Hagree 0 wa wb Hsnd)
      as (rs1 & w1' & rs2 & w2' & Hr1 & Hr2 & _ & _ & _ & Hnth).
    exists (forEachResult interests rs1), w1', (forEachResult interests rs2), w2'.
    split.
    { rewrite (generateBriefing_resolved lib interests len provider _ w avail wa p Ha1 Hp).
      apply fanOut_run. exact Hr1. }
    split.
    { rewrite (generateBriefing_resolved lib interests len provider _ w avail wb p Ha2 Hp).
      apply fanOut_run. exact Hr2. }
    intros j Hj. rewrite !nth_error_briefings. rewrite (Hnth j) by (simpl; exact Hj).
    reflexivity.
  - assert (avail = []) as ->.
    { unfold resolvedProvider in Hp.
      destruct (existsb (AIProvider_eqb provider) avail); [discriminate|].
      destruct avail; [reflexivity | discriminate]. }
    exists noProviderResponse, wa, noProviderResponse, wb.
    split; [apply generateBriefing_unresolved; exact Ha1|].
    split; [apply generateBriefing_unresolved; exact Ha2|].
    reflexivity.
Qed.

End Isolation.

(** ** One pipeline fails *)

Lemma getAvailableProviders_ok lib c w :
  lib = classBasedModule \/ lib = functionBasedModule ->
  exists avail w', lib_getAvailableProviders lib c w = (Ok avail, w').
Proof.
  intros [-> | ->]; simpl.
  - unfold Providers.getAvailableProviders, Providers.listOllamaModels.
    unfold_monad. simpl. do 2 eexists. reflexivity.
  - unfold ProvidersV1.getAvailableProviders, ProvidersV1.listOllamaModels.
    unfold_monad. simpl.
    destruct (ollama_list (env c) (task c)) as [[names|]|err]; simpl;
      try (destruct (0 <? List.length names)); do 2 eexists; reflexivity.
Qed.

Lemma generateBriefing_isolated_modules lib e1 e2 k interests len provider w :
  lib = classBasedModule \/ lib = functionBasedModule ->
  (forall t', t' <> PipelineTask k -> agreeAt t' e1 e2) ->
  exists r1 w1 r2 w2,
    generateBriefing lib interests len provider (mainCtx e1) w = (Ok r1, w1)
    /\ generateBriefing lib interests len provider (mainCtx e2) w = (Ok r2, w2)
    /\ forall j, j <> k -> nth_error (briefings r1) j = nth_error (briefings r2) j.
Proof.
  intros [-> | ->].
  - apply (generateBriefing_isolated classBasedModule prepared).
    + intros; apply Related_classBased_generateSummary; assumption.
    + intros; apply Related_classBased_generateTweets; assumption.
    + intros; apply Related_classBased_getAvailableProviders; assumption.
    + intros; apply getAvailableProviders_ok; left; reflexivity.
    + apply classBased_generateSummary_state.
    + apply classBased_generateTweets_state.
    + apply prepared_sameState.
    + apply prepared_idempotent.
  - apply (generateBriefing_isolated functionBasedModule (fun _ _ w => w)).
    + intros; apply Related_functionBased_generateSummary; assumption.
    + intros; apply Related_functionBased_generateTweets; assumption.
    + intros; apply Related_functionBased_getAvailableProviders; assumption.
    + intros; apply getAvailableProviders_ok; right; reflexivity.
    + intros; apply KeepsState_functionBased_generateSummary.
    + intros; apply KeepsState_functionBased_generateTweets.
    + intros; assumption.
    + intros; assumption.
Qed.

(** In the embedding the pipelines run one after the other.  The order is
    immaterial: with either module, each pipeline settles as it would if it
    ran alone from the state in which the fan-out starts. *)
Lemma pipelines_independent lib interests len p e t w results w2 :
  lib = classBasedModule \/ lib = functionBasedModule ->
  Promise_allSettled (pipelines lib interests len p) {| env := e; task := t |} w
    = (Ok results, w2) ->
  forall j topic,
    nth_error interests j = Some topic ->
    nth_error results j
    = Some (settledOf (generateSingleBriefingForInterest lib topic len p
                         {| env := e; task := PipelineTask j |} w)).
Proof.
  intros Hlib Hrun j topic Hj.
  destruct Hlib as [-> | ->].
  - apply (allSettled_independent classBasedModule prepared) with
      (e := e) (t := t) (interests := interests) (i0 := 0) (w' := w) (w2 := w2);
      try assumption.
    + intros; apply Related_classBased_generateSummary; assumption.
    + intros; apply Related_classBased_generateTweets; assumption.
    + apply classBased_generateSummary_state.
    + apply classBased_generateTweets_state.
    + apply prepared_sameState.
    + apply prepared_idempotent.
    + apply classBased_generateSummary_prepared.
    + left; apply sameState_refl.
  - apply (allSettled_independent functionBasedModule (fun _ _ w => w)) with
      (e := e) (t := t) (interests := interests) (i0 := 0) (w' := w) (w2 := w2);
      try assumption.
    + intros; apply Related_functionBased_generateSummary; assumption.
    + intros; apply Related_functionBased_generateTweets; assumption.
    + intros; apply KeepsState_functionBased_generateSummary.
    + intros; apply KeepsState_functionBased_generateTweets.
    + intros; assumption.
    + intros; assumption.
    + intros p0 topic0 len0 c w0 w' Hw. destruct c as [e0 t0].
      apply (Related_functionBased_generateSummary t0 e0 e0 (agreeAt_refl t0 e0)
               p0 topic0 len0).
      exact Hw.
    + left; apply sameState_refl.
Qed.

Lemma errorsOf_cons interests r (rest : list (Settled BriefingItem)) i :
  flat_map (errorsOf interests) (combine (seq i (List.length (r :: rest))) (r :: rest))
  = errorsOf interests (i, r)
    ++ flat_map (errorsOf interests) (combine (seq (S i) (List.length rest)) rest).
Proof. reflexivity. Qed.

Lemma errorsOf_all_fulfilled interests (results : list (Settled BriefingItem)) i :
  (forall j, j < List.length results ->
             exists item, nth_error results j = Some (fulfilled item)) ->
  flat_map (errorsOf interests) (combine (seq i (List.length results)) results) = [].
Proof.
  revert i. induction results as [|r rest IH]; intros i H; [reflexivity|].
  rewrite errorsOf_cons.
  destruct (H 0 ltac:(simpl; lia)) as [item Hitem]. simpl in Hitem.
  inversion Hitem; subst r.
  rewrite IH; [reflexivity|].
  intros j Hj. apply (H (S j)). simpl. lia.
Qed.

Lemma errorsOf_one_rejected interests (results : list (Settled BriefingItem)) i k reason :
  nth_error results k = Some (rejected reason) ->
  (forall j, j <> k -> j < List.length results ->
             exists item, nth_error results j = Some (fulfilled item)) ->
  flat_map (errorsOf interests) (combine (seq i (List.length results)) results)
  = [errorLine (nth (i + k) interests (js "undefined")) (message_or_string reason)].
Proof.
  revert i k. induction results as [|r rest IH]; intros i k Hk H.
  - destruct k; discriminate.
  - rewrite errorsOf_cons. destruct k as [|k]; simpl in Hk.
    + inversion Hk; subst r.
      rewrite errorsOf_all_fulfilled.
      * unfold errorsOf. simpl. rewrite Nat.add_0_r. reflexivity.
      * intros j Hj. apply (H (S j)); [discriminate | simpl; lia].
    + destruct (H 0 ltac:(discriminate) ltac:(simpl; lia)) as [item Hitem].
      simpl in Hitem. inversion Hitem; subst r.
      rewrite (IH (S i) k Hk).
      * replace (S i + k) with (i + S k) by lia. reflexivity.
      * intros j Hj Hlt. apply (H (S j)); [congruence | simpl; lia].
Qed.

(** C1 (as amended).  When the pipeline of exactly one topic, at index
    [k], is rejected, [generateBriefing] still returns one briefing per
    topic.  The briefing at index [k] has the topic as [interest], the
    fixed text "Failed to generate summary due to an error." as [summary],
    no sources, no tweets and the message of the rejection as [error]; the
    error list is one line, naming that topic and that message; and every
    other briefing is the value its own pipeline was fulfilled with.  With
    either module of the repository, the other briefings are moreover the
    same in every environment that differs from this one only in what the
    services answer to the failing pipeline: they are what they would be
    had the failure not occurred. *)
Theorem generateBriefing_one_failure
    (lib : AiProvidersModule) (interests : list JsString) (len : SummaryLength)
    (provider : AIProvider) (e : Env) (w : World)
    (avail : list AIProvider) (w1 : World) (p : AIProvider)
    (results : list (Settled BriefingItem)) (w2 : World) (k : nat) (reason : Thrown) :
  lib_getAvailableProviders lib (mainCtx e) w = (Ok avail, w1) ->
  resolvedProvider provider avail = Some p ->
  Promise_allSettled (pipelines lib interests len p) (mainCtx e) w1 = (Ok results, w2) ->
  nth_error results k = Some (rejected reason) ->
  (forall j, j <> k -> j < List.length interests ->
             exists item, nth_error results j = Some (fulfilled item)) ->
  exists response topic,
    generateBriefing lib interests len provider (mainCtx e) w = (Ok response, w2)
    /\ nth_error interests k = Some topic
    /\ List.length (briefings response) = List.length interests
    /\ nth_error (briefings response) k
       = Some {| interest := topic;
                 summary := js "Failed to generate summary due to an error.";
                 sources := [];
                 tweets := JArr [];
                 error := Some (message_or_string reason) |}
    /\ errors response
       = [ jsq "Failed to generate briefing for `" ++ topic ++ jsq "`: "
           ++ message_or_string reason ]
    /\ (forall j item,
           nth_error results j = Some (fulfilled item) ->
           nth_error (briefings response) j = Some item)
    /\ (lib = classBasedModule \/ lib = functionBasedModule ->
        forall e',
          (forall t, t <> PipelineTask k -> agreeAt t e e') ->
          exists response' w',
            generateBriefing lib interests len provider (mainCtx e') w = (Ok response', w')
            /\ forall j, j <> k ->
                 nth_error (briefings response') j = nth_error (briefings response) j).
Proof.
  intros Ha Hp Hrun Hk Hothers.
  assert (Hlen : List.length results = List.length interests).
  { destruct (allSettled_from_ok (pipelines lib interests len p) 0 (mainCtx e) w1)
      as (rs & w' & Hrs & Hl).
    unfold Promise_allSettled in Hrun. rewrite Hrun in Hrs. inversion Hrs; subst.
    rewrite Hl. unfold pipelines. apply length_map. }
  assert (Hklt : k < List.length interests).
  { rewrite <- Hlen. apply nth_error_Some. congruence. }
  destruct (nth_error interests k) as [topic|] eqn:Htopic;
    [|apply nth_error_None in Htopic; lia].
  assert (Hnth : nth k interests (js "undefined") = topic).
  { apply nth_error_nth. exact Htopic. }
  assert (Hgen : generateBriefing lib interests len provider (mainCtx e) w
                 = (Ok (forEachResult interests results), w2)).
  { rewrite (generateBriefing_resolved lib interests len provider _ w avail w1 p Ha Hp).
    apply fanOut_run. exact Hrun. }
  exists (forEachResult interests results), topic.
  split; [exact Hgen|].
  split; [reflexivity|].
  split.
  { rewrite forEachResult_spec. simpl. rewrite length_map, length_combine_seq. exact Hlen. }
  split.
  { rewrite nth_error_briefings, Hk. simpl. unfold entryOf. simpl.
    rewrite Hnth. reflexivity. }
  split.
  { rewrite forEachResult_spec. simpl.
    rewrite (errorsOf_one_rejected interests results 0 k reason Hk).
    - simpl. rewrite Hnth. reflexivity.
    - intros j Hj Hlt. apply Hothers; [exact Hj | lia]. }
  split.
  { intros j item Hj. rewrite nth_error_briefings, Hj. reflexivity. }
  intros Hlib e' Hagree.
  destruct (generateBriefing_isolated_modules lib e e' k interests len provider w Hlib Hagree)
    as (r1 & wa & r2 & wb & Hr1 & Hr2 & Hsame).
  rewrite Hgen in Hr1. inversion Hr1; subst r1 wa.
  exists r2, wb. split; [exact Hr2|].
  intros j Hj. symmetry. apply Hsame. exact Hj.
Qed.

(** The theorem at work: three topics with Gemini, whose service refuses
    the requests of the second pipeline and answers all others. *)
Lemma generateBriefing_one_failure_witness :
  exists results w2,
    Promise_allSettled (pipelines classBasedModule threeTopics short gemini)
      (mainCtx (oneFailingEnv 1 (js "Big news today, for everyone.")))
      (snd (Providers.getAvailableProviders
              (mainCtx (oneFailingEnv 1 (js "Big news today, for everyone.")))
              Providers.initialWorld))
    = (Ok results, w2)
    /\ exists response topic,
      generateBriefing classBasedModule threeTopics short gemini
        (mainCtx (oneFailingEnv 1 (js "Big news today, for everyone.")))
        Providers.initialWorld = (Ok response, w2)
      /\ nth_error threeTopics 1 = Some topic
      /\ List.length (briefings response) = List.length threeTopics
      /\ nth_error (briefings response) 1
         = Some {| interest := topic;
                   summary := js "Failed to generate summary due to an error.";
                   sources := [];
                   tweets := JArr [];
                   error := Some (message_or_string (JsError (js "fetch failed"))) |}
      /\ errors response
         = [ jsq "Failed to generate briefing for `" ++ topic ++ jsq "`: "
             ++ message_or_string (JsError (js "fetch failed")) ]
      /\ (forall j item,
             nth_error results j = Some (fulfilled item) ->
             nth_error (briefings response) j = Some item)
      /\ (classBasedModule = classBasedModule \/ classBasedModule = functionBasedModule ->
          forall e',
            (forall t, t <> PipelineTask 1 ->
                       agreeAt t (oneFailingEnv 1 (js "Big news today, for everyone.")) e') ->
            exists response' w',
              generateBriefing classBasedModule threeTopics short gemini (mainCtx e')
                Providers.initialWorld = (Ok response', w')
              /\ forall j, j <> 1 ->
                   nth_error (briefings response') j = nth_error (briefings response) j).
Proof.
  eexists. eexists. split; [vm_compute; reflexivity|].
  eapply (generateBriefing_one_failure classBasedModule threeTopics short gemini
            (oneFailingEnv 1 (js "Big news today, for everyone.")) Providers.initialWorld
            [gemini; ollama]
            (snd (Providers.getAvailableProviders
                    (mainCtx (oneFailingEnv 1 (js "Big news today, for everyone.")))
                    Providers.initialWorld))
            gemini).
  - vm_compute. reflexivity.
  - reflexivity.
  - vm_compute. reflexivity.
  - vm_compute. reflexivity.
  - intros j Hj Hlt.
    destruct j as [|[|[|j]]]; simpl in Hlt; try lia; eexists; reflexivity.
Defined.

(** C1 as stated fails on the summary of the failing entry, which is not
    empty but a fixed sentence; this is the design document's own scenario
    of one topic with a failing summary call.  The [error] field holds the
    message of the thrown error, so it is empty when that message is. *)
Lemma generateBriefing_failure_summary_counterexample :
  fst (generateBriefing classBasedModule [js "quantum computing"] short gemini
         (mainCtx (geminiEnv (Throw (JsError (js "quota exceeded")))))
         Providers.initialWorld)
    = Ok {| briefings :=
              [ {| interest := js "quantum computing";
                   summary := js "Failed to generate summary due to an error.";
                   sources := [];
                   tweets := JArr [];
                   error := Some (js "quota exceeded") |} ];
            errors :=
              [ jsq "Failed to generate briefing for `quantum computing`: quota exceeded" ] |}
  /\ js "Failed to generate summary due to an error." <> []
  /\ fst (generateBriefing classBasedModule [js "quantum computing"] short gemini
            (mainCtx (geminiEnv (Throw (JsError [])))) Providers.initialWorld)
    = Ok {| briefings :=
              [ {| interest := js "quantum computing";
                   summary := js "Failed to generate summary due to an error.";
                   sources := [];
                   tweets := JArr [];
                   error := Some [] |} ];
            errors := [ jsq "Failed to generate briefing for `quantum computing`: " ] |}.
Proof.
  split; [vm_compute; reflexivity|].
  split; [vm_compute; discriminate|].
  vm_compute. reflexivity.
Qed.

(** ** Generation without a selected model *)

Ltac unfold_lib :=
  unfold Providers.listOllamaModels, Providers.setSelectedOllamaModel,
    Providers.getSelectedOllamaModel, Providers.listGroqModels,
    Providers.setSelectedGroqModel, Providers.getSelectedGroqModel,
    Providers.getAvailableModels, Providers.getAvailableProviders,
    Providers.set_groq_models,
    ProvidersV1.listOllamaModels, ProvidersV1.setSelectedOllamaModel,
    ProvidersV1.getSelectedOllamaModel, ProvidersV1.listGroqModels,
    ProvidersV1.setSelectedGroqModel, ProvidersV1.getSelectedGroqModel,
    ProvidersV1.getAvailableModels, ProvidersV1.getAvailableProviders,
    searchWeb_default, searchWeb, do_fetch in *;
  unfold_providers; unfold_providersV1.

Lemma includes_model_true_In ms model :
  Providers.includes_model ms model = true -> In model ms.
Proof.
  unfold Providers.includes_model. intros H.
  apply existsb_exists in H as (x & Hin & Heq).
  apply js_eqb_eq in Heq. subst. exact Hin.
Qed.

Lemma first_or_null_In ms m : Providers.first_or_null ms = Some m -> In m ms.
Proof.
  destruct ms as [|x ms]; simpl; [discriminate|].
  destruct (str_truthy x); [|discriminate]. intros H. injection H as <-. left. reflexivity.
Qed.

Ltac wp_exec :=
  repeat first [ wp_step | progress unfold_lib | progress simpl ].




Lemma listGroqModelsV1_state (c : Ctx) (w : World) :
  exists ms w',
    ProvidersV1.listGroqModels c w = (Ok ms, w')
    /\ ms <> []
    /\ Forall (fun id => str_truthy id = true /\ includes id (js "llama") = true) ms
    /\ models (ps_groq w') = ms
    /\ opt_truthy (selectedModel (ps_groq w')) = true.
Proof.
  assert (Hdefault : str_truthy ProvidersV1.CONFIG_GROQ_MODEL = true
                     /\ includes ProvidersV1.CONFIG_GROQ_MODEL (js "llama") = true)
    by (split; vm_compute; reflexivity).
  unfold ProvidersV1.listGroqModels, Providers.set_groq_models.
  unfold_monad. simpl. unfold ProvidersV1.clients_groq.
  destruct (opt_truthy (GROQ_API_KEY (env c))); simpl;
    [destruct (groq_models_list (env c) (task c)) as [data|err]; simpl|].
  2, 3: eexists _, _; (split; [reflexivity|]); simpl;
        repeat split; try reflexivity; try discriminate; repeat constructor;
        apply Hdefault.
  set (kept := filter _ _).
  assert (Hkept : Forall (fun id => str_truthy id = true /\ includes id (js "llama") = true)
                         (Providers.sort kept)).
  { apply (Permutation_Forall (sort_perm kept)). apply Forall_forall.
    intros id Hin. apply filter_In in Hin as [_ Hin]. apply andb_prop in Hin. exact Hin. }
  destruct (Providers.sort kept) as [|m ms] eqn:Hsorted; simpl.
  - destruct (opt_truthy (selectedModel (ps_groq w))) eqn:Hsel; simpl;
      eexists _, _; (split; [reflexivity|]); simpl;
      repeat split; try reflexivity; try discriminate; try exact Hsel;
      repeat constructor; apply Hdefault.
  - assert (Hm : str_truthy m = true) by (inversion Hkept as [|? ? [H _] _]; exact H).
    destruct (opt_truthy (selectedModel (ps_groq w))) eqn:Hsel; simpl;
      eexists _, _; (split; [reflexivity|]); simpl;
      repeat split; try reflexivity; try discriminate; try exact Hsel;
      try exact Hkept; exact Hm.
Qed.







Lemma afterAll_keeps (I : World -> Prop) after e calls w :
  (forall call c w, I w -> I (after call c w)) ->
  I w -> I (afterAll after e calls w).
Proof.
  intros Hstep. unfold afterAll. revert w.
  induction calls as [|[t call] calls IH]; intros w Hw; simpl; [exact Hw|].
  apply IH. apply Hstep. exact Hw.
Qed.



(* ===================================================================== *)
(** * Further properties *)
(* ===================================================================== *)

(** ** The length of the social posts *)

Lemma Forall_firstn_keep {A} (P : A -> Prop) n (l : list A) :
  Forall P l -> Forall P (firstn n l).
Proof.
  intros H. revert n. induction H; intros [|n]; simpl; constructor; auto.
Qed.

Lemma fitTweet_length tweet :
  10 < List.length tweet -> 10 < List.length (Providers.fitTweet tweet) <= 270.
Proof.
  intros H. unfold Providers.fitTweet.
  destruct (Nat.ltb_spec 270 (List.length tweet)) as [Hlong|Hshort]; [|lia].
  unfold substring. rewrite length_app, length_firstn. simpl skipn.
  change (List.length (js "...")) with 3. lia.
Qed.

Lemma placeholderTweets_length :
  Forall (fun tweet => 10 < List.length tweet <= 270) Providers.placeholderTweets.
Proof.
  assert (H : forallb (fun tweet => (10 <? List.length tweet)
                                    && (List.length tweet <=? 270))
                      Providers.placeholderTweets = true)
    by (vm_compute; reflexivity).
  rewrite forallb_forall in H. apply Forall_forall. intros tweet Hin.
  specialize (H tweet Hin). apply andb_prop in H as [H1 H2].
  apply Nat.ltb_lt in H1. apply Nat.leb_le in H2. lia.
Qed.

Lemma tweetsOfContent_fit content :
  Forall (fun tweet => 10 < List.length tweet <= 270) (Providers.tweetsOfContent content).
Proof.
  unfold Providers.tweetsOfContent, slice0.
  match goal with |- context [if ?b then _ else _] => destruct b end.
  - apply Forall_firstn_keep. rewrite Forall_map. apply Forall_forall.
    intros line Hin. apply filter_In in Hin as [_ Hkeep].
    apply fitTweet_length.
    unfold Providers.keepTweetLine in Hkeep.
    apply andb_prop in Hkeep as [Hkeep _]. apply andb_prop in Hkeep as [Hlen _].
    apply Nat.ltb_lt in Hlen. exact Hlen.
  - apply placeholderTweets_length.
Qed.

(** X1. Every post the class-based [generateTweets] returns, whatever the
    provider and whatever the model answered, has more than 10 and at most
    270 UTF-16 code units. *)
Theorem generateTweets_fits_limit (p : AIProvider) (summary : JsString)
    (c : Ctx) (w : World) (tweets : list JsString) (w' : World) :
  Providers.AIProviderManager.generateTweets p summary c w = (Ok tweets, w') ->
  Forall (fun tweet => 10 < List.length tweet <= 270) tweets.
Proof.
  unfold Providers.AIProviderManager.generateTweets, bind.
  pose proof (prepare_fst p c w) as Hfst.
  destruct (Providers.AIProviderManager.prepare p c w) as [[inst|err] w1] eqn:Hprep;
    [|discriminate].
  simpl in Hfst.
  destruct (negb _); [discriminate|]. injection Hfst as ->.
  intros Hrun. apply provider_generateTweets_ok in Hrun as [content ->].
  apply tweetsOfContent_fit.
Qed.

Lemma generateTweets_fits_limit_witness :
  Forall (fun tweet => 10 < List.length tweet <= 270)
         [js "Nothing says progress like a meeting about meetings."].
Proof.
  eapply (generateTweets_fits_limit gemini (js "news")
            (mainCtx (geminiEnv (Ok (js "Nothing says progress like a meeting about meetings."))))
            Providers.initialWorld).
  vm_compute. reflexivity.
Defined.

(** ** The prompt for the social posts *)

Lemma getSubstitution_plain matched before after repl :
  ~ In 0x24%N repl -> getSubstitution matched before after repl = repl.
Proof.
  induction repl as [|ch r IH]; intros Hno; [reflexivity|].
  simpl. destruct (N.eqb_spec ch 0x24) as [->|Hne].
  - exfalso. apply Hno. left. reflexivity.
  - rewrite IH; [reflexivity|]. intros Hin. apply Hno. right. exact Hin.
Qed.

(** X2. The prompt of [getTweetPrompt] is the text of [PROMPTS.TWEET] with
    the summary in the place of [{summary}], word for word, for every
    summary without a dollar sign; [replace] expands a [$&] of the summary
    into the placeholder itself. *)
Theorem getTweetPrompt_verbatim :
  exists before after,
    Providers.PROMPTS_TWEET = before ++ js "{summary}" ++ after
    /\ (forall summary,
          ~ In 0x24%N summary ->
          Providers.getTweetPrompt summary = before ++ summary ++ after)
    /\ Providers.getTweetPrompt (js "$&") = Providers.PROMPTS_TWEET.
Proof.
  set (i := indexOf Providers.PROMPTS_TWEET (js "{summary}")).
  exists (firstn (Z.to_nat i) Providers.PROMPTS_TWEET),
         (skipn (Z.to_nat i + List.length (js "{summary}")) Providers.PROMPTS_TWEET).
  split; [vm_compute; reflexivity|].
  split; [|vm_compute; reflexivity].
  intros summary Hno.
  unfold Providers.getTweetPrompt, replace_first.
  change (indexOf Providers.PROMPTS_TWEET (js "{summary}")) with i.
  assert (Hi : (i <? 0)%Z = false) by (vm_compute; reflexivity).
  rewrite Hi. rewrite getSubstitution_plain by exact Hno. reflexivity.
Qed.

(** ** A provider that is not available *)

(** X3. Called for a provider whose [isAvailable] is false, each method of
    [AIProviderManager] throws [<name> is not available], sends no request
    and leaves the state as it is. *)
Theorem manager_unavailable_provider (p : AIProvider) (c : Ctx) (w : World) :
  AIProviderInterface.isAvailable (Providers.providers p) (env c) = false ->
  let unavailable :=
    JsError (AIProviderInterface.getName (Providers.providers p)
             ++ js " is not available") in
  p <> ollama
  /\ (forall interest len,
        Providers.AIProviderManager.generateSummary p interest len c w
        = (Throw unavailable, w))
  /\ (forall summary,
        Providers.AIProviderManager.generateTweets p summary c w = (Throw unavailable, w))
  /\ Providers.AIProviderManager.getTrendingTopics p c w = (Throw unavailable, w).
Proof.
  intros Ha unavailable.
  assert (Hprep : Providers.AIProviderManager.prepare p c w = (Throw unavailable, w)).
  { pose proof (prepare_fst p c w) as Hf. pose proof (prepare_snd p c w) as Hs.
    unfold prepared in Hs. rewrite Ha in Hf, Hs. simpl in Hf, Hs.
    destruct (Providers.AIProviderManager.prepare p c w) as [r w1].
    simpl in Hf, Hs. subst. reflexivity. }
  split; [intros ->; discriminate Ha|].
  unfold Providers.AIProviderManager.generateSummary,
    Providers.AIProviderManager.generateTweets,
    Providers.AIProviderManager.getTrendingTopics, bind.
  rewrite Hprep. repeat split.
Qed.

Lemma manager_unavailable_provider_witness :
  Providers.AIProviderManager.getTrendingTopics gemini (mainCtx offlineEnv)
    Providers.initialWorld
  = (Throw (JsError (js "Google Gemini is not available")), Providers.initialWorld).
Proof.
  apply (manager_unavailable_provider gemini (mainCtx offlineEnv) Providers.initialWorld).
  reflexivity.
Defined.

(** ** The list of Groq models *)

(** X4. The class-based [listGroqModels] never throws, returns the list it
    stores and leaves the selected model alone.  Without a key it returns
    no model and sends no request; with a key it sends one request, and
    returns the three fallback models if that request fails, and otherwise
    the ids of the answer that are not empty, each as often as it occurs,
    in ascending order of their code units. *)
Theorem listGroqModels_result (e : Env) (t : Task) (w : World) :
  exists ms w',
    Providers.listGroqModels {| env := e; task := t |} w = (Ok ms, w')
    /\ models (ps_groq w') = ms
    /\ selectedModel (ps_groq w') = selectedModel (ps_groq w)
    /\ ps_ollama w' = ps_ollama w
    /\ (if opt_truthy (GROQ_API_KEY e) then
          network w' = network w ++ [GroqModelsList]
          /\ match groq_models_list e t with
             | Throw _ =>
               ms = [js "llama3-8b-8192"; js "llama3-70b-8192"; js "mixtral-8x7b-32768"]
             | Ok data =>
               Permutation
                 (filter str_truthy (match data with Some ids => ids | None => [] end)) ms
               /\ Sorted (fun a b => Providers.js_leb a b = true) ms
             end
        else ms = [] /\ network w' = network w).
Proof.
  unfold Providers.listGroqModels, Providers.set_groq_models.
  unfold_monad. simpl.
  unfold Providers.GroqProvider.isAvailable.
  destruct (opt_truthy (GROQ_API_KEY e)); simpl.
  - destruct (groq_models_list e t) as [data|err]; simpl.
    + eexists _, _. split; [reflexivity|]. simpl.
      repeat split; try reflexivity; [apply sort_perm | apply sort_Sorted].
    + eexists _, _. split; [reflexivity|]. simpl. repeat split; reflexivity.
  - eexists _, _. split; [reflexivity|]. simpl. repeat split; reflexivity.
Qed.

(** X5. The function-based [listGroqModels] never throws and never returns
    an empty list: every model it returns has [llama] in its id, the list
    is the one it stores, and a model is selected when it returns. *)
Theorem listGroqModelsV1_never_empty (c : Ctx) (w : World) :
  exists ms w',
    ProvidersV1.listGroqModels c w = (Ok ms, w')
    /\ ms <> []
    /\ Forall (fun id => includes id (js "llama") = true) ms
    /\ models (ps_groq w') = ms
    /\ opt_truthy (selectedModel (ps_groq w')) = true.
Proof.
  destruct (listGroqModelsV1_state c w) as (ms & w' & Hrun & Hne & Hall & Hms & Hsel).
  exists ms, w'. repeat split; try assumption.
  eapply Forall_impl; [|exact Hall]. intros id [_ H]. exact H.
Qed.

(** ** Invariants of the module state *)

(** *** The selected Ollama model is a listed one *)

Lemma Keeps_listOllamaModels : Keeps ollamaSelectionListed Providers.listOllamaModels.
Proof.
  intros c w _. unfold Providers.listOllamaModels. wp_run.
  intros m. simpl. intros H. injection H as <-. left. reflexivity.
Qed.

Ltac listed_solver :=
  unfold ollamaSelectionListed in *; simpl in *;
  try assumption;
  try (intros ? Heq;
       first [ discriminate Heq
             | apply first_or_null_In; assumption
             | injection Heq as <-;
               first [ apply includes_model_true_In; assumption | simpl; auto ] ]).

Lemma classBased_keeps_listed call c w :
  ollamaSelectionListed w -> ollamaSelectionListed (classBased_after call c w).
Proof.
  intros Hw. destruct call as [| | | | | |p| |p ? ?|p ?|p];
    cbv beta iota delta [classBased_after];
    refine (wp_snd _ _ ollamaSelectionListed _ _);
    try destruct p; wp_exec; listed_solver.
Qed.

Lemma functionBased_keeps_listed call c w :
  ollamaSelectionListed w -> ollamaSelectionListed (functionBased_after call c w).
Proof.
  intros Hw. destruct call as [| | | | | |p| |p ? ?|p ?|p];
    cbv beta iota delta [functionBased_after];
    refine (wp_snd _ _ ollamaSelectionListed _ _);
    try destruct p; wp_exec; listed_solver.
Qed.

(** X6. In both modules, whatever exports are called and in whatever
    order since the module was loaded, the Ollama model selected in
    [providerState] is one of the models listed there. *)
Theorem ollama_selection_is_listed (e : Env) (calls : list (Task * ApiCall)) :
  ollamaSelectionListed (afterAll classBased_after e calls Providers.initialWorld)
  /\ ollamaSelectionListed (afterAll functionBased_after e calls ProvidersV1.initialWorld).
Proof.
  split; apply afterAll_keeps;
    first [ exact classBased_keeps_listed | exact functionBased_keeps_listed
          | intros m Hm; discriminate Hm ].
Qed.

(** *** The models the class-based module asks Ollama for *)

Ltac mocked_model :=
  first [ eassumption
        | match goal with H : forall m, _ = Some m -> _ |- _ =>
            eapply H; eassumption end
        | match goal with H : incl _ mockModels |- _ =>
            apply H; apply includes_model_true_In; assumption end
        | unfold mockModels; simpl; auto; fail ].

Ltac mocked_field :=
  first [ assumption
        | let Heq := fresh "Heq" in
          intros ? Heq;
          first [ discriminate Heq | injection Heq as <-; mocked_model | mocked_model ] ].

Ltac mocked_log :=
  let Hin := fresh "Hin" in
  let Heq := fresh "Heq" in
  intros ? ? Hin;
  repeat (apply in_app_or in Hin as [Hin|[Heq|[]]];
          [| first [ discriminate Heq | injection Heq as <- <-; mocked_model ] ]);
  first [ destruct Hin
        | match goal with H : forall m prompt, In _ _ -> _ |- _ =>
            eapply H; eassumption end ].

Ltac mocked_solver :=
  match goal with
  | Hw : ollamaModelsMocked _ |- _ =>
    let Hincl := fresh "Hincl" in
    let Hsel := fresh "Hsel" in
    let Hobj := fresh "Hobj" in
    let Hlog := fresh "Hlog" in
    destruct Hw as (Hincl & Hsel & Hobj & Hlog);
    unfold ollamaModelsMocked; simpl in *;
    repeat match goal with
           | H : Some _ = Some _ |- _ => injection H as H; try subst
           end;
    (split; [try first [ assumption | apply incl_refl | intros ? [] ] |]);
    (split; [try mocked_field |]);
    (split; [try mocked_field | try mocked_log])
  end.

Lemma classBased_keeps_mocked call c w :
  ollamaModelsMocked w -> ollamaModelsMocked (classBased_after call c w).
Proof.
  intros Hw. destruct call as [| | | | | |p| |p ? ?|p ?|p];
    cbv beta iota delta [classBased_after];
    refine (wp_snd _ _ ollamaModelsMocked _ _);
    try destruct p; wp_exec; mocked_solver.
Qed.

(** X7. In the class-based module, whatever exports are called and in
    whatever order since the module was loaded, every generation request
    sent to Ollama names one of the three models of the hard-coded list. *)
Theorem ollama_requests_name_mock_models (e : Env) (calls : list (Task * ApiCall))
    (m prompt : JsString) :
  In (OllamaGenerate m prompt)
     (network (afterAll classBased_after e calls Providers.initialWorld)) ->
  In m mockModels.
Proof.
  assert (H : ollamaModelsMocked (afterAll classBased_after e calls Providers.initialWorld)).
  { apply afterAll_keeps; [exact classBased_keeps_mocked|].
    split; [intros ? []|]. split; [intros ? H; discriminate H|].
    split; [intros ? H; discriminate H | intros ? ? []]. }
  destruct H as (_ & _ & _ & Hlog). apply Hlog.
Qed.

Lemma ollama_requests_name_mock_models_witness :
  In (js "codellama") mockModels.
Proof.
  apply (ollama_requests_name_mock_models (ollamaEnv (Ok (js "text")))
           [ (MainTask, call_listOllamaModels);
             (MainTask, call_setSelectedOllamaModel (js "codellama"));
             (MainTask, call_generateTweets ollama (js "news")) ]
           (js "codellama") (Providers.getTweetPrompt (js "news"))).
  vm_compute. left. reflexivity.
Defined.

(** *** The model a briefing asks Ollama for *)

Lemma wp_allSettled_from {A} (I : World -> Prop) (promises : list (M A)) :
  (forall p, In p promises -> Keeps I p) ->
  forall i c w, I w -> wp c (allSettled_from i promises) (fun _ => I) (fun _ => I) w.
Proof.
  induction promises as [|p rest IH]; intros Hp i c w Hw; simpl.
  - exact Hw.
  - rewrite wp_bind, wp_settle, wp_in_task.
    eapply wp_mono; [apply (Hp p); [left; reflexivity | exact Hw] | |];
      cbv beta; intros ? w1 Hw1.
    + rewrite wp_bind.
      eapply wp_mono; [apply IH; [intros q Hq; apply Hp; right; exact Hq | exact Hw1] | |];
        cbv beta; auto.
    + rewrite wp_bind.
      eapply wp_mono; [apply IH; [intros q Hq; apply Hp; right; exact Hq | exact Hw1] | |];
        cbv beta; auto.
Qed.

Lemma Keeps_fanOut (I : World -> Prop) lib interests len p :
  (forall interest, Keeps I (generateSingleBriefingForInterest lib interest len p)) ->
  Keeps I (fanOut lib interests len p).
Proof.
  intros Hp c w Hw. unfold fanOut, Promise_allSettled.
  rewrite wp_try_catch, wp_bind.
  eapply wp_mono; [apply wp_allSettled_from; [|exact Hw] | |]; cbv beta; auto.
  intros q Hq. apply in_map_iff in Hq as (interest & <- & _). apply Hp.
Qed.

Ltac llama2_log :=
  let Hin := fresh "Hin" in
  let Heq := fresh "Heq" in
  intros ? ? Hin;
  repeat (apply in_app_or in Hin as [Hin|[Heq|[]]];
          [| first [ discriminate Heq | injection Heq as <- <-; right; congruence ] ]);
  match goal with H : forall m prompt, In _ _ -> _ |- _ => eapply H; eassumption end.

Ltac llama2_solver :=
  match goal with
  | Hw : asksLlama2Since _ _ |- _ =>
    let Hsel := fresh "Hsel" in
    let Hlog := fresh "Hlog" in
    destruct Hw as (Hsel & Hlog);
    unfold asksLlama2Since; simpl in *;
    first [ congruence
          | exfalso;
            match goal with
            | H : selectedModel (ps_ollama _) = Some ?j, F : str_truthy ?j = false |- _ =>
              rewrite Hsel in H; injection H as <-; vm_compute in F; discriminate F
            end
          | split; [ first [ assumption | reflexivity ] | llama2_log ] ]
  end.

Lemma generateSummary_keeps_llama2 w0 p interest len :
  Keeps (asksLlama2Since w0) (Providers.AIProviderManager.generateSummary p interest len).
Proof.
  intros c w Hw. destruct p; wp_exec; llama2_solver.
Qed.

Lemma generateTweets_keeps_llama2 w0 p summary :
  Keeps (asksLlama2Since w0) (Providers.AIProviderManager.generateTweets p summary).
Proof.
  intros c w Hw. destruct p; wp_exec; llama2_solver.
Qed.

Lemma Keeps_pipeline (I : World -> Prop) lib interest len p :
  (forall p interest len, Keeps I (lib_generateSummary lib p interest len)) ->
  (forall p summary, Keeps I (lib_generateTweets lib p summary)) ->
  Keeps I (generateSingleBriefingForInterest lib interest len p).
Proof.
  intros Hsummary Htweets c w Hw. unfold generateSingleBriefingForInterest.
  rewrite wp_try_catch, wp_bind.
  eapply wp_mono; [apply Hsummary; exact Hw | |]; cbv beta; [|auto].
  intros [summary sources] w1 Hw1.
  destruct (negb (str_truthy summary)); [exact Hw1|].
  rewrite wp_bind, wp_try_catch.
  eapply wp_mono; [apply Htweets; exact Hw1 | |]; cbv beta;
    intros ? w2 Hw2; [| rewrite wp_ret];
    rewrite wp_bind, wp_lift; destruct (slice_0_3 _); exact Hw2.
Qed.

(** X8. With the class-based module, [generateBriefing] leaves [llama2]
    selected for Ollama and sends Ollama no generation request for another
    model, whatever model had been selected before the call: the list of
    providers is asked for first, and that selects the first model of the
    hard-coded list again. *)
Theorem generateBriefing_asks_llama2 (interests : list JsString) (len : SummaryLength)
    (provider : AIProvider) (c : Ctx) (w : World) :
  let w' := snd (generateBriefing classBasedModule interests len provider c w) in
  selectedModel (ps_ollama w') = Some (js "llama2")
  /\ forall m prompt,
       In (OllamaGenerate m prompt) (network w') ->
       In (OllamaGenerate m prompt) (network w) \/ m = js "llama2".
Proof.
  refine (wp_snd _ _ (asksLlama2Since w) _ _).
  assert (Hfan : forall p, Keeps (asksLlama2Since w)
                             (fanOut classBasedModule interests len p)).
  { intros p. apply Keeps_fanOut. intros interest. apply Keeps_pipeline.
    - intros. apply generateSummary_keeps_llama2.
    - intros p0 summary c0 w0 Hw0. simpl. rewrite wp_bind.
      eapply wp_mono; [apply generateTweets_keeps_llama2; exact Hw0 | |]; cbv beta; auto. }
  unfold generateBriefing. rewrite wp_bind.
  change (lib_getAvailableProviders classBasedModule) with Providers.getAvailableProviders.
  unfold Providers.getAvailableProviders, Providers.listOllamaModels.
  repeat first [ wp_step | progress simpl ];
    try (apply Hfan; split; simpl; [reflexivity | intros; left; assumption]);
    try (split; simpl; [reflexivity | intros; left; assumption]).
Qed.

(** ** The shape of a briefing *)

Lemma slice_0_3_atMostThree v sliced : slice_0_3 v = Ok sliced -> atMostThree sliced.
Proof.
  unfold slice_0_3, slice0.
  destruct v as [| | | |s|items|]; intros H; try discriminate H; injection H as <-.
  - exact (firstn_le_length 3 s).
  - exact (firstn_le_length 3 items).
Qed.

Lemma pipeline_item lib topic len provider c w :
  match fst (generateSingleBriefingForInterest lib topic len provider c w) with
  | Ok item =>
    interest item = topic /\ error item = None /\ atMostThree (tweets item)
    /\ exists text, text <> [] /\ summary item = trim text
  | Throw reason => exists message, reason = JsError message
  end.
Proof.
  unfold generateSingleBriefingForInterest. unfold_monad.
  destruct (lib_generateSummary lib provider topic len c w) as [[[text sources]|err] w1];
    simpl.
  2: { destruct err; eexists; reflexivity. }
  destruct text as [|ch text]; simpl; [eexists; reflexivity|].
  destruct (lib_generateTweets lib provider (ch :: text) c w1) as [[posts|err] w2]; simpl.
  - destruct (slice_0_3 posts) as [sliced|err] eqn:Hs; simpl.
    + repeat split; [exact (slice_0_3_atMostThree _ _ Hs)|].
      exists (ch :: text). split; [discriminate|reflexivity].
    + destruct err; eexists; reflexivity.
  - repeat split; [simpl; lia|].
    exists (ch :: text). split; [discriminate|reflexivity].
Qed.


Lemma allSettled_settledFor lib len p interests :
  forall i c w results w',
    allSettled_from i (pipelines lib interests len p) c w = (Ok results, w') ->
    Forall2 settledFor interests results.
Proof.
  induction interests as [|topic rest IH]; intros i c w results w' Hrun; simpl in Hrun.
  - inversion Hrun. constructor.
  - unfold_monad.
    pose proof (pipeline_item lib topic len p {| env := env c; task := PipelineTask i |} w)
      as Hitem.
    destruct (generateSingleBriefingForInterest lib topic len p _ w) as [[item|err] w1];
      simpl in Hitem;
      destruct (allSettled_from_ok (pipelines lib rest len p) (S i) c w1)
        as (rs & w2 & Hrs & _);
      unfold pipelines in Hrs, Hrun; rewrite Hrs in Hrun; inversion Hrun; subst;
      constructor; try (eapply IH; exact Hrs); simpl; tauto.
Qed.

Lemma entries_interests done rest results :
  Forall2 settledFor rest results ->
  map interest (map (entryOf (done ++ rest))
                    (combine (seq (List.length done) (List.length results)) results))
  = rest.
Proof.
  intros H. revert done. induction H as [|topic r rest results Hr _ IH]; intros done.
  - reflexivity.
  - simpl. f_equal.
    + unfold entryOf. simpl. destruct r as [value|reason]; simpl.
      * apply Hr.
      * rewrite nth_middle. reflexivity.
    + specialize (IH (done ++ [topic])).
      rewrite <- app_assoc, length_app in IH. simpl in IH.
      rewrite Nat.add_1_r in IH. exact IH.
Qed.

Lemma errors_count interests (indexed : list (nat * Settled BriefingItem)) :
  Forall (fun ir => match snd ir with
                    | fulfilled value => error value = None
                    | rejected _ => True
                    end) indexed ->
  List.length (flat_map (errorsOf interests) indexed)
  = List.length (filter hasError (map (entryOf interests) indexed)).
Proof.
  induction 1 as [|[i r] rest Hr _ IH]; [reflexivity|].
  simpl. rewrite length_app, IH. unfold errorsOf, entryOf, hasError. simpl in *.
  destruct r as [value|reason]; simpl; [rewrite Hr|]; reflexivity.
Qed.

(** X10. Once the list of providers has been obtained and is not empty,
    [generateBriefing] never rejects and returns one briefing per topic, in
    the order of the topics and each under its own topic, whatever fails;
    it returns as many error lines as briefings that carry an error, so at
    most one per topic. *)
Theorem generateBriefing_one_entry_per_topic (lib : AiProvidersModule)
    (interests : list JsString) (len : SummaryLength) (provider : AIProvider)
    (c : Ctx) (w : World) (avail : list AIProvider) (w1 : World) :
  lib_getAvailableProviders lib c w = (Ok avail, w1) ->
  avail <> [] ->
  exists r w',
    generateBriefing lib interests len provider c w = (Ok r, w')
    /\ map interest (briefings r) = interests
    /\ List.length (errors r) = List.length (filter hasError (briefings r))
    /\ List.length (errors r) <= List.length interests.
Proof.
  intros Havail Hne.
  assert (Hp : exists p, resolvedProvider provider avail = Some p).
  { unfold resolvedProvider. destruct (existsb _ avail); [eauto|].
    destruct avail; [congruence | simpl; eauto]. }
  destruct Hp as [p Hp].
  rewrite (generateBriefing_resolved lib interests len provider c w avail w1 p Havail Hp).
  destruct (allSettled_from_ok (pipelines lib interests len p) 0 c w1)
    as (results & w' & Hrun & Hlen).
  exists (forEachResult interests results), w'.
  split; [apply fanOut_run; exact Hrun|].
  pose proof (allSettled_settledFor _ _ _ _ _ _ _ _ _ Hrun) as Hfor.
  rewrite forEachResult_spec. simpl.
  assert (Hentries : map interest
            (map (entryOf interests) (combine (seq 0 (List.length results)) results))
          = interests) by (apply (entries_interests [] interests results Hfor)).
  assert (Hcount : List.length (flat_map (errorsOf interests)
                                  (combine (seq 0 (List.length results)) results))
                   = List.length (filter hasError
                       (map (entryOf interests)
                            (combine (seq 0 (List.length results)) results)))).
  { apply errors_count. apply Forall_forall. intros [i r] Hin.
    apply in_combine_r in Hin. simpl.
    assert (Hall : Forall (fun r => match r with
                                     | fulfilled value => error value = None
                                     | rejected _ => True
                                     end) results).
    { clear -Hfor. induction Hfor as [|topic r0 ? ? Hr _ IH]; constructor; [|exact IH].
      destruct r0; simpl in Hr; tauto. }
    rewrite Forall_forall in Hall. exact (Hall r Hin). }
  split; [exact Hentries|]. split; [exact Hcount|].
  rewrite Hcount.
  etransitivity; [apply filter_length_le|].
  rewrite <- Hentries at 2. rewrite !length_map. reflexivity.
Qed.

Lemma generateBriefing_one_entry_per_topic_witness :
  exists r w',
    generateBriefing classBasedModule threeTopics short gemini (mainCtx offlineEnv)
      Providers.initialWorld = (Ok r, w')
    /\ map interest (briefings r) = threeTopics
    /\ List.length (errors r) = List.length (filter hasError (briefings r))
    /\ List.length (errors r) <= List.length threeTopics.
Proof.
  eapply (generateBriefing_one_entry_per_topic classBasedModule threeTopics short gemini
            (mainCtx offlineEnv) Providers.initialWorld).
  - vm_compute. reflexivity.
  - discriminate.
Defined.

(** ** The connection test *)

Lemma existsb_provider_In provider avail :
  existsb (AIProvider_eqb provider) avail = true <-> In provider avail.
Proof.
  rewrite existsb_exists. split.
  - intros (p & Hin & Heq). destruct provider, p; simpl in Heq; try discriminate; exact Hin.
  - intros Hin. exists provider. split; [exact Hin | destruct provider; reflexivity].
Qed.

(** X11. [testProviderConnection] never rejects, whatever the library
    does.  It reports success exactly when the list of providers was
    obtained, holds the provider, and the test summary came back not empty;
    its message then says that the provider is working. *)
Theorem testProviderConnection_success (lib : AiProvidersModule) (provider : AIProvider)
    (c : Ctx) (w : World) :
  exists r w',
    testProviderConnection lib provider c w = (Ok r, w')
    /\ (success r = true <->
        exists avail w1 text found w2,
          lib_getAvailableProviders lib c w = (Ok avail, w1)
          /\ In provider avail
          /\ lib_generateSummary lib provider (js "artificial intelligence") short c w1
             = (Ok (text, found), w2)
          /\ text <> [])
    /\ (success r = true ->
        message r = AIProvider_toString provider ++ js " is working correctly!").
Proof.
  unfold testProviderConnection. unfold_monad.
  destruct (lib_getAvailableProviders lib c w) as [[avail|err] w1] eqn:Havail.
  2: { eexists _, _. split; [reflexivity|]. simpl. split; [|discriminate].
       split; [discriminate|]. intros (? & ? & ? & ? & ? & H & _). discriminate H. }
  destruct (existsb (AIProvider_eqb provider) avail) eqn:Hin; simpl.
  2: { eexists _, _. split; [reflexivity|]. simpl. split; [|discriminate].
       split; [discriminate|]. intros (? & ? & ? & ? & ? & H & Hp & _).
       injection H as <- <-. apply existsb_provider_In in Hp. congruence. }
  apply existsb_provider_In in Hin.
  destruct (lib_generateSummary lib provider (js "artificial intelligence") short c w1)
    as [[[text found]|err] w2] eqn:Hsum; simpl.
  2: { eexists _, _. split; [reflexivity|]. simpl. split; [|discriminate].
       split; [discriminate|]. intros (? & ? & ? & ? & ? & H & _ & H2 & _).
       injection H as <- <-. rewrite Hsum in H2. discriminate H2. }
  destruct text as [|ch text]; simpl.
  - eexists _, _. split; [reflexivity|]. simpl. split; [|discriminate].
    split; [discriminate|]. intros (? & ? & ? & ? & ? & H & _ & H2 & Hne).
    injection H as <- <-. rewrite Hsum in H2. injection H2 as <- <- <-. congruence.
  - eexists _, _. split; [reflexivity|]. simpl. split; [|reflexivity].
    split; [|reflexivity]. intros _.
    exists avail, w1, (ch :: text), found, w2. repeat split; auto. discriminate.
Qed.

(** X12. For a provider that is not in the list of providers, the
    connection test of either module fails with the message that the
    provider is not available, and no generation request is sent. *)
Theorem testProviderConnection_unavailable (lib : AiProvidersModule)
    (provider : AIProvider) (c : Ctx) (w : World) :
  lib = classBasedModule \/ lib = functionBasedModule ->
  ~ In provider (match fst (lib_getAvailableProviders lib c w) with
                 | Ok avail => avail
                 | Throw _ => []
                 end) ->
  fst (testProviderConnection lib provider c w)
  = Ok {| success := false;
          message := AIProvider_toString provider
                     ++ js " is not available. Please check your configuration." |}
  /\ filter isGenerationCall (network (snd (testProviderConnection lib provider c w)))
     = filter isGenerationCall (network w).
Proof.
  intros Hlib Hnot.
  pose proof (getAvailableProviders_no_generation lib c w Hlib) as Hlog.
  destruct (getAvailableProviders_ok lib c w Hlib) as (avail & w1 & Havail).
  rewrite Havail in Hnot, Hlog. simpl in Hnot, Hlog.
  unfold testProviderConnection. unfold_monad. rewrite Havail.
  destruct (existsb (AIProvider_eqb provider) avail) eqn:Hin.
  - apply existsb_provider_In in Hin. contradiction.
  - simpl. split; [reflexivity | exact Hlog].
Qed.

Lemma testProviderConnection_unavailable_witness :
  fst (testProviderConnection functionBasedModule groq (mainCtx offlineEnv)
         ProvidersV1.initialWorld)
  = Ok {| success := false;
          message := AIProvider_toString groq
                     ++ js " is not available. Please check your configuration." |}.
Proof.
  apply (proj1 (testProviderConnection_unavailable functionBasedModule groq
                  (mainCtx offlineEnv) ProvidersV1.initialWorld
                  (or_intror eq_refl)
                  ltac:(vm_compute; tauto))).
Defined.

(** ** The preferences kept in the browser *)

Lemma js_eqb_refl a : js_eqb a a = true.
Proof. apply js_eqb_eq. reflexivity. Qed.

Lemma js_eqb_neq a b : a <> b -> js_eqb a b = false.
Proof.
  intros H. destruct (js_eqb a b) eqn:E; [|reflexivity].
  apply js_eqb_eq in E. contradiction.
Qed.

Lemma getItem_setItem key value items :
  Utils.getItem key (Utils.setItem key value items) = Some value.
Proof.
  induction items as [|[k v] rest IH]; simpl.
  - rewrite js_eqb_refl. reflexivity.
  - destruct (js_eqb key k) eqn:E; simpl; rewrite E; [reflexivity | exact IH].
Qed.

Lemma getItem_setItem_other key other value items :
  other <> key ->
  Utils.getItem other (Utils.setItem key value items) = Utils.getItem other items.
Proof.
  intros Hne. induction items as [|[k v] rest IH]; simpl.
  - rewrite (js_eqb_neq other key Hne). reflexivity.
  - destruct (js_eqb key k) eqn:E; simpl.
    + apply js_eqb_eq in E. subst k. rewrite (js_eqb_neq other key Hne). reflexivity.
    + rewrite IH. reflexivity.
Qed.

Lemma getItem_removeItem key items :
  Utils.getItem key (Utils.removeItem key items) = None.
Proof.
  unfold Utils.removeItem.
  induction items as [|[k v] rest IH]; simpl; [reflexivity|].
  destruct (js_eqb key k) eqn:E; simpl; [exact IH | rewrite E; exact IH].
Qed.

Lemma getItem_removeItem_other key other items :
  other <> key ->
  Utils.getItem other (Utils.removeItem key items) = Utils.getItem other items.
Proof.
  intros Hne. unfold Utils.removeItem.
  induction items as [|[k v] rest IH]; simpl; [reflexivity|].
  destruct (js_eqb key k) eqn:E; simpl.
  - apply js_eqb_eq in E. subst k. rewrite (js_eqb_neq other key Hne). exact IH.
  - rewrite IH. reflexivity.
Qed.

(** X13. In a browser whose storage is open and has room, a value written
    with [storage.set] is read back by [storage.get] under the same key as
    what [JSON.parse] makes of its [JSON.stringify] text, or as the default
    if that text does not parse; the other keys read as before. *)
Theorem storage_set_get (b : Utils.Browser) (items : Utils.LocalStorage)
    (key : JsString) (value defaultValue : JsValue) (text : JsString) :
  Utils.window_defined b = true ->
  Utils.storage_blocked b = None ->
  Utils.JSON_stringify b value = Some text ->
  text <> [] ->
  Utils.within_quota b (Utils.setItem key text items) = true ->
  Utils.get b (Utils.set b items key value) key defaultValue
  = match Utils.JSON_parse b text with
    | Ok parsed => parsed
    | Throw _ => defaultValue
    end
  /\ forall other otherDefault,
       other <> key ->
       Utils.get b (Utils.set b items key value) other otherDefault
       = Utils.get b items other otherDefault.
Proof.
  intros Hw Hb Hs Hne Hq.
  unfold Utils.get, Utils.set, Utils.localStorage_getItem, Utils.localStorage_setItem.
  rewrite Hw, Hb, Hs. simpl. rewrite Hq. split.
  - rewrite getItem_setItem. simpl. rewrite (str_truthy_nonempty text Hne). reflexivity.
  - intros other otherDefault Hother. rewrite (getItem_setItem_other key other text items Hother).
    reflexivity.
Qed.

Lemma storage_set_get_witness :
  Utils.get exampleBrowser
    (Utils.set exampleBrowser [] (js "summaryLength") (JStr (js "short")))
    (js "summaryLength") (JStr (js "medium"))
  = JStr (js "short").
Proof.
  eapply eq_trans.
  - apply (proj1 (storage_set_get exampleBrowser [] (js "summaryLength")
                    (JStr (js "short")) (JStr (js "medium")) (jsq "`short`")
                    eq_refl eq_refl ltac:(vm_compute; reflexivity)
                    ltac:(vm_compute; discriminate) eq_refl)).
  - vm_compute. reflexivity.
Defined.

(** X14. After [storage.remove], in a browser whose storage is open,
    [storage.get] gives the default for the removed key and reads the other
    keys as before.  On the server, or where the browser blocks the storage,
    [get] gives the default and [set] and [remove] store nothing; none of the
    three throws. *)
Theorem storage_remove_and_unavailable (b : Utils.Browser) (items : Utils.LocalStorage)
    (key : JsString) (value defaultValue : JsValue) :
  (Utils.window_defined b = true -> Utils.storage_blocked b = None ->
   Utils.get b (Utils.remove b items key) key defaultValue = defaultValue
   /\ forall other otherDefault,
        other <> key ->
        Utils.get b (Utils.remove b items key) other otherDefault
        = Utils.get b items other otherDefault)
  /\ (Utils.window_defined b = false \/ Utils.storage_blocked b <> None ->
      Utils.get b items key defaultValue = defaultValue
      /\ Utils.set b items key value = items
      /\ Utils.remove b items key = items).
Proof.
  unfold Utils.get, Utils.set, Utils.remove, Utils.localStorage_getItem,
    Utils.localStorage_setItem, Utils.localStorage_removeItem.
  split.
  - intros Hw Hb. rewrite Hw, Hb. simpl. split.
    + rewrite getItem_removeItem. reflexivity.
    + intros other otherDefault Hother.
      rewrite (getItem_removeItem_other key other items Hother). reflexivity.
  - intros [Hw|Hb].
    + rewrite Hw. simpl. repeat split.
    + destruct (Utils.window_defined b); simpl; [|repeat split].
      destruct (Utils.storage_blocked b); [repeat split | congruence].
Qed.

(** ** The list of interests *)

Lemma includes_interest_In l x : Page.includes_interest l x = true <-> In x l.
Proof.
  unfold Page.includes_interest. rewrite existsb_exists. split.
  - intros (y & Hin & Heq). apply js_eqb_eq in Heq. subst. exact Hin.
  - intros Hin. exists x. split; [exact Hin | apply js_eqb_eq; reflexivity].
Qed.

Lemma filter_absent (x : JsString) (l : list JsString) :
  ~ In x l -> filter (fun interest => negb (js_eqb interest x)) l = l.
Proof.
  induction l as [|y l IH]; intros Hnot; simpl; [reflexivity|].
  destruct (js_eqb y x) eqn:E.
  - apply js_eqb_eq in E. subst. exfalso. apply Hnot. left. reflexivity.
  - simpl. rewrite IH; [reflexivity|]. intros Hin. apply Hnot. right. exact Hin.
Qed.


(** X16. [removeInterest] removes every occurrence of the interest and
    nothing else; removing an interest that [addInterest] has just added
    gives the list back. *)
Theorem removeInterest_addInterest (s : Page.InterestsState) (x : JsString) :
  ~ In x (Page.interests (Page.removeInterest x s))
  /\ (forall y, y <> x ->
        (In y (Page.interests (Page.removeInterest x s)) <-> In y (Page.interests s)))
  /\ (str_truthy (trim (Page.newInterest s)) = true ->
      ~ In (trim (Page.newInterest s)) (Page.interests s) ->
      Page.interests (Page.removeInterest (trim (Page.newInterest s)) (Page.addInterest s))
      = Page.interests s).
Proof.
  split; [|split].
  - unfold Page.removeInterest. simpl. intros Hin. apply filter_In in Hin as [_ Hx].
    rewrite (proj2 (js_eqb_eq x x) eq_refl) in Hx. discriminate Hx.
  - intros y Hy. unfold Page.removeInterest. simpl. rewrite filter_In. split.
    + intros [H _]. exact H.
    + intros H. split; [exact H|].
      destruct (js_eqb y x) eqn:E; [|reflexivity].
      apply js_eqb_eq in E. contradiction.
  - intros Ht Hnot. unfold Page.addInterest. rewrite Ht.
    assert (Hi : Page.includes_interest (Page.interests s) (trim (Page.newInterest s)) = false).
    { destruct (Page.includes_interest _ _) eqn:E; [|reflexivity].
      apply includes_interest_In in E. contradiction. }
    rewrite Hi. simpl. rewrite filter_app. simpl.
    rewrite (proj2 (js_eqb_eq _ _) eq_refl). simpl.
    rewrite app_nil_r. apply filter_absent. exact Hnot.
Qed.
